(** * ChillBuddy: the progress-aggregation and reward-notification core

    A shallow embedding of the aggregation logic of the ChillBuddy front end
    (mood-tracker.js, journal.js, exercises.js, progress-dashboard.js,
    achievement-notifications.js, chat.js and the RewardPreview class), with
    the properties its specification states about streaks, averages, badge
    fractions, storage loading, retention caps and notifications.

    Conventions.
    - JavaScript numbers that hold integers are [Z]; quotients are exact
      rationals [Q] (the comparisons made below on quotients of small
      integers agree with IEEE-754 doubles).  The percentages of the
      dashboard are products and sums of quotients; there the rounding of
      each result to a double is a parameter [nearest].
    - Instants are milliseconds of local civil time in a zone with a constant
      offset, so a calendar day is [t / msPerDay].
    - A method that can throw returns an [outcome]. *)

From Stdlib Require Import ZArith QArith Qround Qminmax Lia Lqa List Ascii String Bool Sorted.
From stdpp Require Import base option list functions gmap strings.

Import ListNotations.
Local Open Scope Z_scope.

(** ** Completion records: JavaScript's normal and abrupt completion *)

Inductive jsError : Type :=
  | SyntaxError
  | TypeError.

Inductive outcome (A : Type) : Type :=
  | Return (a : A)
  | Throw (e : jsError).

Arguments Return {A} a.
Arguments Throw {A} e.

Definition obind {A B : Type} (m : outcome A) (k : A -> outcome B) : outcome B :=
  match m with
  | Return a => k a
  | Throw e => Throw e
  end.

(** [try { m } catch (error) { h }] *)
Definition tryCatch {A : Type} (m : outcome A) (h : jsError -> outcome A) : outcome A :=
  match m with
  | Return a => Return a
  | Throw e => h e
  end.

Declare Scope outcome_scope.
Delimit Scope outcome_scope with outcome.
Notation "'let!' x ':=' m 'in' k" := (obind m (fun x => k))
  (at level 10, x name, m at level 100, k at level 200) : outcome_scope.

Definition returns {A : Type} (m : outcome A) : Prop :=
  exists a, m = Return a.

(** ** Calendar *)

Definition msPerDay : Z := 1000 * 60 * 60 * 24.

(** [new Date(t).toDateString()] names the calendar day of [t]; two instants
    have the same date string exactly when they fall on the same day, so the
    string is represented by the day's index. *)
Definition toDateString (t : Z) : Z := t / msPerDay.

(** [d.setDate(d.getDate() - 1)]: the same time of day, one day earlier. *)
Definition setDatePrev (t : Z) : Z := t - msPerDay.

(** [d.setHours(0, 0, 0, 0)]: local midnight of the day of [t]. *)
Definition setHoursZero (t : Z) : Z := t - t mod msPerDay.

(** The streak the specification describes: [n] consecutive calendar days
    ending today all carry an entry, and the day before them carries none. *)
Definition StreakSpec (days : list Z) (today : Z) (n : nat) : Prop :=
  (forall k : Z, 0 <= k < Z.of_nat n -> In (today - k) days) /\
  ~ In (today - Z.of_nat n) days.

(** A history that is newest first with at most one entry per calendar day,
    none of them after day [c]. *)
Fixpoint oneEntryPerDay (c : Z) (days : list Z) : Prop :=
  match days with
  | [] => True
  | d :: rest => d <= c /\ oneEntryPerDay (d - 1) rest
  end.

(** ** Arrays *)

Section ArraySort.
Context {A : Type}.

(** [compare a b] is the number the comparison function returns: negative or
    zero keeps [a] before [b]. *)
Variable compare : A -> A -> Z.

Fixpoint insertSorted (x : A) (sorted : list A) : list A :=
  match sorted with
  | [] => [x]
  | y :: rest => if compare x y <=? 0 then x :: sorted else y :: insertSorted x rest
  end.

(** [array.sort(compare)] for a consistent comparison function: the sorted
    order that keeps elements comparing equal in their original order (the
    sort is stable), which is what a stable insertion sort produces. *)
Definition sort (l : list A) : list A := foldr insertSorted [] l.

End ArraySort.

(** ** mood-tracker.js *)

Module MoodTracker.

Record mood : Type := {
  value : Z;
  emoji : string;
  label : string
}.

Record moodEntry : Type := {
  id : Z;
  timestamp : Z;
  entryMood : mood;
  factors : list string
}.

Record tracker : Type := {
  currentMood : option mood;
  selectedFactors : list string;
  moodHistory : list moodEntry
}.

(** The body of the [for (const entry of this.moodHistory)] loop of
    [calculateStreak], with the loop variables [currentDate] and [streak]. *)
Fixpoint streakLoop (entries : list moodEntry) (currentDate : Z) (streak : nat) : nat :=
  match entries with
  | [] => streak
  | entry :: rest =>
      let entryDate := toDateString (timestamp entry) in
      let expectedDate := toDateString currentDate in
      if entryDate =? expectedDate
      then streakLoop rest (setDatePrev currentDate) (S streak)
      else streak
  end.

Definition calculateStreak (now : Z) (t : tracker) : nat :=
  if (length (moodHistory t) =? 0)%nat then 0%nat
  else streakLoop (moodHistory t) now 0.

Definition entryDays (t : tracker) : list Z :=
  map (fun e => toDateString (timestamp e)) (moodHistory t).

Definition sumMood (t : tracker) : Z :=
  fold_left (fun total entry => total + value (entryMood entry)) (moodHistory t) 0.

Definition calculateAverageMood (t : tracker) : Q :=
  if (length (moodHistory t) =? 0)%nat then 0%Q
  else (inject_Z (sumMood t) / inject_Z (Z.of_nat (length (moodHistory t))))%Q.

Definition resetForm (t : tracker) : tracker :=
  {| currentMood := None; selectedFactors := []; moodHistory := moodHistory t |}.

(** [logMood].  The history is updated and saved first; the success
    message is built after [resetForm] has cleared [this.currentMood], so
    reading [this.currentMood.emoji] is what completes the call. *)
Definition logMood (now : Z) (t : tracker) : outcome unit * tracker :=
  match currentMood t with
  | None => (Return tt, t)
  | Some m =>
      let moodEntry := {| id := now; timestamp := now; entryMood := m;
                          factors := selectedFactors t |} in
      let unshifted := moodEntry :: moodHistory t in
      let history :=
        if (30 <? length unshifted)%nat then take 30 unshifted else unshifted in
      let t' := resetForm {| currentMood := currentMood t;
                             selectedFactors := selectedFactors t;
                             moodHistory := history |} in
      match currentMood t' with
      | None => (Throw TypeError, t')
      | Some _ => (Return tt, t')
      end
  end.

(** A factor tag of the page: its [data-factor] and whether it carries the
    class [selected]. *)
Record factorTag : Type := {
  factor : string;
  selected : bool
}.

(** The click handler [initializeFactorTags] installs on a tag. *)
Definition clickFactorTag (tag : factorTag) (t : tracker) : factorTag * tracker :=
  let tag' := {| factor := factor tag; selected := negb (selected tag) |} in
  let factors' :=
    if selected tag' then
      if decide (factor tag ∈ selectedFactors t) then selectedFactors t
      else selectedFactors t ++ [factor tag]
    else filter (fun f => f <> factor tag) (selectedFactors t) in
  (tag', {| currentMood := currentMood t; selectedFactors := factors';
            moodHistory := moodHistory t |}).

(** An insight card: its type and title, and the factor or streak it names. *)
Inductive insight : Type :=
  | ImprovingTrend
  | DecliningTrend
  | StablePattern
  | CommonFactor (name : string)
  | GreatStreak (days : nat).

Definition averageOf (values : list Z) : Q :=
  Qdiv (inject_Z (fold_left Z.add values 0)) (inject_Z (Z.of_nat (length values))).

(** The trend analysis of [analyzePatterns] on [recentEntries]. *)
Definition trendInsights (recentEntries : list moodEntry) : list insight :=
  if (3 <=? length recentEntries)%nat then
    let recent := map (fun e => value (entryMood e)) (take 3 recentEntries) in
    let older := map (fun e => value (entryMood e)) (take 3 (drop 3 recentEntries)) in
    let recentAvg := averageOf recent in
    let olderAvg := if (0 <? length older)%nat then averageOf older else recentAvg in
    if Qlt_le_dec (olderAvg + (1 # 2)) recentAvg then [ImprovingTrend]
    else if Qlt_le_dec recentAvg (olderAvg - (1 # 2)) then [DecliningTrend]
    else [StablePattern]
  else [].

(** [factorCounts[factor] = (factorCounts[factor] || 0) + 1] on an object
    whose keys are kept in the order they were first written (factor names
    are taken not to be names that [Object.prototype] defines, nor
    numerals). *)
Fixpoint countFactor (f : string) (counts : list (string * Z)) : list (string * Z) :=
  match counts with
  | [] => [(f, 1)]
  | (g, n) :: rest =>
      if decide (g = f) then (g, n + 1) :: rest
      else (g, n) :: countFactor f rest
  end.

Definition factorCounts (history : list moodEntry) : list (string * Z) :=
  fold_left (fun counts entry => fold_left (fun c f => countFactor f c) (factors entry) counts)
            history [].

(** [factorCounts[key]], [None] for [undefined]. *)
Fixpoint countOf (counts : list (string * Z)) (key : string) : option Z :=
  match counts with
  | [] => None
  | (g, n) :: rest => if decide (g = key) then Some n else countOf rest key
  end.

(** The property key an accumulator stands for: the initial [null] of the
    reduction reads the property named "null". *)
Definition keyOf (a : option string) : string :=
  match a with
  | None => "null"
  | Some a' => a'
  end.

(** [factorCounts[a] > factorCounts[b]], false when either is [undefined]. *)
Definition countGreater (counts : list (string * Z)) (a : option string) (b : string) : bool :=
  match countOf counts (keyOf a), countOf counts b with
  | Some x, Some y => y <? x
  | _, _ => false
  end.

(** [Object.keys(factorCounts).reduce((a, b) => ... ? a : b, null)] *)
Definition topFactor (counts : list (string * Z)) : option string :=
  fold_left (fun a b => if countGreater counts a b then a else Some b)
            (map fst counts) None.

Definition factorInsights (history : list moodEntry) : list insight :=
  let counts := factorCounts history in
  match topFactor counts with
  | Some EmptyString => []
  | Some top =>
      match countOf counts top with
      | Some n => if 3 <=? n then [CommonFactor top] else []
      | None => []
      end
  | None => []
  end.

Definition streakInsights (now : Z) (t : tracker) : list insight :=
  let streak := calculateStreak now t in
  if (3 <=? streak)%nat then [GreatStreak streak] else [].

Definition analyzePatterns (now : Z) (t : tracker) : list insight :=
  trendInsights (take 7 (moodHistory t))
  ++ factorInsights (moodHistory t)
  ++ streakInsights now t.

(** How often a name occurs in a list of factors, and how often a factor
    was recorded in the history. *)
Definition tally (g : string) (fs : list string) : Z :=
  Z.of_nat (length (filter (fun x => x = g) fs)).

Definition occurrences (f : string) (history : list moodEntry) : Z :=
  tally f (concat (map factors history)).

(** What the reduction over the keys has established after the keys in
    [seen]: an accumulator still [null] beat every key so far, any other is
    a key seen with the largest count. *)
Definition leads (counts : list (string * Z)) (seen : list string) (acc : option string) : Prop :=
  match acc with
  | None => forall g, g ∈ seen -> countGreater counts None g = true
  | Some a =>
      a ∈ seen /\
      forall g, g ∈ seen ->
        default 0 (countOf counts g) <= default 0 (countOf counts a)
  end.


End MoodTracker.

(** ** exercises.js *)

Module ExercisesSystem.

Record exercise : Type := {
  exerciseId : string;
  exerciseName : string
}.

Record completion : Type := {
  id : Z;
  doneExercise : exercise;
  category : string;
  duration : Z;
  completedAt : Z
}.

Record system : Type := {
  currentCategory : string;
  currentExercise : option exercise;
  isActive : bool;
  totalDuration : Z;
  timeRemaining : Z;
  exerciseHistory : list completion
}.

Definition completeExercise (now : Z) (s : system) : system :=
  match currentExercise s with
  | None =>
      {| currentCategory := currentCategory s; currentExercise := None;
         isActive := false; totalDuration := totalDuration s;
         timeRemaining := timeRemaining s; exerciseHistory := exerciseHistory s |}
  | Some ex =>
      let done := {| id := now; doneExercise := ex; category := currentCategory s;
                     duration := totalDuration s - timeRemaining s;
                     completedAt := now |} in
      let unshifted := done :: exerciseHistory s in
      let history :=
        if (50 <? length unshifted)%nat then take 50 unshifted else unshifted in
      {| currentCategory := currentCategory s; currentExercise := Some ex;
         isActive := false; totalDuration := totalDuration s;
         timeRemaining := timeRemaining s; exerciseHistory := history |}
  end.

Inductive achievement : Type :=
  | FirstExercise
  | CategoryMaster (ofCategory : string).

(** [this.exerciseHistory.filter(h => h.category === this.currentCategory).length] *)
Definition categoryCount (s : system) : nat :=
  length (filter (fun h => category h = currentCategory s) (exerciseHistory s)).

(** [checkAchievements]: the achievements it hands to the notifications. *)
Definition checkAchievements (s : system) : list achievement :=
  (if (length (exerciseHistory s) =? 1)%nat then [FirstExercise] else [])
  ++ (if (categoryCount s =? 5)%nat then [CategoryMaster (currentCategory s)] else []).

(** The texts of [formatDuration]: [`${s}s`], [`${m}m`] and
    [`${m}m ${s}s`]. *)
Inductive durationText : Type :=
  | SecondsOnly (seconds : Z)
  | MinutesOnly (minutes : Z)
  | MinutesSeconds (minutes seconds : Z).

(** [formatDuration]: [Math.floor(seconds / 60)] rounds down and [%] takes
    the sign of [seconds]. *)
Definition formatDuration (seconds : Z) : durationText :=
  let minutes := seconds / 60 in
  let remainingSeconds := Z.rem seconds 60 in
  if minutes =? 0 then SecondsOnly remainingSeconds
  else if remainingSeconds =? 0 then MinutesOnly minutes
  else MinutesSeconds minutes remainingSeconds.

(** The number of seconds a text of [formatDuration] reads as. *)
Definition secondsShown (text : durationText) : Z :=
  match text with
  | SecondsOnly s => s
  | MinutesOnly m => m * 60
  | MinutesSeconds m s => m * 60 + s
  end.

(** [getTotalTime] *)
Definition getTotalTime (s : system) : durationText :=
  formatDuration (fold_left (fun total h => total + duration h) (exerciseHistory s) 0).

Record completionStats : Type := {
  total : nat;
  breathing : nat;
  mindfulness : nat;
  totalTime : Z
}.

Definition getCompletionStats (s : system) : completionStats :=
  {| total := length (exerciseHistory s);
     breathing := length (filter (fun h => category h = "breathing") (exerciseHistory s));
     mindfulness := length (filter (fun h => category h = "mindfulness") (exerciseHistory s));
     totalTime := fold_left (fun total h => total + duration h) (exerciseHistory s) 0 |}.

End ExercisesSystem.

(** ** journal.js: the journal *)

Module JournalSystem.

Record journalEntry : Type := {
  id : Z;
  date : Z;
  content : string;
  mood : option Z;
  prompt : option string;
  wordCount : option Z;
  lastModified : option Z
}.

Record journal : Type := {
  entries : list journalEntry;
  currentEntry : option journalEntry;
  isEditing : bool
}.

(** The [for (let i = 0; ...)] loop of [getStreak]; [today] is already
    set to midnight. *)
Fixpoint getStreakLoop (es : list journalEntry) (today : Z) (streak : nat) : nat :=
  match es with
  | [] => streak
  | e :: rest =>
      let entryDate := setHoursZero (date e) in
      let daysDiff := (today - entryDate) / msPerDay in
      if daysDiff =? Z.of_nat streak
      then getStreakLoop rest today (S streak)
      else streak
  end.

Definition getStreak (now : Z) (j : journal) : nat :=
  if (length (entries j) =? 0)%nat then 0%nat
  else getStreakLoop (entries j) (setHoursZero now) 0.

Definition entryDays (j : journal) : list Z :=
  map (fun e => toDateString (date e)) (entries j).

(** [entry.wordCount || 0] *)
Definition wordCountOrZero (e : journalEntry) : Z :=
  match wordCount e with
  | Some n => n
  | None => 0
  end.

Definition totalWords (j : journal) : Z :=
  fold_left (fun sum e => sum + wordCountOrZero e) (entries j) 0.

(** [Math.round(x)] is the integer nearest to [x], ties going up. *)
Definition Math_round (x : Q) : Z := Qfloor (x + (1 # 2))%Q.

Definition getAverageWordsPerEntry (j : journal) : Z :=
  if (length (entries j) =? 0)%nat then 0
  else Math_round (inject_Z (totalWords j) / inject_Z (Z.of_nat (length (entries j))))%Q.

Definition startNewEntry (now : Z) (j : journal) : journal :=
  {| entries := entries j;
     currentEntry := Some {| id := now; date := now; content := EmptyString;
                             mood := None; prompt := None; wordCount := Some 0;
                             lastModified := None |};
     isEditing := false |}.

Definition findEntry (wanted : Z) (es : list journalEntry) : option (nat * journalEntry) :=
  list_find (fun e => id e = wanted) es.

(** [entryId || this.currentEntry?.id] *)
Definition resolveId (entryId : option Z) (j : journal) : option Z :=
  match entryId with
  | Some i => if i =? 0 then id <$> currentEntry j else Some i
  | None => id <$> currentEntry j
  end.

Definition hideEditor (j : journal) : journal :=
  {| entries := entries j; currentEntry := None; isEditing := false |}.

(** [saveEntry]; [text] is [textarea.value.trim()], or [None] when the
    page has no textarea, and [selectedMood] the mood button selected.
    The entry in the editor is an object of the editor's own, as
    [startNewEntry] and [editEntry] make it, so writing into it changes no
    stored entry.  After [viewEntry], [this.currentEntry] is one of the
    stored objects; that is modelled in [JournalObjects] below, which reads
    as this journal does until [viewEntry] is used. *)
Definition saveEntry (now : Z) (text : option string) (selectedMood : option Z)
    (j : journal) : outcome unit * journal :=
  match text with
  | None => (Return tt, j)
  | Some EmptyString => (Return tt, j)
  | Some txt =>
      match currentEntry j with
      | None => (Throw TypeError, j)
      | Some cur =>
          let cur' := {| id := id cur; date := date cur; content := txt;
                         mood := selectedMood; prompt := prompt cur;
                         wordCount := wordCount cur; lastModified := Some now |} in
          let entries' :=
            if isEditing j then
              match findEntry (id cur') (entries j) with
              | Some (index, _) => <[index := cur']> (entries j)
              | None => entries j
              end
            else cur' :: entries j in
          (Return tt, hideEditor {| entries := entries'; currentEntry := Some cur';
                                    isEditing := isEditing j |})
      end
  end.

Definition deleteEntry (entryId : option Z) (confirmed : bool) (j : journal) : journal :=
  match resolveId entryId j with
  | None => j
  | Some wanted =>
      match findEntry wanted (entries j) with
      | None => j
      | Some _ =>
          if confirmed then
            {| entries := filter (fun e => id e <> wanted) (entries j);
               currentEntry := currentEntry j;
               isEditing := isEditing j |}
          else j
      end
  end.

Section Words.
Context {char : Type}.

(** [isSpace c]: the character is matched by [\s], the class [trim] strips. *)
Variable isSpace : char -> bool.

Fixpoint trimStart (s : list char) : list char :=
  match s with
  | [] => []
  | c :: rest => if isSpace c then trimStart rest else s
  end.

Definition trimEnd (s : list char) : list char :=
  foldr (fun c kept =>
           match kept with
           | [] => if isSpace c then [] else [c]
           | _ => c :: kept
           end) [] s.

(** [value.trim()] *)
Definition trim (s : list char) : list char := trimEnd (trimStart s).

(** [text.split(/\s+/)]: the pieces between the maximal runs of white space;
    [piece] is the piece being read and [inSeparator] tells that the last
    character read was white space. *)
Fixpoint splitSpaces (s : list char) (piece : list char) (inSeparator : bool)
    : list (list char) :=
  match s with
  | [] => [piece]
  | c :: rest =>
      if isSpace c then
        if inSeparator then splitSpaces rest piece true
        else piece :: splitSpaces rest [] true
      else splitSpaces rest (piece ++ [c]) false
  end.

(** The count [updateWordCount] shows:
    [value.trim().split(/\s+/).filter(word => word.length > 0).length]. *)
Definition countWords (value : list char) : nat :=
  length (filter (fun word : list char => (0 < length word)%nat)
                 (splitSpaces (trim value) [] false)).

(** The number of words that begin in [s], [inWord] telling that the
    character before [s] belongs to a word. *)
Fixpoint wordStarts (s : list char) (inWord : bool) : nat :=
  match s with
  | [] => 0%nat
  | c :: rest =>
      if isSpace c then wordStarts rest false
      else ((if inWord then 0 else 1) + wordStarts rest true)%nat
  end.

(** [updateWordCount]; [value] is the text of the textarea, [None] when the
    textarea or the counter element is missing. *)
Definition updateWordCount (value : option (list char)) (j : journal) : journal :=
  match value, currentEntry j with
  | Some v, Some cur =>
      {| entries := entries j;
         currentEntry :=
           Some {| id := id cur; date := date cur; content := content cur;
                   mood := mood cur; prompt := prompt cur;
                   wordCount := Some (Z.of_nat (countWords v));
                   lastModified := lastModified cur |};
         isEditing := isEditing j |}
  | _, _ => j
  end.

End Words.

(** [editEntry]: the entry found is copied into the editor
    ([this.currentEntry = { ...entry }]).  When the page has the textarea,
    the content is put there and [updateWordCount] runs, which counts the
    words of the content into the copy if the counter element is on the page
    too.  [isSpace] tells the characters that [\s] matches. *)
Definition editEntry (isSpace : ascii -> bool) (textarea wordCountEl : bool)
    (entryId : option Z) (j : journal) : journal :=
  match resolveId entryId j with
  | None => j
  | Some wanted =>
      match findEntry wanted (entries j) with
      | None => j
      | Some (_, entry) =>
          let opened :=
            {| entries := entries j; currentEntry := Some entry; isEditing := true |} in
          if textarea then
            updateWordCount isSpace
              (if wordCountEl then Some (list_ascii_of_string (content entry)) else None)
              opened
          else opened
      end
  end.

(** The orders of the sort menu; ['newest'] is also the default. *)
Inductive sortOrder : Type := Newest | Oldest | Longest | Shortest.

Definition sortOrderOf (sortBy : string) : sortOrder :=
  if decide (sortBy = "oldest") then Oldest
  else if decide (sortBy = "longest") then Longest
  else if decide (sortBy = "shortest") then Shortest
  else Newest.

(** The comparison function of [applySortAndFilter]. *)
Definition compareEntries (order : sortOrder) (a b : journalEntry) : Z :=
  match order with
  | Oldest => date a - date b
  | Longest => wordCountOrZero b - wordCountOrZero a
  | Shortest => wordCountOrZero a - wordCountOrZero b
  | Newest => date b - date a
  end.

Section Search.

(** [String.prototype.toLowerCase] and [String.prototype.includes]. *)
Variable toLowerCase : string -> string.
Variable includes : string -> string -> bool.

Definition matchesSearch (searchTerm : string) (e : journalEntry) : bool :=
  includes (toLowerCase (content e)) searchTerm
  || match prompt e with
     | Some EmptyString => false
     | Some text => includes (toLowerCase text) searchTerm
     | None => false
     end.

(** [document.getElementById('searchEntries')?.value.toLowerCase() || ''] *)
Definition searchTermOf (searchValue : option string) : string :=
  match searchValue with
  | Some v => toLowerCase v
  | None => EmptyString
  end.

(** [document.getElementById('sortFilter')?.value || 'newest'] *)
Definition chosenOrder (sortBy : option string) : sortOrder :=
  match sortBy with
  | Some EmptyString => Newest
  | Some v => sortOrderOf v
  | None => Newest
  end.

(** The entries kept by the search: all of them for an empty term. *)
Definition searched (searchTerm : string) (es : list journalEntry) : list journalEntry :=
  match searchTerm with
  | EmptyString => es
  | _ => filter (fun e => matchesSearch searchTerm e = true) es
  end.

(** [applySortAndFilter]; [searchValue] and [sortBy] are the values of the
    search box and of the sort menu, [None] when the element is missing. *)
Definition applySortAndFilter (searchValue sortBy : option string)
    (es : list journalEntry) : list journalEntry :=
  sort (compareEntries (chosenOrder sortBy)) (searched (searchTermOf searchValue) es).

End Search.

(** [getMoodDistribution]: a count, or [NaN] for a slot that was missing
    when it was incremented. *)
Inductive moodCount : Type :=
  | Counted (n : Z)
  | NotANumber.

Definition increment (slot : option moodCount) : moodCount :=
  match slot with
  | Some (Counted n) => Counted (n + 1)
  | _ => NotANumber
  end.

Definition emptyDistribution : gmap Z moodCount :=
  <[1 := Counted 0]> (<[2 := Counted 0]> (<[3 := Counted 0]>
    (<[4 := Counted 0]> (<[5 := Counted 0]> ∅)))).

Definition countMood (distribution : gmap Z moodCount) (e : journalEntry)
    : gmap Z moodCount :=
  match mood e with
  | Some m => if m =? 0 then distribution
              else <[m := increment (distribution !! m)]> distribution
  | None => distribution
  end.

Definition getMoodDistribution (j : journal) : gmap Z moodCount :=
  fold_left countMood (entries j) emptyDistribution.

(** The order a sorted list of entries is in. *)
Definition inOrder (order : sortOrder) (a b : journalEntry) : Prop :=
  match order with
  | Newest => date b <= date a
  | Oldest => date a <= date b
  | Longest => wordCountOrZero b <= wordCountOrZero a
  | Shortest => wordCountOrZero a <= wordCountOrZero b
  end.

(** No two stored entries share an id. *)
Definition uniqueIds (j : journal) : Prop := NoDup (map id (entries j)).

(** The entries of the journal whose mood is [m]. *)
Definition entriesWithMood (m : Z) (j : journal) : list journalEntry :=
  filter (fun e => mood e = Some m) (entries j).

(** What [checkAchievements] hands to the notifications: the first entry,
    a milestone number of entries, a milestone streak. *)
Inductive achievement : Type :=
  | FirstJournal
  | JournalMaster (count : nat)
  | DayStreak (days : nat).

Definition points (a : achievement) : Z :=
  match a with
  | FirstJournal => 10
  | JournalMaster count => Z.of_nat count * 2
  | DayStreak days => Z.of_nat days * 3
  end.

Definition checkAchievements (now : Z) (j : journal) : list achievement :=
  (if (length (entries j) =? 1)%nat then [FirstJournal] else [])
  ++ (if bool_decide (length (entries j) ∈ [5; 10; 25; 50; 100]%nat)
      then [JournalMaster (length (entries j))] else [])
  ++ (let streak := getStreak now j in
      if bool_decide (streak ∈ [3; 7; 14; 30]%nat) then [DayStreak streak] else []).

End JournalSystem.

(** ** journal.js: the journal with its entry objects

    [JournalSystem] above keeps the entries as values.  Here they are
    objects: [this.entries] and [this.currentEntry] hold references, so that
    an object reached by two of them is written through both.  A reference is
    the number of the object, in the order of creation. *)

Module JournalObjects.

Record journal : Type := {
  objects : nat -> JournalSystem.journalEntry;
  allocated : nat;
  entries : list nat;
  currentEntry : option nat;
  isEditing : bool
}.

(** What a reader of [this.entries] and of [this.currentEntry] sees. *)
Definition stored (j : journal) : list JournalSystem.journalEntry :=
  objects j <$> entries j.

Definition inEditor (j : journal) : option JournalSystem.journalEntry :=
  objects j <$> currentEntry j.

(** The journal of values that this journal of objects reads as. *)
Definition values (j : journal) : JournalSystem.journal :=
  {| JournalSystem.entries := stored j;
     JournalSystem.currentEntry := inEditor j;
     JournalSystem.isEditing := isEditing j |}.

(** [startNewEntry]: the object literal is a new object. *)
Definition startNewEntry (now : Z) (j : journal) : journal :=
  {| objects :=
       <[allocated j :=
           {| JournalSystem.id := now; JournalSystem.date := now;
              JournalSystem.content := EmptyString; JournalSystem.mood := None;
              JournalSystem.prompt := None; JournalSystem.wordCount := Some 0;
              JournalSystem.lastModified := None |}]> (objects j);
     allocated := S (allocated j);
     entries := entries j;
     currentEntry := Some (allocated j);
     isEditing := false |}.

(** [this.entries.find(e => e.id === id)]: the position and the reference
    of the first entry with the id. *)
Definition findEntry (wanted : Z) (j : journal) : option (nat * nat) :=
  list_find (fun r => JournalSystem.id (objects j r) = wanted) (entries j).

(** [viewEntry]: [this.currentEntry = entry], the stored object itself. *)
Definition viewEntry (entryId : Z) (j : journal) : journal :=
  match findEntry entryId j with
  | None => j
  | Some (_, r) =>
      {| objects := objects j; allocated := allocated j; entries := entries j;
         currentEntry := Some r; isEditing := isEditing j |}
  end.

(** [entryId || this.currentEntry?.id] *)
Definition resolveId (entryId : option Z) (j : journal) : option Z :=
  match entryId with
  | Some i => if i =? 0 then JournalSystem.id <$> inEditor j else Some i
  | None => JournalSystem.id <$> inEditor j
  end.

(** [updateWordCount] writes the count into the object in the editor. *)
Definition updateWordCount (isSpace : ascii -> bool) (value : option (list ascii))
    (j : journal) : journal :=
  match value, currentEntry j with
  | Some v, Some r =>
      let cur := objects j r in
      {| objects :=
           <[r := {| JournalSystem.id := JournalSystem.id cur;
                     JournalSystem.date := JournalSystem.date cur;
                     JournalSystem.content := JournalSystem.content cur;
                     JournalSystem.mood := JournalSystem.mood cur;
                     JournalSystem.prompt := JournalSystem.prompt cur;
                     JournalSystem.wordCount :=
                       Some (Z.of_nat (JournalSystem.countWords isSpace v));
                     JournalSystem.lastModified := JournalSystem.lastModified cur |}]>
             (objects j);
         allocated := allocated j;
         entries := entries j;
         currentEntry := currentEntry j;
         isEditing := isEditing j |}
  | _, _ => j
  end.

(** [editEntry]: [this.currentEntry = { ...entry }], a new object with the
    fields of the stored one. *)
Definition editEntry (isSpace : ascii -> bool) (textarea wordCountEl : bool)
    (entryId : option Z) (j : journal) : journal :=
  match resolveId entryId j with
  | None => j
  | Some wanted =>
      match findEntry wanted j with
      | None => j
      | Some (_, r) =>
          let opened :=
            {| objects := <[allocated j := objects j r]> (objects j);
               allocated := S (allocated j);
               entries := entries j;
               currentEntry := Some (allocated j);
               isEditing := true |} in
          if textarea then
            updateWordCount isSpace
              (if wordCountEl
               then Some (list_ascii_of_string (JournalSystem.content (objects j r)))
               else None)
              opened
          else opened
      end
  end.

Definition hideEditor (j : journal) : journal :=
  {| objects := objects j; allocated := allocated j; entries := entries j;
     currentEntry := None; isEditing := false |}.

(** [saveEntry]: the text, the mood and the time are written into the
    object in the editor; when editing, a copy of it ([{ ...this.currentEntry }])
    replaces the first entry with its id, otherwise the object itself is put
    in front of the entries. *)
Definition saveEntry (now : Z) (text : option string) (selectedMood : option Z)
    (j : journal) : outcome unit * journal :=
  match text with
  | None => (Return tt, j)
  | Some EmptyString => (Return tt, j)
  | Some txt =>
      match currentEntry j with
      | None => (Throw TypeError, j)
      | Some r =>
          let cur := objects j r in
          let cur' := {| JournalSystem.id := JournalSystem.id cur;
                         JournalSystem.date := JournalSystem.date cur;
                         JournalSystem.content := txt;
                         JournalSystem.mood := selectedMood;
                         JournalSystem.prompt := JournalSystem.prompt cur;
                         JournalSystem.wordCount := JournalSystem.wordCount cur;
                         JournalSystem.lastModified := Some now |} in
          let written := <[r := cur']> (objects j) in
          if isEditing j then
            match list_find (fun e => JournalSystem.id (written e) = JournalSystem.id cur')
                            (entries j) with
            | Some (index, _) =>
                (Return tt,
                 hideEditor {| objects := <[allocated j := cur']> written;
                               allocated := S (allocated j);
                               entries := <[index := allocated j]> (entries j);
                               currentEntry := Some r;
                               isEditing := true |})
            | None =>
                (Return tt,
                 hideEditor {| objects := written; allocated := allocated j;
                               entries := entries j; currentEntry := Some r;
                               isEditing := true |})
            end
          else
            (Return tt,
             hideEditor {| objects := written; allocated := allocated j;
                           entries := r :: entries j; currentEntry := Some r;
                           isEditing := false |})
      end
  end.

(** [deleteEntry]: the entries whose id is not the one found are kept. *)
Definition deleteEntry (entryId : option Z) (confirmed : bool) (j : journal) : journal :=
  match resolveId entryId j with
  | None => j
  | Some wanted =>
      match findEntry wanted j with
      | None => j
      | Some _ =>
          if confirmed then
            {| objects := objects j; allocated := allocated j;
               entries := filter (fun r => JournalSystem.id (objects j r) <> wanted)
                                 (entries j);
               currentEntry := currentEntry j;
               isEditing := isEditing j |}
          else j
      end
  end.

(** Every reference held is one of an object created. *)
Definition wellFormed (j : journal) : Prop :=
  Forall (fun r => (r < allocated j)%nat) (entries j) /\
  forall r, currentEntry j = Some r -> (r < allocated j)%nat.

(** The object in the editor is none of the stored ones. *)
Definition ownObject (j : journal) : Prop :=
  forall r, currentEntry j = Some r -> r ∉ entries j.

End JournalObjects.

(** ** journal.js: the achievement timeline *)

Module AchievementTimeline.

(** The group headings of the achievement timeline: [Today], [Yesterday],
    [`${diffDays} days ago`], [`${weeks} week${weeks > 1 ? 's' : ''} ago`]
    and the long date of the day. *)
Inductive dateKey : Type :=
  | Today
  | Yesterday
  | DaysAgo (diffDays : Z)
  | WeeksAgo (weeks : Z) (plural : bool)
  | LongDate (day : Z).

(** [formatDateKey(date)] at the instant [now]. *)
Definition formatDateKey (now date : Z) : dateKey :=
  let diffTime := now - date in
  let diffDays := diffTime / msPerDay in
  if diffDays =? 0 then Today
  else if diffDays =? 1 then Yesterday
  else if diffDays <? 7 then DaysAgo diffDays
  else if diffDays <? 30 then
    let weeks := diffDays / 7 in WeeksAgo weeks (1 <? weeks)
  else LongDate (toDateString date).

End AchievementTimeline.

(** ** achievement-notifications.js and progress-dashboard.js *)

Module ProgressTrackingDashboard.

Record milestone : Type := {
  milestoneValue : Z;
  milestoneLabel : string;
  completed : bool
}.

Record activity : Type := {
  activityDate : string;
  count : Z;
  activityType : string
}.

(** What a count can be: an integer, or [NaN], which [parseInt] returns for
    a field that holds no number and which [Math.min] and [+] pass on. *)
Inductive counter : Type :=
  | Int (z : Z)
  | NotANumber.

(** [Math.min(n, target)] *)
Definition minTarget (n : counter) (target : Z) : counter :=
  match n with
  | Int z => Int (Z.min z target)
  | NotANumber => NotANumber
  end.

(** [n + amount] *)
Definition plus (n : counter) (amount : Z) : counter :=
  match n with
  | Int z => Int (z + amount)
  | NotANumber => NotANumber
  end.

(** [n >= target] and [n < target]; both are false of [NaN]. *)
Definition atLeast (n : counter) (target : Z) : bool :=
  match n with
  | Int z => target <=? z
  | NotANumber => false
  end.

Definition below (n : counter) (target : Z) : bool :=
  match n with
  | Int z => z <? target
  | NotANumber => false
  end.

Record progressItem : Type := {
  badgeId : string;
  badgeName : string;
  category : string;
  difficulty : string;
  current : counter;
  target : Z;
  unit : string;
  description : string;
  estimatedCompletion : string;
  dailyRate : Q;
  weeklyGoal : Z;
  tips : list string;
  milestones : list milestone;
  recentActivity : option (list activity);
  isSpecial : bool
}.

Record userStats : Type := {
  totalSessions : Z;
  streakDays : Z;
  moodEntries : Z;
  copingStrategiesLearned : Z;
  resourcesExplored : Z;
  challengesCompleted : Z;
  activeDays : Z;
  averageMoodScore : Q;
  improvementRate : Q;
  lastActivity : Z
}.

(** The badge object handed to [showNotification] and its type tag. *)
Record notification : Type := {
  notifiedId : string;
  notifiedName : string;
  notifiedCategory : string;
  notifiedColor : string;
  notificationType : string
}.

(** The page: the dashboard's own fields and [window.achievementNotifications]
    ([None] while the notification system is not installed; otherwise the
    notifications it has shown, oldest first). *)
Record page : Type := {
  progressData : list progressItem;
  stats : userStats;
  achievementNotifications : option (list notification)
}.

Definition setProgressData (l : list progressItem) (p : page) : page :=
  {| progressData := l; stats := stats p;
     achievementNotifications := achievementNotifications p |}.

Definition setCurrent (n : counter) (item : progressItem) : progressItem :=
  {| badgeId := badgeId item; badgeName := badgeName item; category := category item;
     difficulty := difficulty item; current := n; target := target item;
     unit := unit item; description := description item;
     estimatedCompletion := estimatedCompletion item; dailyRate := dailyRate item;
     weeklyGoal := weeklyGoal item; tips := tips item;
     milestones := milestones item; recentActivity := recentActivity item;
     isSpecial := isSpecial item |}.

Definition setRecentActivity (a : option (list activity)) (item : progressItem) : progressItem :=
  {| badgeId := badgeId item; badgeName := badgeName item; category := category item;
     difficulty := difficulty item; current := current item; target := target item;
     unit := unit item; description := description item;
     estimatedCompletion := estimatedCompletion item; dailyRate := dailyRate item;
     weeklyGoal := weeklyGoal item; tips := tips item;
     milestones := milestones item; recentActivity := a;
     isSpecial := isSpecial item |}.

Definition getCategoryColor (c : string) : string :=
  if decide (c = "milestone") then "#f59e0b"
  else if decide (c = "consistency") then "#ef4444"
  else if decide (c = "tracking") then "#3b82f6"
  else if decide (c = "skills") then "#10b981"
  else if decide (c = "learning") then "#8b5cf6"
  else if decide (c = "achievement") then "#f97316"
  else if decide (c = "resilience") then "#ef4444"
  else "#6b7280".

(** [AchievementNotificationSystem.showNotification]: one more notification
    is shown (and one [achievementNotificationShown] event dispatched). *)
Definition showNotification (n : notification) (shown : list notification) : list notification :=
  shown ++ [n].

(** [this.progressData.find(p => p.badgeId === badgeId)], with the position
    of the object found. *)
Definition findItem (wanted : string) (l : list progressItem) : option (nat * progressItem) :=
  list_find (fun p => badgeId p = wanted) l.

Definition isEarned (item : progressItem) : bool := atLeast (current item) (target item).

(** The object [updateProgress] hands to [showNotification], with the
    type tag ['badge-earned']. *)
Definition earnedNotification (item : progressItem) : notification :=
  {| notifiedId := badgeId item; notifiedName := badgeName item;
     notifiedCategory := category item;
     notifiedColor := getCategoryColor (category item);
     notificationType := "badge-earned" |}.

Definition updateProgress (wanted : string) (newProgress : counter) (p : page) : page :=
  match findItem wanted (progressData p) with
  | None => p
  | Some (i, item) =>
      let item' := setCurrent (minTarget newProgress (target item)) item in
      let data := <[i := item']> (progressData p) in
      match achievementNotifications p with
      | Some shown =>
          if isEarned item' then
            {| progressData := data; stats := stats p;
               achievementNotifications :=
                 Some (showNotification (earnedNotification item') shown) |}
          else setProgressData data p
      | None => setProgressData data p
      end
  end.

(** [updateProgressFromModal]; [input] is [parseInt(input.value)] of the
    [#progress-input] element, which is [NaN] when the field is blank or
    does not start with a number, and [None] when the element is absent. *)
Definition updateProgressFromModal (wanted : string) (input : option counter) (p : page)
    : page :=
  match input with
  | Some newProgress => updateProgress wanted newProgress p
  | None => p
  end.

Definition bumpActivity (today activityType : string) (amount : Z)
    (l : list activity) : list activity :=
  match list_find (fun a => activityDate a = today) l with
  | Some (k, a) =>
      <[k := {| activityDate := activityDate a; count := count a + amount;
                activityType := ProgressTrackingDashboard.activityType a |}]> l
  | None => {| activityDate := today; count := amount; activityType := activityType |} :: l
  end.

Definition simulateActivity (today : string) (wanted activityType : string) (amount : Z)
    (p : page) : page :=
  match findItem wanted (progressData p) with
  | None => p
  | Some (i, item) =>
      let newProgress := minTarget (plus (current item) amount) (target item) in
      let p1 := updateProgress wanted newProgress p in
      match progressData p1 !! i with
      | None => p1
      | Some item1 =>
          let recent := default [] (recentActivity item1) in
          let recent := take 7 (bumpActivity today activityType amount recent) in
          setProgressData (<[i := setRecentActivity (Some recent) item1]> (progressData p1)) p1
      end
  end.

Definition resetItem (item : progressItem) : progressItem :=
  {| badgeId := badgeId item; badgeName := badgeName item; category := category item;
     difficulty := difficulty item; current := Int 0; target := target item;
     unit := unit item; description := description item;
     estimatedCompletion := estimatedCompletion item; dailyRate := dailyRate item;
     weeklyGoal := weeklyGoal item; tips := tips item;
     milestones :=
       map (fun m => {| milestoneValue := milestoneValue m;
                        milestoneLabel := milestoneLabel m; completed := false |})
           (milestones item);
     recentActivity := Some [];
     isSpecial := isSpecial item |}.

Definition resetProgress (now : Z) (confirmed : bool) (p : page) : page :=
  if confirmed then
    {| progressData := map resetItem (progressData p);
       stats := {| totalSessions := 0; streakDays := 0; moodEntries := 0;
                   copingStrategiesLearned := 0; resourcesExplored := 0;
                   challengesCompleted := 0; activeDays := 0;
                   averageMoodScore := 0; improvementRate := 0;
                   lastActivity := now |};
       achievementNotifications := achievementNotifications p |}
  else p.

(** JavaScript numbers reached by the percentage computation. *)
Inductive number : Type :=
  | Finite (q : Q)
  | NegInfinity
  | NaN.

(** What the theorems ask of the rounding of a result to a double: it keeps
    the order, it leaves the whole numbers from 0 to [bound] as they are, and
    it keeps a result at or below [- tiny] there.  Doubles round to the
    nearest double, so they do the first for all results, the second for
    every [bound] up to 2^53 and the third for every [tiny] that is a double,
    down to the smallest one, 2^-1074. *)
Definition keepsOrder (nearest : Q -> Q) : Prop :=
  forall x y : Q, (x <= y)%Q -> (nearest x <= nearest y)%Q.

Definition keepsBelow (nearest : Q -> Q) (tiny : Q) : Prop :=
  forall x : Q, (x <= - tiny)%Q -> (nearest x <= - tiny)%Q.

Definition exactUpTo (nearest : Q -> Q) (bound : Z) : Prop :=
  forall z : Z, 0 <= z <= bound -> (nearest (inject_Z z) == inject_Z z)%Q.

Section Doubles.

(** [nearest x]: the double that the result [x] of a division, product or
    sum is rounded to. *)
Variable nearest : Q -> Q.

(** [Math.min((item.current / item.target) * 100, 100)] of
    [renderProgressItem]. *)
Definition progressPercentage (item : progressItem) : number :=
  match current item with
  | NotANumber => NaN
  | Int c =>
      if target item =? 0 then
        if 0 <? c then Finite 100
        else if c =? 0 then NaN
        else NegInfinity
      else Finite (Qmin (nearest (nearest (inject_Z c / inject_Z (target item)) * 100)) 100)%Q
  end.

End Doubles.

Definition isCompleted (item : progressItem) : bool := atLeast (current item) (target item).

(** What a session does to the dashboard: the handlers that write
    [progressData]. *)
Inductive operation : Type :=
  | UpdateProgress (wanted : string) (newProgress : counter)
  | UpdateProgressFromModal (wanted : string) (input : option counter)
  | SimulateActivity (today wanted activityType : string) (amount : Z)
  | ResetProgress (now : Z) (confirmed : bool).

Definition step (p : page) (op : operation) : page :=
  match op with
  | UpdateProgress wanted newProgress => updateProgress wanted newProgress p
  | UpdateProgressFromModal wanted input => updateProgressFromModal wanted input p
  | SimulateActivity today wanted activityType amount =>
      simulateActivity today wanted activityType amount p
  | ResetProgress now confirmed => resetProgress now confirmed p
  end.

Definition run (ops : list operation) (p : page) : page := fold_left step ops p.

(** The notifications shown so far for one badge. *)
Definition shownFor (wanted : string) (p : page) : list notification :=
  filter (fun n => notifiedId n = wanted) (default [] (achievementNotifications p)).

(** [op] is a progress update addressed to badge [b]. *)
Definition addresses (b : string) (op : operation) : bool :=
  match op with
  | UpdateProgress wanted _ => bool_decide (wanted = b)
  | UpdateProgressFromModal wanted (Some _) => bool_decide (wanted = b)
  | UpdateProgressFromModal _ None => false
  | SimulateActivity _ wanted _ _ => bool_decide (wanted = b)
  | ResetProgress _ _ => false
  end.

(** Badge [b] is on the page with its count at or above its target. *)
Definition earnedAt (b : string) (p : page) : bool :=
  match findItem b (progressData p) with
  | Some (_, item) => isEarned item
  | None => false
  end.

(** The number of updates in a session that are addressed to [b] and leave
    it at or above its target. *)
Fixpoint earnedUpdates (b : string) (ops : list operation) (p : page) : nat :=
  match ops with
  | [] => 0%nat
  | op :: rest =>
      ((if addresses b op && earnedAt b (step p op) then 1 else 0)
       + earnedUpdates b rest (step p op))%nat
  end.

(** The operations that cannot take a badge back below its target: an
    update to a value that reaches the target of the badge it addresses, an
    activity of a non-negative amount, and a reset the user declines. *)
Definition keepsEarned (p : page) (op : operation) : bool :=
  match op with
  | UpdateProgress wanted n | UpdateProgressFromModal wanted (Some n) =>
      match findItem wanted (progressData p) with
      | Some (_, item) => atLeast n (target item)
      | None => true
      end
  | UpdateProgressFromModal _ None => true
  | SimulateActivity _ _ _ amount => 0 <=? amount
  | ResetProgress _ confirmed => negb confirmed
  end.

Fixpoint allKeepEarned (ops : list operation) (p : page) : bool :=
  match ops with
  | [] => true
  | op :: rest => keepsEarned p op && allKeepEarned rest (step p op)
  end.

(** [handleFeatureActivity]: the [activityMap] table.  A type that is not
    one of its four keys leads to no change (own keys map to a badge; names
    inherited from [Object.prototype] give a mapping without [badgeId], for
    which [find] returns nothing). *)
Definition activityMap (activityType : string) : option (string * Z) :=
  if decide (activityType = "mood-logged") then Some ("monthly-milestone", 1)
  else if decide (activityType = "journal-entry") then Some ("monthly-milestone", 1)
  else if decide (activityType = "exercise-completed") then Some ("challenge-crusher", 1)
  else if decide (activityType = "resource-explored") then Some ("resource-explorer", 1)
  else None.

Definition handleFeatureActivity (today activityType : string) (p : page) : page :=
  match activityMap activityType with
  | Some (wanted, amount) => simulateActivity today wanted activityType amount p
  | None => p
  end.

(** [handleNavigation]; [hash] is [window.location.hash.substring(1)]. *)
Definition handleNavigation (today hash : string) (p : page) : page :=
  if decide (hash = "mood-tracker")
  then simulateActivity today "monthly-milestone" "mood-log" 0 p
  else if decide (hash = "journal")
  then simulateActivity today "monthly-milestone" "journal-entry" 0 p
  else if decide (hash = "exercises")
  then simulateActivity today "monthly-milestone" "exercise" 0 p
  else if decide (hash = "resources")
  then simulateActivity today "resource-explorer" "resource-view" 0 p
  else p.

(** The badge a page of the application reports its visits to. *)
Definition visitedBadge (hash : string) : option string :=
  if decide (hash = "mood-tracker") then Some "monthly-milestone"
  else if decide (hash = "journal") then Some "monthly-milestone"
  else if decide (hash = "exercises") then Some "monthly-milestone"
  else if decide (hash = "resources") then Some "resource-explorer"
  else None.

Section DoubleStatistics.
Variable nearest : Q -> Q.

(** Sums of percentages: [NaN] absorbs, then [-Infinity]. *)
Definition addNumber (a b : number) : number :=
  match a, b with
  | NaN, _ | _, NaN => NaN
  | NegInfinity, _ | _, NegInfinity => NegInfinity
  | Finite x, Finite y => Finite (nearest (x + y))
  end.

Definition totalProgress (l : list progressItem) : number :=
  fold_left (fun sum item => addNumber sum (progressPercentage nearest item)) l (Finite 0).

(** [calculateOverallCompletion]: the rounded mean of the clamped
    percentages. *)
Definition calculateOverallCompletion (p : page) : number :=
  if (length (progressData p) =? 0)%nat then Finite 0
  else
    match totalProgress (progressData p) with
    | Finite total =>
        Finite (inject_Z (JournalSystem.Math_round
                            (nearest (total / inject_Z (Z.of_nat (length (progressData p)))))))
    | other => other
    end.

(** [progress >= 80 && progress < 100] for
    [progress = (item.current / item.target) * 100], which for a zero target
    is [Infinity], [NaN] or [-Infinity] and fails the test, as [NaN] does
    for a count that is [NaN]. *)
Definition isNearCompletion (item : progressItem) : bool :=
  match current item with
  | NotANumber => false
  | Int c =>
      if target item =? 0 then false
      else
        let progress := nearest (nearest (inject_Z c / inject_Z (target item)) * 100)%Q in
        Qle_bool 80 progress && negb (Qle_bool 100 progress)
  end.

Definition nearCompletion (p : page) : nat :=
  length (filter (fun item => isNearCompletion item = true) (progressData p)).

End DoubleStatistics.

(** [activeGoals] of [renderOverallStats]. *)
Definition activeGoals (p : page) : nat :=
  length (filter (fun item => below (current item) (target item) = true) (progressData p)).

(** A count that is a number and not above the target. *)
Definition withinTarget (item : progressItem) : Prop :=
  match current item with
  | Int c => c <= target item
  | NotANumber => False
  end.

(** A count that is a number and not negative. *)
Definition fromZero (item : progressItem) : Prop :=
  match current item with
  | Int c => 0 <= c
  | NotANumber => False
  end.

(** The counts of a page stay within non-negative targets. *)
Definition withinTargets (p : page) : Prop :=
  Forall (fun item => 0 <= target item /\ withinTarget item) (progressData p).

(** The update carries a number: the field of a manual update is not blank
    and the payload of a progress event is a number. *)
Definition carriesNumber (op : operation) : bool :=
  match op with
  | UpdateProgress _ NotANumber => false
  | UpdateProgressFromModal _ (Some NotANumber) => false
  | _ => true
  end.

(** The dates of the recent activity of an item. *)
Definition activityDates (item : progressItem) : list string :=
  map activityDate (default [] (recentActivity item)).

(** Two of the badges of [loadMockData]. *)
Definition challengeCrusher : progressItem :=
  {| badgeId := "challenge-crusher"; badgeName := "Challenge Crusher";
     category := "achievement"; difficulty := "hard";
     current := Int 2; target := 5; unit := "challenges";
     description := "Complete mental health challenges";
     estimatedCompletion := "2 weeks"; dailyRate := 2 # 10; weeklyGoal := 1;
     tips := [ "Start with easier challenges to build confidence";
               "Set aside dedicated time for challenge completion";
               "Track your progress and celebrate small wins" ];
     milestones :=
       [ {| milestoneValue := 1; milestoneLabel := "First Challenge"; completed := true |};
         {| milestoneValue := 2; milestoneLabel := "Getting Momentum"; completed := true |};
         {| milestoneValue := 3; milestoneLabel := "Challenge Seeker"; completed := false |};
         {| milestoneValue := 4; milestoneLabel := "Almost There"; completed := false |};
         {| milestoneValue := 5; milestoneLabel := "Challenge Master"; completed := false |} ];
     recentActivity :=
       Some [ {| activityDate := "2024-01-10"; count := 1;
                 activityType := "mindfulness-challenge" |};
              {| activityDate := "2024-01-05"; count := 1;
                 activityType := "gratitude-challenge" |} ];
     isSpecial := false |}.

Definition crisisSurvivor : progressItem :=
  {| badgeId := "crisis-survivor"; badgeName := "Crisis Survivor";
     category := "resilience"; difficulty := "expert";
     current := Int 0; target := 1; unit := "crisis events";
     description := "Successfully navigate a mental health crisis";
     estimatedCompletion := "When needed"; dailyRate := 0; weeklyGoal := 0;
     tips := [ "Familiarize yourself with crisis resources";
               "Practice coping strategies regularly";
               "Build a support network before you need it";
               "Remember that seeking help is a sign of strength" ];
     milestones :=
       [ {| milestoneValue := 1; milestoneLabel := "Crisis Navigator"; completed := false |} ];
     recentActivity := Some [];
     isSpecial := true |}.

(** A page showing these two badges, with the notification system
    installed and nothing shown yet. *)
Definition mockPage : page :=
  {| progressData := [challengeCrusher; crisisSurvivor];
     stats := {| totalSessions := 45; streakDays := 12; moodEntries := 28;
                 copingStrategiesLearned := 8; resourcesExplored := 18;
                 challengesCompleted := 2; activeDays := 22;
                 averageMoodScore := 72 # 10; improvementRate := 153 # 10;
                 lastActivity := 1705314600000 |};
     achievementNotifications := Some [] |}.

(** The other two badges of [loadMockData], and its four badges in order. *)
Definition resourceExplorer : progressItem :=
  {| badgeId := "resource-explorer"; badgeName := "Resource Explorer";
     category := "learning"; difficulty := "medium";
     current := Int 18; target := 25; unit := "resources";
     description := "Explore mental health resources";
     estimatedCompletion := "3 days"; dailyRate := 23 # 10; weeklyGoal := 16;
     tips := [ "Try exploring different categories of resources";
               "Bookmark useful resources for later reference";
               "Share interesting resources with friends" ];
     milestones :=
       [ {| milestoneValue := 5; milestoneLabel := "Getting Started"; completed := true |};
         {| milestoneValue := 10; milestoneLabel := "Explorer"; completed := true |};
         {| milestoneValue := 15; milestoneLabel := "Researcher"; completed := true |};
         {| milestoneValue := 20; milestoneLabel := "Scholar"; completed := false |};
         {| milestoneValue := 25; milestoneLabel := "Expert"; completed := false |} ];
     recentActivity :=
       Some [ {| activityDate := "2024-01-15"; count := 3; activityType := "articles" |};
              {| activityDate := "2024-01-14"; count := 2; activityType := "videos" |};
              {| activityDate := "2024-01-13"; count := 1; activityType := "podcast" |} ];
     isSpecial := false |}.

Definition monthlyMilestone : progressItem :=
  {| badgeId := "monthly-milestone"; badgeName := "Monthly Milestone";
     category := "consistency"; difficulty := "hard";
     current := Int 22; target := 30; unit := "days";
     description := "Stay active for 30 consecutive days";
     estimatedCompletion := "8 days"; dailyRate := 1; weeklyGoal := 7;
     tips := [ "Set daily reminders to check in";
               "Even small activities count towards your streak";
               "Focus on consistency over intensity" ];
     milestones :=
       [ {| milestoneValue := 7; milestoneLabel := "First Week"; completed := true |};
         {| milestoneValue := 14; milestoneLabel := "Two Weeks Strong"; completed := true |};
         {| milestoneValue := 21; milestoneLabel := "Three Week Warrior"; completed := true |};
         {| milestoneValue := 28; milestoneLabel := "Almost There"; completed := false |};
         {| milestoneValue := 30; milestoneLabel := "Monthly Master"; completed := false |} ];
     recentActivity :=
       Some [ {| activityDate := "2024-01-15"; count := 1; activityType := "check-in" |};
              {| activityDate := "2024-01-14"; count := 1; activityType := "mood-log" |};
              {| activityDate := "2024-01-13"; count := 1; activityType := "chat-session" |} ];
     isSpecial := false |}.

(** The page after [loadMockData], with the notification system installed. *)
Definition loadedMockPage : page :=
  {| progressData := [resourceExplorer; challengeCrusher; monthlyMilestone; crisisSurvivor];
     stats := stats mockPage;
     achievementNotifications := Some [] |}.

End ProgressTrackingDashboard.

(** ** Browser storage and JSON *)

Module Storage.

(** [JSON.parse] at the type a caller reads the result at: the value
    decoded from a well-formed text, [Throw SyntaxError] otherwise. *)
Class JsonParse (A : Type) : Type := JSON_parse : string -> outcome A.

(** [localStorage.getItem(key)] *)
Definition getItem (key : string) (store : gmap string string) : option string :=
  store !! key.

(** An absent item and the empty string are both falsy. *)
Definition truthy (saved : option string) : bool :=
  match saved with
  | None => false
  | Some EmptyString => false
  | Some _ => true
  end.

(** [saved || fallback] *)
Definition orElse (saved : option string) (fallback : string) : string :=
  match saved with
  | None => fallback
  | Some EmptyString => fallback
  | Some s => s
  end.

(** The loaders of mood-tracker.js, journal.js and exercises.js share one
    shape: [try { const saved = getItem(key);
                  return saved ? JSON.parse(saved) : []; }
            catch (error) { return []; }] *)
Definition loadList {A : Type} `{JsonParse (list A)} (key : string)
    (store : gmap string string) : outcome (list A) :=
  tryCatch
    (match getItem key store with
     | Some saved => if truthy (Some saved) then JSON_parse saved else Return []
     | None => Return []
     end)
    (fun _ => Return []).

End Storage.

Module Loaders.
Import Storage.

Definition loadMoodHistory `{JsonParse (list MoodTracker.moodEntry)} :=
  loadList (A := MoodTracker.moodEntry) "chillbuddy_mood_history".

Definition loadEntries `{JsonParse (list JournalSystem.journalEntry)} :=
  loadList (A := JournalSystem.journalEntry) "chillbuddy_journal_entries".

Definition loadExerciseHistory `{JsonParse (list ExercisesSystem.completion)} :=
  loadList (A := ExercisesSystem.completion) "chillbuddy_exercise_history".

End Loaders.

(** ** journal.js: the resources manager *)

Module ResourcesManager.
Import Storage.

Record view : Type := {
  resourceId : string;
  viewedAt : Z;
  viewType : string
}.

Record manager : Type := {
  favoriteResources : list string;
  resourceHistory : list view
}.

(** [init()]: [setupEventListeners] reads [this.handleResourceClick.bind],
    and the class has no [handleResourceClick], so the call completes with a
    TypeError (as it does if an element of the page is missing before
    that). *)
Definition init (m : manager) : outcome manager := Throw TypeError.

(** The constructor: the two storage reads, then [init()]. *)
Definition constructor `{JsonParse (list string)} `{JsonParse (list view)}
    (store : gmap string string) : outcome manager :=
  (let! favorites := JSON_parse (orElse (getItem "favoriteResources" store) "[]") in
   let! history := JSON_parse (orElse (getItem "resourceHistory" store) "[]") in
   init {| favoriteResources := favorites; resourceHistory := history |})%outcome.

(** [Array.prototype.indexOf]: the index of the first occurrence. *)
Definition indexOf (wanted : string) (l : list string) : option nat :=
  fst <$> list_find (fun x => x = wanted) l.

(** [toggleFavorite]: [push] when the id is not a favourite, otherwise
    [splice(index, 1)] at its first occurrence. *)
Definition toggleFavorite (wanted : string) (m : manager) : manager :=
  match indexOf wanted (favoriteResources m) with
  | None =>
      {| favoriteResources := favoriteResources m ++ [wanted];
         resourceHistory := resourceHistory m |}
  | Some index =>
      {| favoriteResources := delete index (favoriteResources m);
         resourceHistory := resourceHistory m |}
  end.

(** [trackResourceView]: [push], then [slice(-100)] once the history is
    longer than 100. *)
Definition trackResourceView (now : Z) (wanted : string) (m : manager) : manager :=
  let viewData := {| resourceId := wanted; viewedAt := now; viewType := "view" |} in
  let pushed := resourceHistory m ++ [viewData] in
  {| favoriteResources := favoriteResources m;
     resourceHistory :=
       if (100 <? length pushed)%nat then drop (length pushed - 100) pushed else pushed |}.

(** [new Set(this.resourceHistory.map(h => h.resourceId)).size] of
    [updateResourceStats]. *)
Definition viewedCount (m : manager) : nat :=
  size (list_to_set (map resourceId (resourceHistory m)) : gset string).

Record resource : Type := {
  id : string;
  title : string;
  description : string;
  tags : option (list string);
  resourceCategory : string;
  priority : string
}.

Section Filtering.

(** [String.prototype.toLowerCase], [trim], [includes] and
    [localeCompare]. *)
Variable toLowerCase : string -> string.
Variable trim : string -> string.
Variable includes : string -> string -> bool.
Variable localeCompare : string -> string -> Z.

(** [`${resource.title} ${resource.description} ${resource.tags?.join(' ') || ''}`] *)
Definition searchableText (r : resource) : string :=
  (title r ++ " " ++ description r ++ " "
   ++ match tags r with
      | Some labels => String.concat " " labels
      | None => EmptyString
      end)%string.

(** [this.searchInput?.value.toLowerCase().trim()], the empty text standing
    for every value that is not truthy. *)
Definition searchQueryOf (searchValue : option string) : string :=
  match searchValue with
  | Some v => trim (toLowerCase v)
  | None => EmptyString
  end.

Definition isHigh (r : resource) : bool := bool_decide (priority r = "high").

(** The comparison function of the final [sort]. *)
Definition compareResources (a b : resource) : Z :=
  if isHigh a && negb (isHigh b) then -1
  else if isHigh b && negb (isHigh a) then 1
  else localeCompare (title a) (title b).

(** The two [filter] steps; [None] when neither ran, so that [filtered] is
    still the array [this.resources] itself. *)
Definition selection (currentFilter searchQuery : string) (resources : list resource)
    : option (list resource) :=
  let byCategory :=
    if decide (currentFilter = "all") then None
    else Some (filter (fun r => resourceCategory r = currentFilter) resources) in
  match searchQuery with
  | EmptyString => byCategory
  | _ =>
      Some (filter (fun r => includes (toLowerCase (searchableText r)) searchQuery = true)
                   (default resources byCategory))
  end.

(** [getFilteredResources]: the list returned and [this.resources]
    afterwards; [sort] works in place, so it reorders [this.resources] when
    no filter has made a new array. *)
Definition getFilteredResources (currentFilter : string) (searchValue : option string)
    (resources : list resource) : list resource * list resource :=
  match selection currentFilter (searchQueryOf searchValue) resources with
  | Some filtered => (sort compareResources filtered, resources)
  | None => (sort compareResources resources, sort compareResources resources)
  end.

End Filtering.

(** A resource of high priority is not listed after one of another
    priority. *)
Definition highBefore (a b : resource) : Prop := isHigh b = true -> isHigh a = true.

End ResourcesManager.

(** ** The reward preview *)

Module RewardPreview.
Import Storage.

(** An entry as [loadUserProgress] reads it: [when] is the instant
    [new Date(entry.date || entry.timestamp)]. *)
Record datedEntry : Type := { when : Z }.

Record completedExercise : Type := {
  exerciseType : string;
  exerciseCategory : string
}.

(** The object stored under [exerciseProgress]. *)
Record exerciseProgress : Type := { completed : option (list completedExercise) }.

(** One call [updateBadgeProgress(feature, badgeName, current, total)]. *)
Record badgeUpdate : Type := {
  feature : string;
  badgeName : string;
  current : Z;
  total : Z
}.

(** [const progressRatio = current / total] *)
Definition progressRatio (u : badgeUpdate) : Q :=
  (inject_Z (current u) / inject_Z (total u))%Q.

(** The count reported lies between 0 and a positive total, so that the
    ratio lies between 0 and 1 and is 1 exactly when the total is met. *)
Definition withinTotal (u : badgeUpdate) : Prop :=
  0 < total u /\ 0 <= current u <= total u /\
  (0 <= progressRatio u)%Q /\ (progressRatio u <= 1)%Q /\
  ((progressRatio u == 1)%Q <-> current u = total u).

Section DateStrings.

(** [dateStringLeb d1 d2]: the date string of day [d1] does not come
    after that of day [d2] in the order [Array.prototype.sort] uses. *)
Variable dateStringLeb : Z -> Z -> bool.

Fixpoint insertDate (d : Z) (sorted : list Z) : list Z :=
  match sorted with
  | [] => [d]
  | x :: rest => if dateStringLeb d x then d :: sorted else x :: insertDate d rest
  end.

Definition sortDates (l : list Z) : list Z := foldr insertDate [] l.

(** [[...new Set(dates)]]: first occurrences, in order. *)
Fixpoint uniqueFrom (seen : gset Z) (l : list Z) : list Z :=
  match l with
  | [] => []
  | x :: rest =>
      if decide (x ∈ seen) then uniqueFrom seen rest
      else x :: uniqueFrom ({[x]} ∪ seen) rest
  end.

(** The loop over [uniqueDates] from index 1; [prev] is
    [uniqueDates[i - 1]]. *)
Fixpoint consecutiveLoop (prev : Z) (rest : list Z) (consecutive maxConsecutive : nat) : nat :=
  match rest with
  | [] => maxConsecutive
  | curr :: rest' =>
      if curr - prev =? 1
      then consecutiveLoop curr rest' (S consecutive) (Nat.max maxConsecutive (S consecutive))
      else consecutiveLoop curr rest' 1 maxConsecutive
  end.

Definition calculateConsecutiveDays (es : list datedEntry) : nat :=
  if (length es =? 0)%nat then 0%nat
  else
    let dates := sortDates (map (fun e => toDateString (when e)) es) in
    match uniqueFrom ∅ dates with
    | [] => 1%nat
    | first :: rest => consecutiveLoop first rest 1 1
    end.

Definition journalUpdates (journalEntries : list datedEntry) : list badgeUpdate :=
  if (0 <? length journalEntries)%nat then
    [ {| feature := "journal"; badgeName := "First Steps"; current := 1; total := 1 |};
      {| feature := "journal"; badgeName := "Reflection Master";
         current := Z.min (Z.of_nat (length journalEntries)) 10; total := 10 |};
      {| feature := "journal"; badgeName := "Daily Writer";
         current := Z.min (Z.of_nat (calculateConsecutiveDays journalEntries)) 7;
         total := 7 |} ]
  else [].

Definition moodUpdates (moodEntries : list datedEntry) : list badgeUpdate :=
  if (0 <? length moodEntries)%nat then
    [ {| feature := "mood"; badgeName := "Mood Tracker"; current := 1; total := 1 |};
      {| feature := "mood"; badgeName := "Mood Master";
         current := Z.min (Z.of_nat (calculateConsecutiveDays moodEntries)) 14;
         total := 14 |};
      {| feature := "mood"; badgeName := "Emotional Awareness";
         current := Z.min (Z.of_nat (length moodEntries)) 50; total := 50 |} ]
  else [].

Definition exerciseUpdates (progress : exerciseProgress) : list badgeUpdate :=
  let completedExercises := default [] (completed progress) in
  if (0 <? length completedExercises)%nat then
    let uniqueTypes :=
      size (list_to_set (map exerciseType completedExercises) : gset string) in
    let mindfulnessCount :=
      length (filter (fun ex => exerciseCategory ex = "mindfulness") completedExercises) in
    [ {| feature := "exercise"; badgeName := "Wellness Warrior"; current := 1; total := 1 |};
      {| feature := "exercise"; badgeName := "Coping Champion";
         current := Z.min (Z.of_nat uniqueTypes) 5; total := 5 |};
      {| feature := "exercise"; badgeName := "Mindfulness Master";
         current := Z.min (Z.of_nat mindfulnessCount) 20; total := 20 |} ]
  else [].

(** [loadUserProgress]: the result lists its calls of
    [updateBadgeProgress], in order. *)
Definition loadUserProgress `{JsonParse (list datedEntry)} `{JsonParse exerciseProgress}
    (store : gmap string string) : outcome (list badgeUpdate) :=
  (let! journalEntries := JSON_parse (orElse (getItem "journalEntries" store) "[]") in
   let! moodEntries := JSON_parse (orElse (getItem "moodHistory" store) "[]") in
   let! progress := JSON_parse (orElse (getItem "exerciseProgress" store) "{}") in
   Return (journalUpdates journalEntries ++ moodUpdates moodEntries
             ++ exerciseUpdates progress))%outcome.

End DateStrings.

(** The days [start], [start + 1], ... ([len] of them) all occur in [days]. *)
Definition runOfDays (days : list Z) (start : Z) (len : nat) : Prop :=
  forall i : nat, (i < len)%nat -> start + Z.of_nat i ∈ days.

(** The day names [toDateString] starts its text with; day 0, the first of
    January 1970, was a Thursday. *)
Definition dayNames : list string := ["Sun"; "Mon"; "Tue"; "Wed"; "Thu"; "Fri"; "Sat"].

Definition weekday (day : Z) : Z := (day + 4) mod 7.

Definition weekdayName (day : Z) : string :=
  nth (Z.to_nat (weekday day)) dayNames EmptyString.

(** What the default comparison of [sort] does on the texts of two days of
    different week days: the day names, which differ within their three
    letters, decide. *)
Definition comparesDayNamesFirst (dateStringLeb : Z -> Z -> bool) : Prop :=
  forall d1 d2, weekdayName d1 <> weekdayName d2 ->
    dateStringLeb d1 d2 = String.leb (weekdayName d1) (weekdayName d2).

(** A badge of the preview: the feature of the panel it is in, its name
    and its progress text and styles. *)
Inductive progressText : Type :=
  | Initial (shown : string)
  | Fraction (current total : Z)
  | CompletedText.

Record badgeItem : Type := {
  panel : string;
  name : string;
  progress : progressText;
  highlighted : bool;
  pulsing : bool;
  completedStyle : bool
}.

Definition badgeMapping : list (string * string) :=
  [ ("first_conversation", "First Steps");
    ("week_warrior", "Daily Writer");
    ("mood_tracker", "Mood Master");
    ("coping_champion", "Coping Champion");
    ("resource_explorer", "Resource Explorer");
    ("challenge_crusher", "Wellness Warrior");
    ("first_journal", "First Steps");
    ("reflection_master", "Reflection Master");
    ("daily_writer", "Daily Writer");
    ("first_mood", "Mood Tracker");
    ("mood_master", "Mood Master");
    ("emotional_awareness", "Emotional Awareness");
    ("first_exercise", "Wellness Warrior");
    ("mindfulness_master", "Mindfulness Master") ].

Fixpoint mapped (badgeId : string) (mapping : list (string * string)) : option string :=
  match mapping with
  | [] => None
  | (key, badge) :: rest => if decide (key = badgeId) then Some badge else mapped badgeId rest
  end.

(** [badgeMapping[badgeId] === badgeName] *)
Definition shouldUpdateBadge (badgeName badgeId : string) : bool :=
  match mapped badgeId badgeMapping with
  | Some badge => bool_decide (badge = badgeName)
  | None => false
  end.

(** [current / total >= threshold] on numbers: a division by zero gives
    [Infinity] for a positive [current] and otherwise a value no
    comparison holds of. *)
Definition ratioAtLeast (current total : Z) (threshold : Q) : bool :=
  if total =? 0 then 0 <? current
  else Qle_bool threshold (Qdiv (inject_Z current) (inject_Z total)).

Definition updateItem (current total : Z) (item : badgeItem) : badgeItem :=
  let near := ratioAtLeast current total (8 # 10) in
  let reached := ratioAtLeast current total 1 in
  {| panel := panel item;
     name := name item;
     progress := if reached then CompletedText else Fraction current total;
     highlighted := near || highlighted item;
     pulsing := near || pulsing item;
     completedStyle := reached || completedStyle item |}.

(** [updateProgress(feature, badgeId, current, total)] over the badges of
    the page. *)
Definition updateProgress (feature badgeId : string) (current total : Z)
    (page : list badgeItem) : list badgeItem :=
  map (fun item =>
         if bool_decide (panel item = feature) && shouldUpdateBadge (name item) badgeId
         then updateItem current total item
         else item) page.

End RewardPreview.

(** ** chat.js *)

Module Chat.

(** The body of a successful reply, as [response.json()] decodes it. *)
Record chatData : Type := {
  message : option string;
  crisis_detected : bool
}.

Record response : Type := {
  status : Z;
  text : outcome string;
  json : outcome (option chatData)
}.

(** What [await fetch(url, ...)] completes with. *)
Inductive fetchResult : Type :=
  | Rejected
  | Resolved (r : response).

(** [response.ok]: the status is in the range 200-299. *)
Definition ok (r : response) : bool := (200 <=? status r) && (status r <=? 299).

Definition authenticationMessage : string :=
  "I need you to be authenticated to chat. Please refresh the page and try again.".
Definition slowDownMessage : string :=
  "You're sending messages too quickly. Please take a moment and try again.".
Definition technicalDifficultiesMessage : string :=
  "I'm experiencing some technical difficulties. Please try again in a moment.".
Definition apologyMessage : string :=
  "I'm sorry, but I couldn't process your message right now. Please try again.".
Definition crisisMessage : string :=
  "I'm here to support you. If you're in crisis, please reach out to a mental health professional or crisis hotline.".
Definition rephraseMessage : string :=
  "I'm having a little trouble thinking right now. Could you try rephrasing your message?".
Definition connectionMessage : string :=
  "I'm having a little trouble connecting right now. Please try again in a moment.".

Definition nonEmpty (s : option string) : option string :=
  match s with
  | Some EmptyString => None
  | other => other
  end.

(** The statements inside [try]. *)
Definition tryBlock (fetched : fetchResult) : outcome string :=
  match fetched with
  | Rejected => Throw TypeError
  | Resolved r =>
      if negb (ok r) then
        (let! errorText := text r in
         if status r =? 401 then Return authenticationMessage
         else if status r =? 429 then Return slowDownMessage
         else if 500 <=? status r then Return technicalDifficultiesMessage
         else Return apologyMessage)%outcome
      else
        (let! data := json r in
         match data with
         | Some d =>
             match nonEmpty (message d) with
             | Some m => Return m
             | None =>
                 if crisis_detected d then Return crisisMessage
                 else Return rephraseMessage
             end
         | None => Return rephraseMessage
         end)%outcome
  end.

(** [getChillBuddyResponse]: the network is the sequence of results its
    successive [fetch] calls would complete with; the result pairs the
    value the promise settles with and the number of [fetch] calls made. *)
Definition getChillBuddyResponse (network : nat -> fetchResult) : outcome string * nat :=
  (tryCatch (tryBlock (network 0%nat)) (fun _ => Return connectionMessage), 1%nat).

End Chat.

(** ** One aggregation pass *)

Module Aggregator.
Import Storage.

(** Everything the aggregation reads. *)
Record world : Type := {
  tracker : MoodTracker.tracker;
  journal : JournalSystem.journal;
  storage : gmap string string
}.

(** Everything it derives. *)
Record report : Type := {
  averageMood : Q;
  moodStreak : nat;
  journalStreak : nat;
  averageWords : Z;
  badges : outcome (list RewardPreview.badgeUpdate)
}.

(** [getAverageMood], [getCurrentStreak], the values [updateStats] writes
    and the badge updates of [loadUserProgress], computed at the instant
    [now]; none of them assigns to the objects it reads, so the world is
    handed back as it was received. *)
Definition aggregate (dateStringLeb : Z -> Z -> bool)
    `{JsonParse (list RewardPreview.datedEntry)} `{JsonParse RewardPreview.exerciseProgress}
    (now : Z) (w : world) : report * world :=
  ({| averageMood := MoodTracker.calculateAverageMood (tracker w);
      moodStreak := MoodTracker.calculateStreak now (tracker w);
      journalStreak := JournalSystem.getStreak now (journal w);
      averageWords := JournalSystem.getAverageWordsPerEntry (journal w);
      badges := RewardPreview.loadUserProgress dateStringLeb (storage w) |},
   w).

End Aggregator.

(** ** The specification's notions *)

(** The arithmetic mean of a list of integers. *)
Definition arithmeticMean (values : list Z) : Q :=
  Qdiv (inject_Z (foldr Z.add 0 values)) (inject_Z (Z.of_nat (length values))).

(** ** Sample data *)

Module Sample.

(** Noon of day 20000. *)
Definition noon : Z := 20000 * msPerDay + 12 * 60 * 60 * 1000.

Definition calm : MoodTracker.mood :=
  {| MoodTracker.value := 4; MoodTracker.emoji := ":)"; MoodTracker.label := "Good" |}.

Definition moodAt (t : Z) : MoodTracker.moodEntry :=
  {| MoodTracker.id := t; MoodTracker.timestamp := t;
     MoodTracker.entryMood := calm; MoodTracker.factors := [] |}.

(** Two moods logged today (an hour apart) and one yesterday. *)
Definition twiceToday : MoodTracker.tracker :=
  {| MoodTracker.currentMood := None; MoodTracker.selectedFactors := [];
     MoodTracker.moodHistory :=
       [moodAt noon; moodAt (noon - 60 * 60 * 1000); moodAt (noon - msPerDay)] |}.

Definition pageAt (t : Z) (words : Z) : JournalSystem.journalEntry :=
  {| JournalSystem.id := t; JournalSystem.date := t; JournalSystem.content := "text";
     JournalSystem.mood := None; JournalSystem.prompt := None;
     JournalSystem.wordCount := Some words; JournalSystem.lastModified := None |}.

(** Two journal entries today and one yesterday. *)
Definition journalTwiceToday : JournalSystem.journal :=
  {| JournalSystem.entries :=
       [pageAt noon 1; pageAt (noon - 60 * 60 * 1000) 2; pageAt (noon - msPerDay) 3];
     JournalSystem.currentEntry := None; JournalSystem.isEditing := false |}.

(** A journal of two entries, of one and of two words. *)
Definition journalOneTwo : JournalSystem.journal :=
  {| JournalSystem.entries := [pageAt noon 1; pageAt (noon - msPerDay) 2];
     JournalSystem.currentEntry := None; JournalSystem.isEditing := false |}.

(** A reader that decodes the one text [accepted] and rejects every
    other text, as [JSON.parse] does on a store that holds either that text
    or text that is not JSON. *)
Definition parseOnly {A : Type} (accepted : string) (decoded : A) : Storage.JsonParse A :=
  fun s => if decide (s = accepted) then Return decoded else Throw SyntaxError.

(** The world of [twiceToday] and [journalTwiceToday] over an empty store. *)
Definition quietWorld : Aggregator.world :=
  {| Aggregator.tracker := twiceToday; Aggregator.journal := journalTwiceToday;
     Aggregator.storage := ∅ |}.

(** A session on an earned badge that only adds to it. *)
Definition earnedPage : ProgressTrackingDashboard.page :=
  ProgressTrackingDashboard.run
    [ProgressTrackingDashboard.UpdateProgress "crisis-survivor"
       (ProgressTrackingDashboard.Int 1)]
    ProgressTrackingDashboard.mockPage.

Definition addingSession : list ProgressTrackingDashboard.operation :=
  [ ProgressTrackingDashboard.SimulateActivity "2024-01-16" "crisis-survivor" "checkin" 1;
    ProgressTrackingDashboard.UpdateProgress "crisis-survivor" (ProgressTrackingDashboard.Int 3);
    ProgressTrackingDashboard.ResetProgress 0 false ].

(** A text that is not JSON. *)
Definition malformed : string := "{not json".

(** White space of the ASCII range, for texts without other white space. *)
Definition asciiSpace (c : Ascii.ascii) : bool :=
  match Ascii.nat_of_ascii c with
  | 9%nat | 10%nat | 11%nat | 12%nat | 13%nat | 32%nat => true
  | _ => false
  end.

(** A journal holding one entry, opened for editing. *)
Definition journalEditing : JournalSystem.journal :=
  JournalSystem.editEntry asciiSpace true true (Some noon)
    {| JournalSystem.entries := [pageAt noon 1];
       JournalSystem.currentEntry := None; JournalSystem.isEditing := false |}.

(** A tracker with a mood selected and one mood in its history. *)
Definition trackerReady : MoodTracker.tracker :=
  {| MoodTracker.currentMood := Some calm; MoodTracker.selectedFactors := ["sleep"];
     MoodTracker.moodHistory := [moodAt (noon - msPerDay)] |}.

Definition boxBreathing : ExercisesSystem.exercise :=
  {| ExercisesSystem.exerciseId := "box_breathing";
     ExercisesSystem.exerciseName := "Box Breathing" |}.

(** An exercise session about to complete, with an empty history. *)
Definition sessionRunning : ExercisesSystem.system :=
  {| ExercisesSystem.currentCategory := "breathing";
     ExercisesSystem.currentExercise := Some boxBreathing;
     ExercisesSystem.isActive := true;
     ExercisesSystem.totalDuration := 300; ExercisesSystem.timeRemaining := 0;
     ExercisesSystem.exerciseHistory := [] |}.

(** The entry [startNewEntry] opens at [noon]. *)
Definition blankPage : JournalSystem.journalEntry :=
  {| JournalSystem.id := noon; JournalSystem.date := noon;
     JournalSystem.content := EmptyString;
     JournalSystem.mood := None; JournalSystem.prompt := None;
     JournalSystem.wordCount := Some 0; JournalSystem.lastModified := None |}.

(** A journal with a fresh entry in the editor. *)
Definition journalWriting : JournalSystem.journal :=
  JournalSystem.startNewEntry noon
    {| JournalSystem.entries := [pageAt (noon - msPerDay) 2];
       JournalSystem.currentEntry := None; JournalSystem.isEditing := false |}.

(** A server error whose body can be read. *)
Definition serverError : Chat.response :=
  {| Chat.status := 503; Chat.text := Return "Service Unavailable";
     Chat.json := Throw SyntaxError |}.

(** Three moods, each recorded with work as a factor and the first also with
    sleep. *)
Definition workWeek : MoodTracker.tracker :=
  {| MoodTracker.currentMood := None; MoodTracker.selectedFactors := [];
     MoodTracker.moodHistory :=
       [ {| MoodTracker.id := noon; MoodTracker.timestamp := noon;
            MoodTracker.entryMood := calm; MoodTracker.factors := ["sleep"; "work"] |};
         {| MoodTracker.id := noon - msPerDay; MoodTracker.timestamp := noon - msPerDay;
            MoodTracker.entryMood := calm; MoodTracker.factors := ["work"] |};
         {| MoodTracker.id := noon - 2 * msPerDay; MoodTracker.timestamp := noon - 2 * msPerDay;
            MoodTracker.entryMood := calm; MoodTracker.factors := ["work"] |} ] |}.

(** An order of the date texts that follows the day names and, within one
    day name, the calendar. *)
Definition byDayName (d1 d2 : Z) : bool :=
  if decide (RewardPreview.weekdayName d1 = RewardPreview.weekdayName d2)
  then d1 <=? d2
  else String.leb (RewardPreview.weekdayName d1) (RewardPreview.weekdayName d2).

(** Entries of the first two days of 1970, a Thursday and a Friday. *)
Definition thursdayFriday : list RewardPreview.datedEntry :=
  [ {| RewardPreview.when := msPerDay + 1000 |};
    {| RewardPreview.when := 1000 |};
    {| RewardPreview.when := 2000 |} ].

(** A reader that decodes the texts of [table] and rejects every other
    text. *)
Definition parseTable {A : Type} (table : list (string * A)) : Storage.JsonParse A :=
  fun s =>
    match list_find (fun row : string * A => fst row = s) table with
    | Some (_, row) => Return (snd row)
    | None => Throw SyntaxError
    end.

(** The double quote. *)
Definition quote : string := String (Ascii.ascii_of_nat 34) EmptyString.

(** The JSON text of an entry with the date [iso]. *)
Definition dated (iso : string) : string :=
  String.append "{"
    (String.append quote
       (String.append "date"
          (String.append quote
             (String.append ":"
                (String.append quote (String.append iso (String.append quote "}"))))))).

(** The text stored for [thursdayFriday]; the dates are local times. *)
Definition thursdayFridayText : string :=
  String.append "["
    (String.append (dated "1970-01-02T00:00:01")
       (String.append ","
          (String.append (dated "1970-01-01T00:00:01")
             (String.append "," (String.append (dated "1970-01-01T00:00:02") "]"))))).

(** Two stored entry objects, the first of today and the second of
    yesterday, and no entry in the editor. *)
Definition twoObjects : JournalObjects.journal :=
  {| JournalObjects.objects :=
       <[0%nat := pageAt noon 1]> (<[1%nat := pageAt (noon - msPerDay) 2]> (fun _ => blankPage));
     JournalObjects.allocated := 2;
     JournalObjects.entries := [0%nat; 1%nat];
     JournalObjects.currentEntry := None;
     JournalObjects.isEditing := false |}.

(** A store with the journal entries of [thursdayFriday] and nothing else. *)
Definition journalOnlyStore : gmap string string :=
  <["journalEntries" := thursdayFridayText]> ∅.

Definition parseDated : Storage.JsonParse (list RewardPreview.datedEntry) :=
  parseTable [("[]", []); (thursdayFridayText, thursdayFriday)].

Definition parseNoProgress : Storage.JsonParse RewardPreview.exerciseProgress :=
  parseTable [("{}", {| RewardPreview.completed := None |})].

End Sample.

(** * Properties *)

(** ** Calendar arithmetic *)

Lemma msPerDay_pos : 0 < msPerDay.
Proof. reflexivity. Qed.

Lemma toDateString_setDatePrev t : toDateString (setDatePrev t) = toDateString t - 1.
Proof.
  unfold toDateString, setDatePrev.
  replace (t - msPerDay) with (t + (-1) * msPerDay) by lia.
  rewrite Z.div_add by (pose proof msPerDay_pos; lia). lia.
Qed.

Lemma setHoursZero_day t : setHoursZero t = msPerDay * toDateString t.
Proof.
  unfold setHoursZero, toDateString.
  pose proof (Z.div_mod t msPerDay) as H.
  pose proof msPerDay_pos. lia.
Qed.

Lemma daysDiff_days a b :
  (setHoursZero a - setHoursZero b) / msPerDay = toDateString a - toDateString b.
Proof.
  rewrite !setHoursZero_day.
  replace (msPerDay * toDateString a - msPerDay * toDateString b)
    with ((toDateString a - toDateString b) * msPerDay) by lia.
  apply Z.div_mul. pose proof msPerDay_pos. lia.
Qed.

Lemma setHoursZero_idem t : setHoursZero (setHoursZero t) = setHoursZero t.
Proof.
  rewrite (setHoursZero_day t). unfold setHoursZero.
  rewrite Z.mul_comm, Z.mod_mul by (pose proof msPerDay_pos; lia). lia.
Qed.

Lemma StreakSpec_unique days today n m :
  StreakSpec days today n -> StreakSpec days today m -> n = m.
Proof.
  intros [Hn Hn'] [Hm Hm'].
  destruct (Nat.lt_trichotomy n m) as [Hlt | [Heq | Hgt]]; [| exact Heq |].
  - exfalso. apply Hn'. apply Hm. lia.
  - exfalso. apply Hm'. apply Hn. lia.
Qed.

(** ** Streaks *)

Lemma oneEntryPerDay_bound c days :
  oneEntryPerDay c days -> forall d, In d days -> d <= c.
Proof.
  revert c. induction days as [| x rest IH]; intros c H d Hd; [destruct Hd |].
  destruct H as [Hx Hrest]. destruct Hd as [-> | Hd]; [exact Hx |].
  specialize (IH _ Hrest _ Hd). lia.
Qed.

Lemma oneEntryPerDay_weaken c c' days :
  c <= c' -> oneEntryPerDay c days -> oneEntryPerDay c' days.
Proof. destruct days; simpl; intuition lia. Qed.

Section StreakLoops.
Import MoodTracker.

Lemma streakLoop_counts es : forall currentDate streak,
  oneEntryPerDay (toDateString currentDate) (map (fun e => toDateString (timestamp e)) es) ->
  exists m : nat,
    streakLoop es currentDate streak = (streak + m)%nat /\
    StreakSpec (map (fun e => toDateString (timestamp e)) es) (toDateString currentDate) m.
Proof.
  induction es as [| e rest IH]; intros cur s Hdays.
  - exists 0%nat. split; [simpl; lia |]. split; [intros k Hk; lia | intros []].
  - simpl in Hdays. destruct Hdays as [Hle Hrest]. simpl streakLoop.
    destruct (Z.eqb_spec (toDateString (timestamp e)) (toDateString cur)) as [Heq | Hne].
    + rewrite Heq in Hrest. rewrite <- toDateString_setDatePrev in Hrest.
      destruct (IH (setDatePrev cur) (S s) Hrest) as (m & Hm & Hin & Hout).
      rewrite toDateString_setDatePrev in Hin, Hout.
      exists (S m). split; [lia |]. split.
      * intros k Hk. simpl. destruct (Z.eq_dec k 0) as [-> | Hk0].
        -- left. lia.
        -- right. replace (toDateString cur - k) with (toDateString cur - 1 - (k - 1)) by lia.
           apply Hin. lia.
      * simpl. intros [Habs | Habs]; [lia |].
        apply Hout. replace (toDateString cur - 1 - Z.of_nat m)
          with (toDateString cur - Z.of_nat (S m)) by lia. exact Habs.
    + exists 0%nat. split; [lia |]. split; [intros k Hk; lia |].
      simpl. rewrite Z.sub_0_r. intros [Habs | Habs]; [congruence |].
      pose proof (oneEntryPerDay_bound _ _ Hrest _ Habs). lia.
Qed.

End StreakLoops.

(** With one entry per day the mood streak is the streak of the
    specification. *)
Lemma calculateStreak_one_entry_per_day now t :
  oneEntryPerDay (toDateString now) (MoodTracker.entryDays t) ->
  StreakSpec (MoodTracker.entryDays t) (toDateString now) (MoodTracker.calculateStreak now t).
Proof.
  intros H. unfold MoodTracker.calculateStreak, MoodTracker.entryDays in *.
  destruct (MoodTracker.moodHistory t) as [| e rest] eqn:Hh.
  - simpl. split; [intros k Hk; lia | intros []].
  - destruct (streakLoop_counts (e :: rest) now 0 H) as (m & Hm & Hspec).
    replace (length (e :: rest) =? 0)%nat with false by reflexivity.
    rewrite Hm. exact Hspec.
Qed.

Section JournalStreakLoop.
Import JournalSystem.

Lemma getStreakLoop_counts es : forall now streak,
  oneEntryPerDay (toDateString now - Z.of_nat streak)
                 (map (fun e => toDateString (date e)) es) ->
  exists m : nat,
    getStreakLoop es (setHoursZero now) streak = (streak + m)%nat /\
    StreakSpec (map (fun e => toDateString (date e)) es)
               (toDateString now - Z.of_nat streak) m.
Proof.
  induction es as [| e rest IH]; intros now s Hdays.
  - exists 0%nat. split; [simpl; lia |]. split; [intros k Hk; lia | intros []].
  - simpl in Hdays. destruct Hdays as [Hle Hrest]. simpl getStreakLoop.
    rewrite daysDiff_days.
    destruct (Z.eqb_spec (toDateString now - toDateString (date e)) (Z.of_nat s)) as [Heq | Hne].
    + assert (Hday : toDateString (date e) - 1 = toDateString now - Z.of_nat (S s)) by lia.
      rewrite Hday in Hrest.
      destruct (IH now (S s) Hrest) as (m & Hm & Hin & Hout).
      exists (S m). split; [lia |]. split.
      * intros k Hk. simpl. destruct (Z.eq_dec k 0) as [-> | Hk0].
        -- left. lia.
        -- right. replace (toDateString now - Z.of_nat s - k)
             with (toDateString now - Z.of_nat (S s) - (k - 1)) by lia.
           apply Hin. lia.
      * simpl. intros [Habs | Habs]; [lia |].
        apply Hout. replace (toDateString now - Z.of_nat (S s) - Z.of_nat m)
          with (toDateString now - Z.of_nat s - Z.of_nat (S m)) by lia. exact Habs.
    + exists 0%nat. split; [lia |]. split; [intros k Hk; lia |].
      simpl. rewrite Z.sub_0_r. intros [Habs | Habs]; [lia |].
      pose proof (oneEntryPerDay_bound _ _ Hrest _ Habs). lia.
Qed.

End JournalStreakLoop.

(** With one entry per day the journal streak is the streak of the
    specification. *)
Lemma getStreak_one_entry_per_day now j :
  oneEntryPerDay (toDateString now) (JournalSystem.entryDays j) ->
  StreakSpec (JournalSystem.entryDays j) (toDateString now) (JournalSystem.getStreak now j).
Proof.
  intros H. unfold JournalSystem.getStreak, JournalSystem.entryDays in *.
  destruct (JournalSystem.entries j) as [| e rest] eqn:Hh.
  - simpl. split; [intros k Hk; lia | intros []].
  - replace (toDateString now) with (toDateString now - Z.of_nat 0) in H |- * by (simpl; lia).
    destruct (getStreakLoop_counts (e :: rest) now 0 H) as (m & Hm & Hspec).
    replace (length (e :: rest) =? 0)%nat with false by reflexivity.
    rewrite Hm. exact Hspec.
Qed.

Lemma streakLoop_same_day es : forall d1 d2 streak,
  toDateString d1 = toDateString d2 ->
  MoodTracker.streakLoop es d1 streak = MoodTracker.streakLoop es d2 streak.
Proof.
  induction es as [| e rest IH]; intros d1 d2 s Hd; [reflexivity |].
  simpl. rewrite Hd.
  destruct (_ =? _); [| reflexivity].
  apply IH. rewrite !toDateString_setDatePrev. congruence.
Qed.

(** Without an entry dated today both streaks are 0. *)
Lemma calculateStreak_zero_without_today now t :
  ~ In (toDateString now) (MoodTracker.entryDays t) ->
  MoodTracker.calculateStreak now t = 0%nat.
Proof.
  unfold MoodTracker.calculateStreak, MoodTracker.entryDays.
  destruct (MoodTracker.moodHistory t) as [| e rest]; [reflexivity |].
  simpl. intros H.
  destruct (Z.eqb_spec (toDateString (MoodTracker.timestamp e)) (toDateString now));
    [exfalso; apply H; left; assumption | reflexivity].
Qed.

Lemma getStreak_zero_without_today now j :
  ~ In (toDateString now) (JournalSystem.entryDays j) ->
  JournalSystem.getStreak now j = 0%nat.
Proof.
  unfold JournalSystem.getStreak, JournalSystem.entryDays.
  destruct (JournalSystem.entries j) as [| e rest]; [reflexivity |].
  simpl. intros H. rewrite daysDiff_days.
  destruct (Z.eqb_spec (toDateString now - toDateString (JournalSystem.date e)) (Z.of_nat 0));
    [exfalso; apply H; left; lia | reflexivity].
Qed.

(** C1. The streak is claimed to be the number of consecutive calendar days,
    counted back from today, that each carry an entry, several entries on one
    day not ending the count.  With two entries today and one yesterday that
    number is 2, but [MoodTracker.calculateStreak] and
    [JournalSystem.getStreak] both stop at the second entry of today and
    return 1. *)
Theorem C1_second_entry_of_today_ends_the_streak :
  MoodTracker.calculateStreak Sample.noon Sample.twiceToday = 1%nat /\
  StreakSpec (MoodTracker.entryDays Sample.twiceToday) (toDateString Sample.noon) 2 /\
  JournalSystem.getStreak Sample.noon Sample.journalTwiceToday = 1%nat /\
  StreakSpec (JournalSystem.entryDays Sample.journalTwiceToday) (toDateString Sample.noon) 2.
Proof.
  assert (Hspec : StreakSpec [20000; 20000; 19999] 20000 2).
  { split.
    - intros k Hk. assert (k = 0 \/ k = 1) as [-> | ->] by lia; simpl; auto.
    - simpl. intros [H | [H | [H | []]]]; discriminate H. }
  repeat split; try reflexivity; apply Hspec.
Qed.

(** ** Averages *)

Lemma fold_left_sum {A : Type} (f : A -> Z) (l : list A) : forall acc,
  fold_left (fun total x => total + f x) l acc = acc + foldr Z.add 0 (map f l).
Proof.
  induction l as [| x rest IH]; intros acc; simpl; [lia |].
  rewrite IH. lia.
Qed.

Lemma Math_round_nearest (x : Q) :
  (x - (1 # 2) < inject_Z (JournalSystem.Math_round x) /\
   inject_Z (JournalSystem.Math_round x) <= x + (1 # 2))%Q.
Proof.
  unfold JournalSystem.Math_round. split.
  - pose proof (Qlt_floor (x + (1 # 2))) as H.
    rewrite inject_Z_plus in H.
    apply Qplus_lt_l with (z := 1%Q).
    eapply Qle_lt_trans; [| exact H].
    ring_simplify. apply Qle_refl.
  - apply Qfloor_le.
Qed.

(** C7 (amended). Both averages are 0 on an empty list.  The mood average of
    a non-empty history is the arithmetic mean of the mood values; the journal
    average of a non-empty journal is that mean of the word counts rounded to
    the nearest integer, hence within one half of the mean. *)
Theorem C7_averages_mean_and_rounded_mean :
  (forall t,
     MoodTracker.calculateAverageMood t =
     match MoodTracker.moodHistory t with
     | [] => 0%Q
     | _ => arithmeticMean
              (map (fun e => MoodTracker.value (MoodTracker.entryMood e))
                   (MoodTracker.moodHistory t))
     end) /\
  (forall j,
     match JournalSystem.entries j with
     | [] => JournalSystem.getAverageWordsPerEntry j = 0
     | _ =>
         let mean := arithmeticMean (map JournalSystem.wordCountOrZero (JournalSystem.entries j)) in
         JournalSystem.getAverageWordsPerEntry j = JournalSystem.Math_round mean /\
         (mean - (1 # 2) < inject_Z (JournalSystem.getAverageWordsPerEntry j))%Q /\
         (inject_Z (JournalSystem.getAverageWordsPerEntry j) <= mean + (1 # 2))%Q
     end).
Proof.
  split.
  - intros t. unfold MoodTracker.calculateAverageMood, MoodTracker.sumMood, arithmeticMean.
    destruct (MoodTracker.moodHistory t) as [| e rest] eqn:Hh; [reflexivity |].
    replace (length (e :: rest) =? 0)%nat with false by reflexivity.
    rewrite fold_left_sum, length_map. reflexivity.
  - intros j. destruct (JournalSystem.entries j) as [| e rest] eqn:Hh.
    + unfold JournalSystem.getAverageWordsPerEntry. rewrite Hh. reflexivity.
    + assert (Heq : JournalSystem.getAverageWordsPerEntry j =
                    JournalSystem.Math_round
                      (arithmeticMean (map JournalSystem.wordCountOrZero (e :: rest)))).
      { unfold JournalSystem.getAverageWordsPerEntry, JournalSystem.totalWords, arithmeticMean.
        rewrite Hh.
        replace (length (e :: rest) =? 0)%nat with false by reflexivity.
        rewrite fold_left_sum, length_map. reflexivity. }
      cbv zeta. rewrite Heq. split; [reflexivity |]. apply Math_round_nearest.
Qed.

(** C7 as stated fails for the journal: for entries of 1 and 2 words the
    arithmetic mean is 3/2, and [getAverageWordsPerEntry] returns 2. *)
Lemma C7_journal_average_is_rounded :
  ~ (forall j, JournalSystem.entries j <> [] ->
       (inject_Z (JournalSystem.getAverageWordsPerEntry j) ==
        arithmeticMean (map JournalSystem.wordCountOrZero (JournalSystem.entries j)))%Q).
Proof.
  intros H. specialize (H Sample.journalOneTwo).
  assert (Hne : JournalSystem.entries Sample.journalOneTwo <> []) by discriminate.
  specialize (H Hne). vm_compute in H. discriminate H.
Qed.

(** ** Recomputation *)

Lemma calculateStreak_same_day now1 now2 t :
  toDateString now1 = toDateString now2 ->
  MoodTracker.calculateStreak now1 t = MoodTracker.calculateStreak now2 t.
Proof.
  intros H. unfold MoodTracker.calculateStreak.
  destruct (_ =? _)%nat; [reflexivity |]. apply streakLoop_same_day, H.
Qed.

Lemma getStreak_same_day now1 now2 j :
  toDateString now1 = toDateString now2 ->
  JournalSystem.getStreak now1 j = JournalSystem.getStreak now2 j.
Proof.
  intros H. unfold JournalSystem.getStreak.
  rewrite !setHoursZero_day, H. reflexivity.
Qed.

(** C9. Running the aggregation a second time on the world the first run
    left behind, at any instant of the same calendar day, yields the same
    report, and the world is still the one the first run started from. *)
Theorem C9_aggregation_recomputation
    (dateStringLeb : Z -> Z -> bool)
    (parseEntries : Storage.JsonParse (list RewardPreview.datedEntry))
    (parseProgress : Storage.JsonParse RewardPreview.exerciseProgress)
    (now1 now2 : Z) (w : Aggregator.world) :
  toDateString now1 = toDateString now2 ->
  let first := Aggregator.aggregate dateStringLeb now1 w in
  let second := Aggregator.aggregate dateStringLeb now2 (snd first) in
  fst second = fst first /\ snd second = w.
Proof.
  intros Hday. cbv zeta. unfold Aggregator.aggregate. simpl.
  rewrite (calculateStreak_same_day now1 now2), (getStreak_same_day now1 now2) by exact Hday.
  split; reflexivity.
Qed.

(** ** The progress dashboard *)

Section Dashboard.
Import ProgressTrackingDashboard.

Lemma setCurrent_restore item n : setCurrent (current item) (setCurrent n item) = item.
Proof. destruct item; reflexivity. Qed.

Lemma setRecentActivity_restore item a :
  setRecentActivity (recentActivity item) (setRecentActivity a item) = item.
Proof. destruct item; reflexivity. Qed.

Lemma findItem_Some wanted l i item :
  findItem wanted l = Some (i, item) ->
  l !! i = Some item /\ badgeId item = wanted /\
  forall j y, l !! j = Some y -> (j < i)%nat -> badgeId y <> wanted.
Proof. unfold findItem. intros H. apply list_find_Some in H. exact H. Qed.

Lemma findItem_lt wanted l i item :
  findItem wanted l = Some (i, item) -> (i < length l)%nat.
Proof.
  intros H. apply findItem_Some in H as [H _]. eapply lookup_lt_Some, H.
Qed.

(** Replacing an item by one with the same badge id does not change which
    position [find] returns. *)
Lemma findItem_insert wanted l k item item' :
  l !! k = Some item -> badgeId item' = badgeId item ->
  findItem wanted (<[k := item']> l) =
  match findItem wanted l with
  | Some (i, x) => Some (i, if decide (i = k) then item' else x)
  | None => None
  end.
Proof.
  intros Hk Hid.
  destruct (findItem wanted l) as [[i x] |] eqn:Hfind.
  - apply findItem_Some in Hfind as (Hi & Hx & Hmin).
    unfold findItem. apply list_find_Some. destruct (decide (i = k)) as [-> | Hne].
    + repeat split.
      * apply list_lookup_insert_eq. eapply lookup_lt_Some, Hk.
      * congruence.
      * intros j y Hj Hlt. rewrite list_lookup_insert_ne in Hj by lia. eauto.
    + repeat split.
      * rewrite list_lookup_insert_ne by congruence. exact Hi.
      * exact Hx.
      * intros j y Hj Hlt. destruct (decide (j = k)) as [-> | Hjk].
        -- rewrite list_lookup_insert_eq in Hj by (eapply lookup_lt_Some, Hk).
           injection Hj as <-. rewrite Hid. eauto.
        -- rewrite list_lookup_insert_ne in Hj by congruence. eauto.
  - unfold findItem in *. apply list_find_None. apply list_find_None in Hfind.
    rewrite Forall_forall in Hfind |- *. intros y Hy.
    apply list_elem_of_lookup in Hy as [j Hj].
    destruct (decide (j = k)) as [-> | Hjk].
    + rewrite list_lookup_insert_eq in Hj by (eapply lookup_lt_Some, Hk).
      injection Hj as <-. rewrite Hid. apply Hfind.
      apply list_elem_of_lookup. eauto.
    + rewrite list_lookup_insert_ne in Hj by congruence.
      apply Hfind. apply list_elem_of_lookup. eauto.
Qed.

Lemma isEarned_setCurrent_min n item :
  isEarned (setCurrent (minTarget n (target item)) item) = atLeast n (target item).
Proof.
  unfold isEarned. destruct n as [z |]; simpl; [| reflexivity].
  destruct (Z.leb_spec (target item) z); [apply Z.leb_le | apply Z.leb_gt]; lia.
Qed.

Lemma minTarget_idem n t : minTarget (minTarget n t) t = minTarget n t.
Proof. destruct n as [z |]; simpl; [f_equal; lia | reflexivity]. Qed.

Lemma updateProgress_data wanted n p :
  progressData (updateProgress wanted n p) =
  match findItem wanted (progressData p) with
  | Some (i, item) => <[i := setCurrent (minTarget n (target item)) item]> (progressData p)
  | None => progressData p
  end.
Proof.
  unfold updateProgress.
  destruct (findItem wanted (progressData p)) as [[i item] |]; [| reflexivity].
  destruct (achievementNotifications p); [| reflexivity].
  destruct (isEarned _); reflexivity.
Qed.

Lemma updateProgress_stats wanted n p : stats (updateProgress wanted n p) = stats p.
Proof.
  unfold updateProgress.
  destruct (findItem wanted (progressData p)) as [[i item] |]; [| reflexivity].
  destruct (achievementNotifications p); [| reflexivity].
  destruct (isEarned _); reflexivity.
Qed.

Lemma updateProgress_notifications wanted n p :
  achievementNotifications (updateProgress wanted n p) =
  match achievementNotifications p with
  | None => None
  | Some shown =>
      Some (shown ++
            match findItem wanted (progressData p) with
            | Some (_, item) =>
                if atLeast n (target item)
                then [earnedNotification (setCurrent (minTarget n (target item)) item)]
                else []
            | None => []
            end)
  end.
Proof.
  unfold updateProgress.
  destruct (findItem wanted (progressData p)) as [[i item] |].
  - destruct (achievementNotifications p) as [shown |] eqn:Hn; simpl; rewrite ?Hn;
      [| reflexivity].
    rewrite isEarned_setCurrent_min.
    destruct (atLeast n (target item)); simpl; rewrite ?Hn, ?app_nil_r; reflexivity.
  - destruct (achievementNotifications p) as [shown |]; simpl; [| reflexivity].
    by rewrite app_nil_r.
Qed.

Lemma simulateActivity_data today wanted activityType amount p :
  progressData (simulateActivity today wanted activityType amount p) =
  match findItem wanted (progressData p) with
  | Some (i, item) =>
      <[i := setRecentActivity
               (Some (take 7 (bumpActivity today activityType amount
                                (default [] (recentActivity item)))))
               (setCurrent (minTarget (plus (current item) amount) (target item)) item)]>
        (progressData p)
  | None => progressData p
  end.
Proof.
  unfold simulateActivity.
  destruct (findItem wanted (progressData p)) as [[i item] |] eqn:Hfind; [| reflexivity].
  pose proof (findItem_lt _ _ _ _ Hfind) as Hlt.
  rewrite updateProgress_data, Hfind.
  rewrite list_lookup_insert_eq by exact Hlt.
  unfold setProgressData. cbn [progressData].
  rewrite list_insert_insert_eq. cbn [recentActivity setCurrent target].
  rewrite minTarget_idem. reflexivity.
Qed.

Lemma simulateActivity_notifications today wanted activityType amount p :
  achievementNotifications (simulateActivity today wanted activityType amount p) =
  match findItem wanted (progressData p) with
  | Some (_, item) =>
      achievementNotifications
        (updateProgress wanted (minTarget (plus (current item) amount) (target item)) p)
  | None => achievementNotifications p
  end.
Proof.
  unfold simulateActivity.
  destruct (findItem wanted (progressData p)) as [[i item] |] eqn:Hfind; [| reflexivity].
  destruct (progressData (updateProgress _ _ p) !! i); reflexivity.
Qed.

End Dashboard.


(** ** Notifications and the earned state *)

Section Session.
Import ProgressTrackingDashboard.

Lemma earnedAt_updateProgress wanted n p :
  earnedAt wanted (updateProgress wanted n p) =
  match findItem wanted (progressData p) with
  | Some (_, item) => atLeast n (target item)
  | None => false
  end.
Proof.
  unfold earnedAt. rewrite updateProgress_data.
  destruct (findItem wanted (progressData p)) as [[i item] |] eqn:Hfind.
  - pose proof (findItem_Some _ _ _ _ Hfind) as (Hi & _ & _).
    rewrite (findItem_insert wanted _ i item) by (exact Hi || reflexivity).
    rewrite Hfind. rewrite decide_True by reflexivity.
    apply isEarned_setCurrent_min.
  - rewrite Hfind. reflexivity.
Qed.

Lemma earnedAt_simulateActivity today wanted activityType amount p :
  earnedAt wanted (simulateActivity today wanted activityType amount p) =
  match findItem wanted (progressData p) with
  | Some (_, item) =>
      atLeast (minTarget (plus (current item) amount) (target item)) (target item)
  | None => false
  end.
Proof.
  unfold earnedAt. rewrite simulateActivity_data.
  destruct (findItem wanted (progressData p)) as [[i item] |] eqn:Hfind.
  - pose proof (findItem_Some _ _ _ _ Hfind) as (Hi & _ & _).
    rewrite (findItem_insert wanted _ i item) by (exact Hi || reflexivity).
    rewrite Hfind. rewrite decide_True by reflexivity.
    unfold isEarned. cbn [current target setCurrent setRecentActivity].
    reflexivity.
  - rewrite Hfind. reflexivity.
Qed.

Lemma shownFor_updateProgress b wanted n p shown :
  achievementNotifications p = Some shown ->
  length (shownFor b (updateProgress wanted n p)) =
  (length (shownFor b p) +
   if bool_decide (wanted = b) && earnedAt wanted (updateProgress wanted n p)
   then 1 else 0)%nat.
Proof.
  intros Hshown. rewrite earnedAt_updateProgress.
  unfold shownFor. rewrite updateProgress_notifications, Hshown. simpl.
  rewrite filter_app, length_app. f_equal.
  destruct (findItem wanted (progressData p)) as [[i item] |] eqn:Hfind.
  - pose proof (findItem_Some _ _ _ _ Hfind) as (_ & Hid & _).
    destruct (atLeast n (target item)).
    + destruct (bool_decide_reflect (wanted = b)) as [Hb | Hb]; simpl.
      * rewrite filter_cons_True by (simpl; congruence). reflexivity.
      * rewrite filter_cons_False by (simpl; congruence). reflexivity.
    + rewrite andb_false_r. reflexivity.
  - rewrite andb_false_r. reflexivity.
Qed.

Lemma step_notifier p op shown :
  achievementNotifications p = Some shown ->
  exists shown', achievementNotifications (step p op) = Some shown'.
Proof.
  intros Hshown. destruct op as [w n | w [n |] | today w ty amount | now [|]]; simpl;
    try (eexists; exact Hshown).
  - rewrite updateProgress_notifications, Hshown. eauto.
  - rewrite updateProgress_notifications, Hshown. eauto.
  - rewrite simulateActivity_notifications.
    destruct (findItem w (progressData p)) as [[i item] |]; [| eauto].
    rewrite updateProgress_notifications, Hshown. eauto.
Qed.

Lemma shownFor_step b p op shown :
  achievementNotifications p = Some shown ->
  length (shownFor b (step p op)) =
  (length (shownFor b p) + if addresses b op && earnedAt b (step p op) then 1 else 0)%nat.
Proof.
  intros Hshown. destruct op as [w n | w [n |] | today w ty amount | now confirmed]; simpl.
  - rewrite (shownFor_updateProgress b w n p shown Hshown).
    destruct (bool_decide_reflect (w = b)) as [-> | Hb]; reflexivity.
  - rewrite (shownFor_updateProgress b w n p shown Hshown).
    destruct (bool_decide_reflect (w = b)) as [-> | Hb]; reflexivity.
  - lia.
  - destruct (bool_decide_reflect (w = b)) as [-> | Hb]; simpl.
    + rewrite earnedAt_simulateActivity.
      unfold shownFor at 1. rewrite simulateActivity_notifications.
      destruct (findItem b (progressData p)) as [[i item] |] eqn:Hfind.
      * fold (shownFor b (updateProgress b
                            (minTarget (plus (current item) amount) (target item)) p)).
        rewrite (shownFor_updateProgress b b _ p shown Hshown).
        rewrite earnedAt_updateProgress, Hfind.
        rewrite bool_decide_true by reflexivity. reflexivity.
      * fold (shownFor b p). lia.
    + unfold shownFor at 1. rewrite simulateActivity_notifications.
      destruct (findItem w (progressData p)) as [[i item] |] eqn:Hfind.
      * fold (shownFor b (updateProgress w
                            (minTarget (plus (current item) amount) (target item)) p)).
        rewrite (shownFor_updateProgress b w _ p shown Hshown).
        rewrite bool_decide_false by exact Hb. reflexivity.
      * fold (shownFor b p). lia.
  - unfold resetProgress. destruct confirmed; unfold shownFor; simpl; lia.
Qed.

Lemma keepsEarned_step p op i item :
  progressData p !! i = Some item ->
  isEarned item = true ->
  keepsEarned p op = true ->
  exists item', progressData (step p op) !! i = Some item' /\ isEarned item' = true.
Proof.
  intros Hi Hearned Hkeep.
  assert (Hupdate : forall w n,
    match findItem w (progressData p) with
    | Some (_, x) => atLeast n (target x)
    | None => true
    end = true ->
    exists item', progressData (updateProgress w n p) !! i = Some item' /\ isEarned item' = true).
  { intros w n Hn. rewrite updateProgress_data.
    destruct (findItem w (progressData p)) as [[k x] |] eqn:Hfind; [| eauto].
    destruct (decide (k = i)) as [-> | Hne].
    - eexists. split; [apply list_lookup_insert_eq; eapply lookup_lt_Some, Hi |].
      rewrite isEarned_setCurrent_min. exact Hn.
    - rewrite list_lookup_insert_ne by exact Hne. eauto. }
  destruct op as [w n | w [n |] | today w ty amount | now confirmed]; simpl in *.
  - apply Hupdate, Hkeep.
  - apply Hupdate, Hkeep.
  - eauto.
  - rewrite simulateActivity_data.
    destruct (findItem w (progressData p)) as [[k x] |] eqn:Hfind; [| eauto].
    destruct (decide (k = i)) as [-> | Hne].
    + eexists. split; [apply list_lookup_insert_eq; eapply lookup_lt_Some, Hi |].
      apply findItem_Some in Hfind as (Hx & _ & _).
      assert (x = item) as -> by congruence.
      unfold isEarned in *. cbn [current target setCurrent setRecentActivity].
      destruct (current item) as [c |]; [| discriminate Hearned]. simpl in *.
      apply Z.leb_le in Hearned, Hkeep. apply Z.leb_le. lia.
    + rewrite list_lookup_insert_ne by exact Hne. eauto.
  - destruct confirmed; [discriminate Hkeep | eauto].
Qed.

End Session.

(** C2 (amended). With the notification system installed, over any session
    the number of "badge earned" notifications shown for a badge grows by
    exactly the number of progress updates addressed to that badge that leave
    it at or above its target: the update that first reaches the target shows
    one notification, and so does every later update that leaves the badge
    there; an update that leaves it below the target shows none. *)
Theorem C2_one_notification_per_earned_update
    (ops : list ProgressTrackingDashboard.operation) (b : string) :
  forall (p : ProgressTrackingDashboard.page) (shown : list ProgressTrackingDashboard.notification),
    ProgressTrackingDashboard.achievementNotifications p = Some shown ->
    length (ProgressTrackingDashboard.shownFor b (ProgressTrackingDashboard.run ops p)) =
    (length (ProgressTrackingDashboard.shownFor b p) +
     ProgressTrackingDashboard.earnedUpdates b ops p)%nat.
Proof.
  induction ops as [| op rest IH]; intros p shown Hshown.
  - simpl. lia.
  - simpl. destruct (step_notifier p op shown Hshown) as [shown' Hshown'].
    rewrite (IH _ shown' Hshown'), (shownFor_step b p op shown Hshown). lia.
Qed.

(** C2 as stated fails: no record of already-notified badges is kept.
    Setting the crisis-survivor badge (target 1) to 1 twice shows two
    notifications for it. *)
Lemma C2_repeated_update_notifies_again :
  ~ (forall ops b,
       (length (ProgressTrackingDashboard.shownFor b
                  (ProgressTrackingDashboard.run ops ProgressTrackingDashboard.mockPage))
        <= 1)%nat).
Proof.
  intros H.
  specialize (H [ProgressTrackingDashboard.UpdateProgress "crisis-survivor"
                   (ProgressTrackingDashboard.Int 1);
                 ProgressTrackingDashboard.UpdateProgress "crisis-survivor"
                   (ProgressTrackingDashboard.Int 1)]
                "crisis-survivor").
  vm_compute in H. lia.
Qed.

(** C8 (amended). A badge whose count is at or above its target stays there
    through every sequence of updates that reach the target of the badge
    they address, activities of a non-negative amount and declined resets. *)
Theorem C8_earned_kept_by_non_lowering_operations
    (ops : list ProgressTrackingDashboard.operation) :
  forall (p : ProgressTrackingDashboard.page) (i : nat)
         (item : ProgressTrackingDashboard.progressItem),
    ProgressTrackingDashboard.progressData p !! i = Some item ->
    ProgressTrackingDashboard.isEarned item = true ->
    ProgressTrackingDashboard.allKeepEarned ops p = true ->
    exists item',
      ProgressTrackingDashboard.progressData (ProgressTrackingDashboard.run ops p) !! i
        = Some item' /\
      ProgressTrackingDashboard.isEarned item' = true.
Proof.
  induction ops as [| op rest IH]; intros p i item Hi Hearned Hall.
  - simpl. eauto.
  - simpl in Hall. apply andb_true_iff in Hall as [Hop Hrest].
    destruct (keepsEarned_step p op i item Hi Hearned Hop) as (item1 & Hi1 & Hearned1).
    simpl. eapply IH; eassumption.
Qed.

(** C8 as stated fails: earned is not terminal.  Once the crisis-survivor
    badge has reached its target, a confirmed reset brings its count back
    to 0, below the target. *)
Lemma C8_confirmed_reset_unearns :
  ~ (forall ops p i item,
       ProgressTrackingDashboard.progressData p !! i = Some item ->
       ProgressTrackingDashboard.isEarned item = true ->
       exists item',
         ProgressTrackingDashboard.progressData (ProgressTrackingDashboard.run ops p) !! i
           = Some item' /\
         ProgressTrackingDashboard.isEarned item' = true).
Proof.
  intros H.
  pose (earned := ProgressTrackingDashboard.run
                    [ProgressTrackingDashboard.UpdateProgress "crisis-survivor"
                       (ProgressTrackingDashboard.Int 1)]
                    ProgressTrackingDashboard.mockPage).
  destruct (H [ProgressTrackingDashboard.ResetProgress 0 true] earned 1%nat
              (ProgressTrackingDashboard.setCurrent (ProgressTrackingDashboard.Int 1)
                 ProgressTrackingDashboard.crisisSurvivor)
              eq_refl eq_refl) as (item' & Hi & Hearned).
  vm_compute in Hi. injection Hi as <-. vm_compute in Hearned. discriminate Hearned.
Qed.

(** A confirmed reset brings every count to 0. *)
Lemma resetProgress_zeroes now p i item :
  ProgressTrackingDashboard.progressData p !! i = Some item ->
  exists item',
    ProgressTrackingDashboard.progressData
      (ProgressTrackingDashboard.resetProgress now true p) !! i = Some item' /\
    ProgressTrackingDashboard.current item' = ProgressTrackingDashboard.Int 0 /\
    ProgressTrackingDashboard.target item' = ProgressTrackingDashboard.target item.
Proof.
  intros Hi. exists (ProgressTrackingDashboard.resetItem item). simpl.
  rewrite list_lookup_fmap, Hi. repeat split.
Qed.

(** A manual update to a value below the target lowers an earned badge as
    well. *)
Lemma manual_update_unearns :
  ProgressTrackingDashboard.earnedAt "crisis-survivor"
    (ProgressTrackingDashboard.run
       [ProgressTrackingDashboard.UpdateProgress "crisis-survivor"
          (ProgressTrackingDashboard.Int 1)]
       ProgressTrackingDashboard.mockPage) = true /\
  ProgressTrackingDashboard.earnedAt "crisis-survivor"
    (ProgressTrackingDashboard.run
       [ProgressTrackingDashboard.UpdateProgress "crisis-survivor"
          (ProgressTrackingDashboard.Int 1);
        ProgressTrackingDashboard.UpdateProgressFromModal "crisis-survivor"
          (Some (ProgressTrackingDashboard.Int 0))]
       ProgressTrackingDashboard.mockPage) = false.
Proof. split; reflexivity. Qed.

(** ** Badge fractions *)

Lemma inject_Z_pos (t : Z) : 0 < t -> (0 < inject_Z t)%Q.
Proof. intros Ht. unfold Qlt. simpl. lia. Qed.

Lemma ratio_nonneg (c t : Z) : 0 < t -> 0 <= c -> (0 <= inject_Z c / inject_Z t)%Q.
Proof.
  intros Ht Hc. apply Qle_shift_div_l; [apply inject_Z_pos, Ht |].
  rewrite Qmult_0_l. unfold Qle. simpl. lia.
Qed.

Lemma ratio_le_1 (c t : Z) : 0 < t -> c <= t -> (inject_Z c / inject_Z t <= 1)%Q.
Proof.
  intros Ht Hc. apply Qle_shift_div_r; [apply inject_Z_pos, Ht |].
  rewrite Qmult_1_l. rewrite <- Zle_Qle. exact Hc.
Qed.

Lemma ratio_ge_1 (c t : Z) : 0 < t -> t <= c -> (1 <= inject_Z c / inject_Z t)%Q.
Proof.
  intros Ht Hc. apply Qle_shift_div_l; [apply inject_Z_pos, Ht |].
  rewrite Qmult_1_l. rewrite <- Zle_Qle. exact Hc.
Qed.

Lemma ratio_neg (c t : Z) : 0 < t -> c < 0 -> (inject_Z c / inject_Z t < 0)%Q.
Proof.
  intros Ht Hc. apply Qlt_shift_div_r; [apply inject_Z_pos, Ht |].
  rewrite Qmult_0_l. unfold Qlt. simpl. lia.
Qed.

Section ManualUpdates.
Import ProgressTrackingDashboard.

(** What a manual update stores: the number typed when it is not above the
    target, and [NaN] for a field that holds no number. *)
Lemma updateProgressFromModal_stores wanted input p i item :
  findItem wanted (progressData p) = Some (i, item) ->
  progressData (updateProgressFromModal wanted (Some input) p) !! i
  = Some (setCurrent (minTarget input (target item)) item).
Proof.
  intros Hfind. unfold updateProgressFromModal.
  rewrite updateProgress_data, Hfind.
  apply list_lookup_insert_eq. eapply findItem_lt, Hfind.
Qed.

End ManualUpdates.

(** C3. The percentage a badge shows is clamped from above only, and a
    manual update stores what [parseInt] returns, clamped from above only.
    For a badge with a positive target, a negative number typed into the
    progress field is stored as it is and shown as a negative percentage, and
    a blank field stores [NaN], which is shown as [NaN]: in both cases the
    fraction is outside the range from 0 to 1.  The rounding of doubles is
    asked to keep results at or below [- tiny] there, for a positive [tiny]
    of at most one over the target. *)
Theorem C3_manual_update_leaves_the_range
    (nearest : Q -> Q) (tiny : Q) (wanted : string) (p : ProgressTrackingDashboard.page)
    (i : nat) (item : ProgressTrackingDashboard.progressItem) :
  (0 < tiny)%Q ->
  ProgressTrackingDashboard.keepsBelow nearest tiny ->
  ProgressTrackingDashboard.findItem wanted (ProgressTrackingDashboard.progressData p)
    = Some (i, item) ->
  0 < ProgressTrackingDashboard.target item ->
  (tiny * inject_Z (ProgressTrackingDashboard.target item) <= 1)%Q ->
  (forall n : Z, n < 0 ->
     exists (item' : ProgressTrackingDashboard.progressItem) (q : Q),
       ProgressTrackingDashboard.progressData
         (ProgressTrackingDashboard.updateProgressFromModal wanted
            (Some (ProgressTrackingDashboard.Int n)) p) !! i = Some item' /\
       ProgressTrackingDashboard.current item' = ProgressTrackingDashboard.Int n /\
       ProgressTrackingDashboard.target item' = ProgressTrackingDashboard.target item /\
       ProgressTrackingDashboard.progressPercentage nearest item'
         = ProgressTrackingDashboard.Finite q /\
       (q < 0)%Q) /\
  (exists item' : ProgressTrackingDashboard.progressItem,
     ProgressTrackingDashboard.progressData
       (ProgressTrackingDashboard.updateProgressFromModal wanted
          (Some ProgressTrackingDashboard.NotANumber) p) !! i = Some item' /\
     ProgressTrackingDashboard.current item' = ProgressTrackingDashboard.NotANumber /\
     ProgressTrackingDashboard.target item' = ProgressTrackingDashboard.target item /\
     ProgressTrackingDashboard.progressPercentage nearest item'
       = ProgressTrackingDashboard.NaN).
Proof.
  intros Htiny Hbelow Hfind Ht Hsmall. split.
  - intros n Hn.
    exists (ProgressTrackingDashboard.setCurrent (ProgressTrackingDashboard.Int n) item).
    eexists.
    split.
    { rewrite (updateProgressFromModal_stores _ _ _ _ _ Hfind). simpl.
      replace (Z.min n (ProgressTrackingDashboard.target item)) with n by lia.
      reflexivity. }
    split; [reflexivity |]. split; [reflexivity |].
    unfold ProgressTrackingDashboard.progressPercentage. simpl.
    replace (ProgressTrackingDashboard.target item =? 0) with false
      by (symmetry; apply Z.eqb_neq; lia).
    split; [reflexivity |].
    eapply Qle_lt_trans; [apply Q.le_min_l |].
    apply Qle_lt_trans with (- tiny)%Q; [| lra].
    apply Hbelow.
    assert (Hratio : (nearest (inject_Z n / inject_Z (ProgressTrackingDashboard.target item))
                      <= - tiny)%Q).
    { apply Hbelow.
      apply Qle_shift_div_r; [apply inject_Z_pos, Ht |].
      assert (Hn1 : (inject_Z n <= inject_Z (-1))%Q) by (rewrite <- Zle_Qle; lia).
      change (inject_Z (-1)) with (- 1)%Q in Hn1.
      lra. }
    lra.
  - eexists. split; [apply (updateProgressFromModal_stores _ _ _ _ _ Hfind) |].
    repeat split.
Qed.

(** In exact arithmetic, -5 typed for the challenge-crusher badge of the mock
    page (target 5) shows as -100 per cent. *)
Lemma minus_five_shows_minus_hundred :
  exists q : Q,
    ProgressTrackingDashboard.progressPercentage (fun x => x)
      (ProgressTrackingDashboard.setCurrent (ProgressTrackingDashboard.Int (-5))
         ProgressTrackingDashboard.challengeCrusher)
    = ProgressTrackingDashboard.Finite q /\
    (q == -100)%Q.
Proof. eexists. split; [reflexivity |]. vm_compute. reflexivity. Qed.

(** ** Loading from storage *)

(** The guarded loaders never throw. *)
Lemma loadList_returns {A : Type} (parse : Storage.JsonParse (list A)) key store :
  returns (Storage.loadList (A := A) key store).
Proof.
  unfold Storage.loadList, returns.
  destruct (Storage.getItem key store) as [saved |]; [| eexists; reflexivity].
  destruct (Storage.truthy (Some saved)); [| eexists; reflexivity].
  destruct (Storage.JSON_parse saved); eexists; reflexivity.
Qed.

Lemma loadList_parse_failure {A : Type} (parse : Storage.JsonParse (list A)) key store s e :
  Storage.getItem key store = Some s ->
  parse s = Throw e ->
  Storage.loadList (A := A) key store = Return [].
Proof.
  intros Hs He. unfold Storage.loadList. rewrite Hs.
  destruct (Storage.truthy (Some s)); simpl; [| reflexivity].
  unfold Storage.JSON_parse. rewrite He. reflexivity.
Qed.

Lemma orElse_nonempty s fallback :
  s <> EmptyString -> Storage.orElse (Some s) fallback = s.
Proof. destruct s; [congruence | reflexivity]. Qed.

(** C4. A stored text that [JSON.parse] rejects is read as the empty list by
    the guarded loaders ([loadEntries] here), but the two unguarded readers
    let the exception out: the [ResourcesManager] constructor and
    [RewardPreview.loadUserProgress] complete with the parser's error. *)
Theorem C4_unguarded_readers_propagate_parse_errors
    (parseJournal : Storage.JsonParse (list JournalSystem.journalEntry))
    (parseFavorites : Storage.JsonParse (list string))
    (parseViews : Storage.JsonParse (list ResourcesManager.view))
    (parseEntries : Storage.JsonParse (list RewardPreview.datedEntry))
    (parseProgress : Storage.JsonParse RewardPreview.exerciseProgress)
    (dateStringLeb : Z -> Z -> bool)
    (store : gmap string string) (s : string) (e : jsError) :
  s <> EmptyString ->
  parseJournal s = Throw e ->
  parseFavorites s = Throw e ->
  parseEntries s = Throw e ->
  Loaders.loadEntries (<["chillbuddy_journal_entries" := s]> store) = Return [] /\
  ResourcesManager.constructor (<["favoriteResources" := s]> store) = Throw e /\
  RewardPreview.loadUserProgress dateStringLeb (<["journalEntries" := s]> store) = Throw e.
Proof.
  intros Hs Hjournal Hfavorites Hentries. split; [| split].
  - unfold Loaders.loadEntries.
    apply (loadList_parse_failure parseJournal _ _ s e); [| exact Hjournal].
    unfold Storage.getItem. apply lookup_insert_eq.
  - unfold ResourcesManager.constructor, Storage.getItem.
    rewrite lookup_insert_eq, orElse_nonempty by exact Hs.
    unfold Storage.JSON_parse at 1. rewrite Hfavorites. reflexivity.
  - unfold RewardPreview.loadUserProgress, Storage.getItem.
    rewrite lookup_insert_eq, orElse_nonempty by exact Hs.
    unfold Storage.JSON_parse at 1. rewrite Hentries. reflexivity.
Qed.

(** ** Retention *)

(** C5 (amended). Logging a mood puts the new entry in front of the 29 newest
    entries of the old history, and completing an exercise puts the new
    completion in front of the 49 newest old ones: what is kept is unchanged
    and in order, only the oldest entries are dropped, and the stores hold at
    most 30 and 50 entries afterwards.  Saving a journal entry started with
    [startNewEntry] puts it in front of the old entries, all of which are
    kept as they were, with the word count [updateWordCount] last took of
    the text typed (0 if it never ran); the journal has no cap.  Saving an entry opened with
    [editEntry] overwrites the first stored entry with its id (the new text,
    mood and modification time, and the word count [editEntry] took of the
    old text) and leaves the others as they were, and a confirmed deletion
    removes the entries with the id it finds. *)
Theorem C5_prepend_and_cap :
  (forall now t m,
     MoodTracker.currentMood t = Some m ->
     let history := MoodTracker.moodHistory (snd (MoodTracker.logMood now t)) in
     history =
       {| MoodTracker.id := now; MoodTracker.timestamp := now; MoodTracker.entryMood := m;
          MoodTracker.factors := MoodTracker.selectedFactors t |}
       :: take 29 (MoodTracker.moodHistory t) /\
     (length history <= 30)%nat) /\
  (forall now s ex,
     ExercisesSystem.currentExercise s = Some ex ->
     let history := ExercisesSystem.exerciseHistory (ExercisesSystem.completeExercise now s) in
     history =
       {| ExercisesSystem.id := now; ExercisesSystem.doneExercise := ex;
          ExercisesSystem.category := ExercisesSystem.currentCategory s;
          ExercisesSystem.duration :=
            ExercisesSystem.totalDuration s - ExercisesSystem.timeRemaining s;
          ExercisesSystem.completedAt := now |}
       :: take 49 (ExercisesSystem.exerciseHistory s) /\
     (length history <= 50)%nat) /\
  (forall (isSpace : ascii -> bool) typed now started text selectedMood j,
     text <> EmptyString ->
     JournalSystem.entries
       (snd (JournalSystem.saveEntry now (Some text) selectedMood
               (JournalSystem.updateWordCount isSpace typed
                  (JournalSystem.startNewEntry started j)))) =
       {| JournalSystem.id := started; JournalSystem.date := started;
          JournalSystem.content := text; JournalSystem.mood := selectedMood;
          JournalSystem.prompt := None;
          JournalSystem.wordCount :=
            match typed with
            | Some value => Some (Z.of_nat (JournalSystem.countWords isSpace value))
            | None => Some 0
            end;
          JournalSystem.lastModified := Some now |}
       :: JournalSystem.entries j) /\
  (forall isSpace textarea wordCountEl now wanted text selectedMood j index old,
     wanted <> 0 ->
     text <> EmptyString ->
     JournalSystem.findEntry wanted (JournalSystem.entries j) = Some (index, old) ->
     JournalSystem.entries
       (snd (JournalSystem.saveEntry now (Some text) selectedMood
               (JournalSystem.editEntry isSpace textarea wordCountEl (Some wanted) j))) =
       <[index := {| JournalSystem.id := JournalSystem.id old;
                     JournalSystem.date := JournalSystem.date old;
                     JournalSystem.content := text; JournalSystem.mood := selectedMood;
                     JournalSystem.prompt := JournalSystem.prompt old;
                     JournalSystem.wordCount :=
                       if textarea && wordCountEl
                       then Some (Z.of_nat (JournalSystem.countWords isSpace
                                              (list_ascii_of_string
                                                 (JournalSystem.content old))))
                       else JournalSystem.wordCount old;
                     JournalSystem.lastModified := Some now |}]>
         (JournalSystem.entries j)) /\
  (forall wanted j found,
     wanted <> 0 ->
     JournalSystem.findEntry wanted (JournalSystem.entries j) = Some found ->
     JournalSystem.entries (JournalSystem.deleteEntry (Some wanted) true j) =
       filter (fun e => JournalSystem.id e <> wanted) (JournalSystem.entries j)).
Proof.
  split; [| split; [| split; [| split]]].
  - intros now t m Hm. cbv zeta. unfold MoodTracker.logMood. rewrite Hm. simpl.
    destruct (Nat.ltb_spec 30 (S (length (MoodTracker.moodHistory t)))) as [Hlong | Hshort];
      simpl.
    + split; [reflexivity |]. rewrite length_take. lia.
    + rewrite take_ge by lia. split; [reflexivity | lia].
  - intros now s ex Hex. cbv zeta. unfold ExercisesSystem.completeExercise. rewrite Hex. simpl.
    destruct (Nat.ltb_spec 50 (S (length (ExercisesSystem.exerciseHistory s))))
      as [Hlong | Hshort]; simpl.
    + split; [reflexivity |]. rewrite length_take. lia.
    + rewrite take_ge by lia. split; [reflexivity | lia].
  - intros isSpace typed now started text selectedMood j Htext.
    unfold JournalSystem.saveEntry, JournalSystem.updateWordCount,
      JournalSystem.startNewEntry.
    destruct text as [| a text]; [congruence |].
    destruct typed as [value |]; reflexivity.
  - intros isSpace textarea wordCountEl now wanted text selectedMood j index old
      Hwanted Htext Hfind.
    pose proof Hfind as Hid. unfold JournalSystem.findEntry in Hid.
    apply list_find_Some in Hid as (_ & Hid & _).
    unfold JournalSystem.editEntry, JournalSystem.resolveId.
    replace (wanted =? 0) with false by (symmetry; apply Z.eqb_neq; exact Hwanted).
    rewrite Hfind. unfold JournalSystem.saveEntry, JournalSystem.updateWordCount.
    destruct text as [| a text]; [congruence |].
    destruct textarea, wordCountEl;
      cbn [JournalSystem.currentEntry JournalSystem.isEditing JournalSystem.entries
           JournalSystem.id JournalSystem.hideEditor fst snd];
      rewrite Hid, Hfind; reflexivity.
  - intros wanted j found Hwanted Hfound.
    unfold JournalSystem.deleteEntry, JournalSystem.resolveId.
    replace (wanted =? 0) with false by (symmetry; apply Z.eqb_neq; exact Hwanted).
    rewrite Hfound. reflexivity.
Qed.

(** C5 as stated fails for the journal, whose entries are neither immutable
    nor append-only: saving an entry opened for editing replaces the stored
    entry, so the entry that was stored is no longer in the journal. *)
Lemma C5_journal_edit_replaces_entry :
  ~ (forall now text selectedMood j e,
       In e (JournalSystem.entries j) ->
       In e (JournalSystem.entries (snd (JournalSystem.saveEntry now text selectedMood j)))).
Proof.
  intros H.
  specialize (H (Sample.noon + 1000) (Some "revised") None Sample.journalEditing
                (Sample.pageAt Sample.noon 1) (or_introl eq_refl)).
  vm_compute in H. destruct H as [H | []]. discriminate H.
Qed.

(** Deleting removes a stored entry as well. *)
Lemma deleteEntry_removes :
  JournalSystem.entries (JournalSystem.deleteEntry (Some Sample.noon) true Sample.journalEditing)
  = [].
Proof. reflexivity. Qed.

(** ** The chat client *)

(** C6. [getChillBuddyResponse] makes one [fetch] call and always settles
    with a string.  For a response outside 200-299 whose body could be read
    the string depends on the status alone: the authentication message for
    401, the slow-down message for 429, the technical-difficulties message
    from 500 up, the apology otherwise.  When [fetch] rejects, or reading the
    body of such a response fails, it is the connection message. *)
Theorem C6_error_statuses_map_to_canned_messages (network : nat -> Chat.fetchResult) :
  snd (Chat.getChillBuddyResponse network) = 1%nat /\
  exists reply : string,
    fst (Chat.getChillBuddyResponse network) = Return reply /\
    match network 0%nat with
    | Chat.Rejected => reply = Chat.connectionMessage
    | Chat.Resolved r =>
        Chat.ok r = false ->
        match Chat.text r with
        | Throw _ => reply = Chat.connectionMessage
        | Return _ =>
            (Chat.status r = 401 -> reply = Chat.authenticationMessage) /\
            (Chat.status r = 429 -> reply = Chat.slowDownMessage) /\
            (500 <= Chat.status r -> reply = Chat.technicalDifficultiesMessage) /\
            (Chat.status r <> 401 -> Chat.status r <> 429 -> Chat.status r < 500 ->
             reply = Chat.apologyMessage)
        end
    end.
Proof.
  split; [reflexivity |].
  unfold Chat.getChillBuddyResponse. simpl.
  destruct (network 0%nat) as [| r]; simpl.
  - eexists. split; reflexivity.
  - destruct (Chat.ok r) eqn:Hok; simpl.
    + destruct (Chat.json r) as [[d |] | e]; simpl.
      * destruct (Chat.nonEmpty (Chat.message d)); [| destruct (Chat.crisis_detected d)];
          eexists; (split; [reflexivity | discriminate]).
      * eexists. split; [reflexivity | discriminate].
      * eexists. split; [reflexivity | discriminate].
    + destruct (Chat.text r) as [body | e]; simpl.
      * destruct (Z.eqb_spec (Chat.status r) 401) as [H401 | H401].
        { eexists. split; [reflexivity |]. intros _. repeat split; intros; try reflexivity; lia. }
        destruct (Z.eqb_spec (Chat.status r) 429) as [H429 | H429].
        { eexists. split; [reflexivity |]. intros _. repeat split; intros; try reflexivity; lia. }
        destruct (Z.leb_spec 500 (Chat.status r)) as [H500 | H500].
        { eexists. split; [reflexivity |]. intros _. repeat split; intros; try reflexivity; lia. }
        eexists. split; [reflexivity |]. intros _. repeat split; intros; try reflexivity; lia.
      * eexists. split; [reflexivity |]. intros _. reflexivity.
Qed.

(** * The theorems at sample inputs *)

(** Two runs a second apart on the sample world. *)
Lemma C9_aggregation_recomputation_witness :
  toDateString Sample.noon = toDateString (Sample.noon + 1000) /\
  let first :=
    Aggregator.aggregate (H := Sample.parseOnly "[]" [])
      (H0 := Sample.parseOnly "{}" {| RewardPreview.completed := None |})
      Z.leb Sample.noon Sample.quietWorld in
  let second :=
    Aggregator.aggregate (H := Sample.parseOnly "[]" [])
      (H0 := Sample.parseOnly "{}" {| RewardPreview.completed := None |})
      Z.leb (Sample.noon + 1000) (snd first) in
  fst second = fst first /\ snd second = Sample.quietWorld.
Proof.
  split; [reflexivity |].
  apply (C9_aggregation_recomputation Z.leb (Sample.parseOnly "[]" [])
           (Sample.parseOnly "{}" {| RewardPreview.completed := None |})
           Sample.noon (Sample.noon + 1000) Sample.quietWorld).
  reflexivity.
Defined.


(** The notifications of the sample session on the mock page. *)
Lemma C2_one_notification_per_earned_update_witness :
  ProgressTrackingDashboard.achievementNotifications ProgressTrackingDashboard.mockPage
    = Some [] /\
  length (ProgressTrackingDashboard.shownFor "crisis-survivor"
            (ProgressTrackingDashboard.run Sample.addingSession
               ProgressTrackingDashboard.mockPage)) =
  (length (ProgressTrackingDashboard.shownFor "crisis-survivor"
             ProgressTrackingDashboard.mockPage) +
   ProgressTrackingDashboard.earnedUpdates "crisis-survivor" Sample.addingSession
     ProgressTrackingDashboard.mockPage)%nat.
Proof.
  split; [reflexivity |].
  apply (C2_one_notification_per_earned_update Sample.addingSession "crisis-survivor"
           ProgressTrackingDashboard.mockPage []).
  reflexivity.
Defined.

(** The sample session keeps the earned crisis-survivor badge earned. *)
Lemma C8_earned_kept_by_non_lowering_operations_witness :
  ProgressTrackingDashboard.progressData Sample.earnedPage !! 1%nat
    = Some (ProgressTrackingDashboard.setCurrent (ProgressTrackingDashboard.Int 1)
              ProgressTrackingDashboard.crisisSurvivor) /\
  ProgressTrackingDashboard.isEarned
    (ProgressTrackingDashboard.setCurrent (ProgressTrackingDashboard.Int 1)
       ProgressTrackingDashboard.crisisSurvivor) = true /\
  ProgressTrackingDashboard.allKeepEarned Sample.addingSession Sample.earnedPage = true /\
  exists item',
    ProgressTrackingDashboard.progressData
      (ProgressTrackingDashboard.run Sample.addingSession Sample.earnedPage) !! 1%nat
      = Some item' /\
    ProgressTrackingDashboard.isEarned item' = true.
Proof.
  split; [reflexivity |]. split; [reflexivity |]. split; [reflexivity |].
  apply (C8_earned_kept_by_non_lowering_operations Sample.addingSession Sample.earnedPage 1%nat
           (ProgressTrackingDashboard.setCurrent (ProgressTrackingDashboard.Int 1)
              ProgressTrackingDashboard.crisisSurvivor));
    reflexivity.
Defined.

(** Typing -5 for the challenge-crusher badge of the mock page. *)
Lemma C3_manual_update_leaves_the_range_witness :
  (0 < 1 # 5)%Q /\
  ProgressTrackingDashboard.keepsBelow (fun x => x) (1 # 5) /\
  ProgressTrackingDashboard.findItem "challenge-crusher"
    (ProgressTrackingDashboard.progressData ProgressTrackingDashboard.mockPage)
    = Some (0%nat, ProgressTrackingDashboard.challengeCrusher) /\
  0 < ProgressTrackingDashboard.target ProgressTrackingDashboard.challengeCrusher /\
  ((1 # 5) * inject_Z (ProgressTrackingDashboard.target ProgressTrackingDashboard.challengeCrusher)
   <= 1)%Q /\
  exists (item' : ProgressTrackingDashboard.progressItem) (q : Q),
    ProgressTrackingDashboard.progressData
      (ProgressTrackingDashboard.updateProgressFromModal "challenge-crusher"
         (Some (ProgressTrackingDashboard.Int (-5)))
         ProgressTrackingDashboard.mockPage) !! 0%nat = Some item' /\
    ProgressTrackingDashboard.progressPercentage (fun x => x) item'
      = ProgressTrackingDashboard.Finite q /\
    (q < 0)%Q.
Proof.
  assert (Hid : ProgressTrackingDashboard.keepsBelow (fun x => x) (1 # 5))
    by (intros x Hx; exact Hx).
  assert (Hsmall : ((1 # 5) * inject_Z (ProgressTrackingDashboard.target
                                          ProgressTrackingDashboard.challengeCrusher)
                    <= 1)%Q) by discriminate.
  split; [reflexivity |]. split; [exact Hid |]. split; [reflexivity |].
  split; [reflexivity |]. split; [exact Hsmall |].
  destruct (proj1 (C3_manual_update_leaves_the_range (fun x => x) (1 # 5) "challenge-crusher"
                     ProgressTrackingDashboard.mockPage 0%nat
                     ProgressTrackingDashboard.challengeCrusher eq_refl Hid eq_refl eq_refl
                     Hsmall)
              (-5) ltac:(lia))
    as (item' & q & Hi & _ & _ & Hq & Hneg).
  exists item', q. split; [exact Hi |]. split; [exact Hq | exact Hneg].
Defined.

(** A store holding text that is not JSON. *)
Lemma C4_unguarded_readers_propagate_parse_errors_witness :
  Sample.malformed <> EmptyString /\
  Sample.parseOnly "[]" ([] : list JournalSystem.journalEntry) Sample.malformed
    = Throw SyntaxError /\
  Sample.parseOnly "[]" ([] : list string) Sample.malformed = Throw SyntaxError /\
  Sample.parseOnly "[]" ([] : list RewardPreview.datedEntry) Sample.malformed
    = Throw SyntaxError /\
  Loaders.loadEntries (H := Sample.parseOnly "[]" [])
    (<["chillbuddy_journal_entries" := Sample.malformed]> ∅) = Return [] /\
  ResourcesManager.constructor (H := Sample.parseOnly "[]" []) (H0 := Sample.parseOnly "[]" [])
    (<["favoriteResources" := Sample.malformed]> ∅) = Throw SyntaxError /\
  RewardPreview.loadUserProgress Z.leb (H := Sample.parseOnly "[]" [])
    (H0 := Sample.parseOnly "{}" {| RewardPreview.completed := None |})
    (<["journalEntries" := Sample.malformed]> ∅) = Throw SyntaxError.
Proof.
  split; [discriminate |]. split; [reflexivity |]. split; [reflexivity |].
  split; [reflexivity |].
  apply (C4_unguarded_readers_propagate_parse_errors
           (Sample.parseOnly "[]" []) (Sample.parseOnly "[]" []) (Sample.parseOnly "[]" [])
           (Sample.parseOnly "[]" [])
           (Sample.parseOnly "{}" {| RewardPreview.completed := None |})
           Z.leb ∅ Sample.malformed SyntaxError);
    [discriminate | reflexivity | reflexivity | reflexivity].
Defined.

(** One mood logged, one exercise completed, one journal entry saved. *)
Lemma C5_prepend_and_cap_witness :
  MoodTracker.currentMood Sample.trackerReady = Some Sample.calm /\
  (length (MoodTracker.moodHistory (snd (MoodTracker.logMood Sample.noon Sample.trackerReady)))
   <= 30)%nat /\
  ExercisesSystem.currentExercise Sample.sessionRunning = Some Sample.boxBreathing /\
  (length (ExercisesSystem.exerciseHistory
             (ExercisesSystem.completeExercise Sample.noon Sample.sessionRunning)) <= 50)%nat /\
  "a quiet day" <> EmptyString /\
  map JournalSystem.wordCount
    (JournalSystem.entries
       (snd (JournalSystem.saveEntry (Sample.noon + 1000) (Some "a quiet day") (Some 4)
               (JournalSystem.updateWordCount Sample.asciiSpace
                  (Some (list_ascii_of_string "a quiet day")) Sample.journalWriting))))
  = [Some 3; Some 2].
Proof.
  destruct C5_prepend_and_cap as (Hmood & Hexercise & Hjournal & _ & _).
  split; [reflexivity |].
  split; [exact (proj2 (Hmood Sample.noon Sample.trackerReady Sample.calm eq_refl)) |].
  split; [reflexivity |].
  split; [exact (proj2 (Hexercise Sample.noon Sample.sessionRunning Sample.boxBreathing eq_refl))
         |].
  split; [discriminate |].
  unfold Sample.journalWriting.
  rewrite (Hjournal Sample.asciiSpace (Some (list_ascii_of_string "a quiet day"))
             (Sample.noon + 1000) Sample.noon "a quiet day" (Some 4)
             {| JournalSystem.entries := [Sample.pageAt (Sample.noon - msPerDay) 2];
                JournalSystem.currentEntry := None; JournalSystem.isEditing := false |}
             ltac:(discriminate)).
  reflexivity.
Defined.

(** A 503 reply. *)
Lemma C6_error_statuses_map_to_canned_messages_witness :
  Chat.ok Sample.serverError = false /\
  500 <= Chat.status Sample.serverError /\
  fst (Chat.getChillBuddyResponse (fun _ => Chat.Resolved Sample.serverError))
    = Return Chat.technicalDifficultiesMessage.
Proof.
  split; [reflexivity |]. split; [discriminate |].
  destruct (C6_error_statuses_map_to_canned_messages (fun _ => Chat.Resolved Sample.serverError))
    as (_ & reply & Hreply & Hclass).
  rewrite Hreply. f_equal.
  exact (proj1 (proj2 (proj2 (Hclass eq_refl))) ltac:(discriminate)).
Defined.
(** * Further properties *)

(** ** The dashboard's handlers *)

Section DashboardHandlers.
Import ProgressTrackingDashboard.

Lemma withinTarget_minTarget n item :
  withinTarget (setCurrent (minTarget (Int n) (target item)) item).
Proof. unfold withinTarget. simpl. lia. Qed.

Lemma withinTargets_updateProgress wanted n p :
  withinTargets p -> withinTargets (updateProgress wanted (Int n) p).
Proof.
  unfold withinTargets. intros H. rewrite updateProgress_data.
  destruct (findItem wanted (progressData p)) as [[i item] |] eqn:Hfind; [| exact H].
  apply findItem_Some in Hfind as (Hi & _ & _).
  apply Forall_insert; [exact H |].
  pose proof (Forall_lookup_1 _ _ _ _ H Hi) as [Ht _].
  split; [exact Ht | apply withinTarget_minTarget].
Qed.

Lemma withinTargets_simulateActivity today wanted activityType amount p :
  withinTargets p -> withinTargets (simulateActivity today wanted activityType amount p).
Proof.
  unfold withinTargets. intros H. rewrite simulateActivity_data.
  destruct (findItem wanted (progressData p)) as [[i item] |] eqn:Hfind; [| exact H].
  apply findItem_Some in Hfind as (Hi & _ & _).
  apply Forall_insert; [exact H |].
  pose proof (Forall_lookup_1 _ _ _ _ H Hi) as [Ht Hc].
  unfold withinTarget in *. split; [exact Ht |].
  cbn [current target setCurrent setRecentActivity].
  destruct (current item) as [c |]; [simpl; lia | contradiction].
Qed.

Lemma withinTargets_step p op :
  carriesNumber op = true -> withinTargets p -> withinTargets (step p op).
Proof.
  intros Hop H.
  destruct op as [w [n |] | w [[n |] |] | today w ty amount | now [|]]; simpl;
    try discriminate Hop;
    auto using withinTargets_updateProgress, withinTargets_simulateActivity.
  unfold withinTargets in *. simpl. apply Forall_fmap.
  eapply Forall_impl; [exact H |]. intros item [Ht _].
  unfold withinTarget. simpl. split; [exact Ht | lia].
Qed.

Lemma withinTargets_run ops : forall p,
  forallb carriesNumber ops = true -> withinTargets p -> withinTargets (run ops p).
Proof.
  induction ops as [| op rest IH]; intros p Hops H; [exact H |].
  simpl in Hops. apply andb_true_iff in Hops as [Hop Hrest].
  simpl. apply IH; [exact Hrest |]. apply withinTargets_step; assumption.
Qed.

End DashboardHandlers.

(** X1. On a page whose targets are not negative and whose counts are within
    their targets, every session of updates and manual updates that carry a
    number, of activities and of resets leaves every count a number within
    its target.  A manual update from a blank field does not: it stores [NaN]
    for the badge it addresses. *)
Theorem X1_counts_stay_within_targets
    (ops : list ProgressTrackingDashboard.operation) (p : ProgressTrackingDashboard.page) :
  ProgressTrackingDashboard.withinTargets p ->
  (forallb ProgressTrackingDashboard.carriesNumber ops = true ->
   ProgressTrackingDashboard.withinTargets (ProgressTrackingDashboard.run ops p)) /\
  (forall wanted i item,
     ProgressTrackingDashboard.findItem wanted (ProgressTrackingDashboard.progressData p)
       = Some (i, item) ->
     ~ ProgressTrackingDashboard.withinTargets
         (ProgressTrackingDashboard.updateProgressFromModal wanted
            (Some ProgressTrackingDashboard.NotANumber) p)).
Proof.
  intros H. split.
  - intros Hops. apply withinTargets_run; assumption.
  - intros wanted i item Hfind Hin.
    pose proof (updateProgressFromModal_stores wanted ProgressTrackingDashboard.NotANumber
                  p i item Hfind) as Hstored.
    unfold ProgressTrackingDashboard.withinTargets in Hin.
    pose proof (Forall_lookup_1 _ _ _ _ Hin Hstored) as [_ Hc].
    exact Hc.
Qed.

Lemma mockPage_withinTargets :
  ProgressTrackingDashboard.withinTargets ProgressTrackingDashboard.mockPage.
Proof.
  unfold ProgressTrackingDashboard.withinTargets, ProgressTrackingDashboard.withinTarget.
  simpl. repeat constructor; simpl; lia.
Qed.

(** The sample session on the mock page. *)
Lemma X1_counts_stay_within_targets_witness :
  ProgressTrackingDashboard.withinTargets ProgressTrackingDashboard.mockPage /\
  forallb ProgressTrackingDashboard.carriesNumber Sample.addingSession = true /\
  ProgressTrackingDashboard.withinTargets
    (ProgressTrackingDashboard.run Sample.addingSession ProgressTrackingDashboard.mockPage).
Proof.
  split; [exact mockPage_withinTargets |]. split; [reflexivity |].
  apply (proj1 (X1_counts_stay_within_targets Sample.addingSession
                  ProgressTrackingDashboard.mockPage mockPage_withinTargets)).
  reflexivity.
Defined.

Section ActivityEffects.
Import ProgressTrackingDashboard.

(** What one activity of amount 0 or 1 does to the item at any position. *)
Lemma simulateActivity_small_step today wanted activityType amount p i item :
  withinTargets p -> 0 <= amount <= 1 ->
  progressData p !! i = Some item ->
  exists item' c c',
    progressData (simulateActivity today wanted activityType amount p) !! i = Some item' /\
    badgeId item' = badgeId item /\ target item' = target item /\
    current item = Int c /\ current item' = Int c' /\
    c <= c' <= c + amount /\
    (badgeId item <> wanted -> item' = item).
Proof.
  intros Hin Hamount Hi. rewrite simulateActivity_data.
  pose proof (Forall_lookup_1 _ _ _ _ Hin Hi) as [Ht Hc].
  unfold withinTarget in Hc.
  destruct (current item) as [c |] eqn:Hcurrent; [| contradiction].
  destruct (findItem wanted (progressData p)) as [[k x] |] eqn:Hfind.
  - apply findItem_Some in Hfind as (Hk & Hid & _).
    destruct (decide (k = i)) as [-> | Hne].
    + assert (x = item) as -> by congruence.
      eexists. exists c, (Z.min (c + amount) (target item)).
      split; [apply list_lookup_insert_eq; eapply lookup_lt_Some, Hi |].
      cbn [badgeId current target setCurrent setRecentActivity]. rewrite Hcurrent.
      repeat split; try lia. intros Hw. congruence.
    + rewrite list_lookup_insert_ne by exact Hne.
      exists item, c, c. repeat split; try assumption; lia.
  - exists item, c, c. repeat split; try assumption; lia.
Qed.

End ActivityEffects.

(** X2. A feature activity of a type outside the activity table changes
    nothing.  Any feature activity, on a page whose counts are within their
    targets, keeps every badge's id and target, never lowers a count, raises
    it by at most 1, and leaves untouched every badge other than
    monthly-milestone, challenge-crusher and resource-explorer. *)
Theorem X2_feature_activity_raises_one_badge_by_at_most_one
    (today activityType : string) (p : ProgressTrackingDashboard.page) :
  (ProgressTrackingDashboard.activityMap activityType = None ->
   ProgressTrackingDashboard.handleFeatureActivity today activityType p = p) /\
  (ProgressTrackingDashboard.withinTargets p ->
   forall i item,
     ProgressTrackingDashboard.progressData p !! i = Some item ->
     exists item' c c',
       ProgressTrackingDashboard.progressData
         (ProgressTrackingDashboard.handleFeatureActivity today activityType p) !! i
         = Some item' /\
       ProgressTrackingDashboard.badgeId item' = ProgressTrackingDashboard.badgeId item /\
       ProgressTrackingDashboard.target item' = ProgressTrackingDashboard.target item /\
       ProgressTrackingDashboard.current item = ProgressTrackingDashboard.Int c /\
       ProgressTrackingDashboard.current item' = ProgressTrackingDashboard.Int c' /\
       c <= c' <= c + 1 /\
       (ProgressTrackingDashboard.badgeId item <> "monthly-milestone" ->
        ProgressTrackingDashboard.badgeId item <> "challenge-crusher" ->
        ProgressTrackingDashboard.badgeId item <> "resource-explorer" ->
        item' = item)).
Proof.
  split.
  - intros Hnone. unfold ProgressTrackingDashboard.handleFeatureActivity.
    rewrite Hnone. reflexivity.
  - intros Hin i item Hi. unfold ProgressTrackingDashboard.handleFeatureActivity.
    destruct (ProgressTrackingDashboard.activityMap activityType) as [[wanted amount] |] eqn:Hmap.
    + assert (Hcases : amount = 1 /\
                (wanted = "monthly-milestone" \/ wanted = "challenge-crusher"
                 \/ wanted = "resource-explorer")).
      { unfold ProgressTrackingDashboard.activityMap in Hmap.
        repeat (destruct (decide _) in Hmap; [injection Hmap as <- <-; auto |]).
        discriminate Hmap. }
      destruct Hcases as [-> Hwanted].
      destruct (simulateActivity_small_step today wanted activityType 1 p i item Hin
                  ltac:(lia) Hi) as (item' & c & c' & Hi' & Hid & Ht & Hc & Hc' & Hrise & Hframe).
      exists item', c, c'. repeat split; try assumption; try lia.
      intros H1 H2 H3. apply Hframe. intros Heq.
      destruct Hwanted as [Hw | [Hw | Hw]]; congruence.
    + pose proof (Forall_lookup_1 _ _ _ _ Hin Hi) as [_ Hc].
      unfold ProgressTrackingDashboard.withinTarget in Hc.
      destruct (ProgressTrackingDashboard.current item) as [c |] eqn:Hcurrent;
        [| contradiction].
      exists item, c, c. repeat split; try assumption; lia.
Qed.

(** A completed exercise on the mock page. *)
Lemma X2_feature_activity_raises_one_badge_by_at_most_one_witness :
  ProgressTrackingDashboard.withinTargets ProgressTrackingDashboard.mockPage /\
  exists item' c',
    ProgressTrackingDashboard.progressData
      (ProgressTrackingDashboard.handleFeatureActivity "2024-01-16" "exercise-completed"
         ProgressTrackingDashboard.mockPage) !! 0%nat = Some item' /\
    ProgressTrackingDashboard.current item' = ProgressTrackingDashboard.Int c' /\
    c' <= 3.
Proof.
  split; [exact mockPage_withinTargets |].
  destruct (proj2 (X2_feature_activity_raises_one_badge_by_at_most_one
                     "2024-01-16" "exercise-completed" ProgressTrackingDashboard.mockPage)
              mockPage_withinTargets 0%nat ProgressTrackingDashboard.challengeCrusher eq_refl)
    as (item' & c & c' & Hi & _ & _ & Hc & Hc' & Hrise & _).
  exists item', c'. split; [exact Hi |]. split; [exact Hc' |].
  simpl in Hc. injection Hc as <-. lia.
Defined.

Section Navigation.
Import ProgressTrackingDashboard.

Lemma handleNavigation_cases today hash p :
  match visitedBadge hash with
  | Some b => exists activityType,
      handleNavigation today hash p = simulateActivity today b activityType 0 p
  | None => handleNavigation today hash p = p
  end.
Proof.
  unfold handleNavigation, visitedBadge.
  repeat (destruct (decide _); [eexists; reflexivity |]). reflexivity.
Qed.

End Navigation.

(** X3. Visiting a page of the application never changes a count that is
    within its target, but when the badge that page reports to is already
    earned and the notification system is installed, the visit shows one more
    "badge earned" notification for it. *)
Theorem X3_navigation_keeps_counts_and_notifies_again
    (today hash : string) (p : ProgressTrackingDashboard.page) :
  (ProgressTrackingDashboard.withinTargets p ->
   forall i item,
     ProgressTrackingDashboard.progressData p !! i = Some item ->
     exists item',
       ProgressTrackingDashboard.progressData
         (ProgressTrackingDashboard.handleNavigation today hash p) !! i = Some item' /\
       ProgressTrackingDashboard.current item' = ProgressTrackingDashboard.current item /\
       ProgressTrackingDashboard.target item' = ProgressTrackingDashboard.target item /\
       ProgressTrackingDashboard.badgeId item' = ProgressTrackingDashboard.badgeId item) /\
  (forall b shown,
     ProgressTrackingDashboard.visitedBadge hash = Some b ->
     ProgressTrackingDashboard.achievementNotifications p = Some shown ->
     ProgressTrackingDashboard.earnedAt b p = true ->
     length (ProgressTrackingDashboard.shownFor b
               (ProgressTrackingDashboard.handleNavigation today hash p)) =
     S (length (ProgressTrackingDashboard.shownFor b p))).
Proof.
  pose proof (handleNavigation_cases today hash p) as Hcases.
  split.
  - intros Hin i item Hi.
    destruct (ProgressTrackingDashboard.visitedBadge hash) as [b |].
    + destruct Hcases as [ty ->].
      destruct (simulateActivity_small_step today b ty 0 p i item Hin ltac:(lia) Hi)
        as (item' & c & c' & Hi' & Hid & Ht & Hc & Hc' & Hsame & _).
      exists item'. repeat split; try assumption.
      rewrite Hc, Hc'. f_equal. lia.
    + rewrite Hcases. exists item. repeat split. exact Hi.
  - intros b shown Hb Hshown Hearned. rewrite Hb in Hcases. destruct Hcases as [ty ->].
    pose proof (shownFor_step b p
                  (ProgressTrackingDashboard.SimulateActivity today b ty 0) shown Hshown) as H.
    simpl in H. rewrite H.
    rewrite bool_decide_true by reflexivity.
    rewrite earnedAt_simulateActivity.
    unfold ProgressTrackingDashboard.earnedAt in Hearned.
    destruct (ProgressTrackingDashboard.findItem b (ProgressTrackingDashboard.progressData p))
      as [[k x] |]; [| discriminate Hearned].
    unfold ProgressTrackingDashboard.isEarned in Hearned.
    destruct (ProgressTrackingDashboard.current x) as [c |]; [| discriminate Hearned].
    simpl in Hearned. apply Z.leb_le in Hearned. simpl.
    replace (ProgressTrackingDashboard.target x <=?
             Z.min (c + 0) (ProgressTrackingDashboard.target x))
      with true by (symmetry; apply Z.leb_le; lia).
    simpl. lia.
Qed.

(** Visiting the journal page of the loaded mock page. *)
Lemma X3_navigation_keeps_counts_and_notifies_again_witness :
  ProgressTrackingDashboard.withinTargets ProgressTrackingDashboard.loadedMockPage /\
  exists item',
    ProgressTrackingDashboard.progressData
      (ProgressTrackingDashboard.handleNavigation "2024-01-16" "journal"
         ProgressTrackingDashboard.loadedMockPage) !! 2%nat = Some item' /\
    ProgressTrackingDashboard.current item' = ProgressTrackingDashboard.Int 22.
Proof.
  assert (Hin : ProgressTrackingDashboard.withinTargets ProgressTrackingDashboard.loadedMockPage).
  { unfold ProgressTrackingDashboard.withinTargets, ProgressTrackingDashboard.withinTarget.
    simpl. repeat constructor; simpl; lia. }
  split; [exact Hin |].
  destruct (proj1 (X3_navigation_keeps_counts_and_notifies_again "2024-01-16" "journal"
                     ProgressTrackingDashboard.loadedMockPage)
              Hin 2%nat ProgressTrackingDashboard.monthlyMilestone eq_refl)
    as (item' & Hi & Hc & _).
  exists item'. split; [exact Hi | exact Hc].
Defined.

Section RecentActivity.
Import ProgressTrackingDashboard.

Lemma bumpActivity_dates today activityType amount l :
  map activityDate (bumpActivity today activityType amount l) =
  if decide (today ∈ map activityDate l) then map activityDate l
  else today :: map activityDate l.
Proof.
  unfold bumpActivity.
  destruct (list_find (fun a => activityDate a = today) l) as [[k a] |] eqn:Hfind.
  - apply list_find_Some in Hfind as (Hk & Ha & _).
    rewrite decide_True.
    + change (@map activity string) with (@fmap list _ activity string).
      rewrite list_fmap_insert. simpl. apply list_insert_id.
      rewrite list_lookup_fmap, Hk. reflexivity.
    + apply list_elem_of_fmap. exists a. split; [congruence |].
      eapply list_elem_of_lookup_2, Hk.
  - apply list_find_None in Hfind. rewrite decide_False; [reflexivity |].
    intros Hin. apply list_elem_of_fmap in Hin as (a & Ha & Hin).
    rewrite Forall_forall in Hfind. apply (Hfind a Hin). congruence.
Qed.

End RecentActivity.

(** X4. After an activity is recorded on a badge, that badge's recent
    activity holds at most 7 entries, and if it held at most one entry per
    date before, it still does; when the day had no entry yet, the new entry
    comes first and carries the amount. *)
Theorem X4_recent_activity_capped_one_entry_per_date
    (today wanted activityType : string) (amount : Z)
    (p : ProgressTrackingDashboard.page) (i : nat)
    (item : ProgressTrackingDashboard.progressItem) :
  ProgressTrackingDashboard.findItem wanted (ProgressTrackingDashboard.progressData p)
    = Some (i, item) ->
  exists item',
    ProgressTrackingDashboard.progressData
      (ProgressTrackingDashboard.simulateActivity today wanted activityType amount p) !! i
      = Some item' /\
    (length (ProgressTrackingDashboard.activityDates item') <= 7)%nat /\
    (NoDup (ProgressTrackingDashboard.activityDates item) ->
     NoDup (ProgressTrackingDashboard.activityDates item')) /\
    (today ∉ ProgressTrackingDashboard.activityDates item ->
     exists rest,
       ProgressTrackingDashboard.recentActivity item' =
       Some ({| ProgressTrackingDashboard.activityDate := today;
                ProgressTrackingDashboard.count := amount;
                ProgressTrackingDashboard.activityType := activityType |} :: rest)).
Proof.
  intros Hfind. pose proof (findItem_lt _ _ _ _ Hfind) as Hlt.
  rewrite simulateActivity_data, Hfind.
  eexists. split; [apply list_lookup_insert_eq, Hlt |].
  unfold ProgressTrackingDashboard.activityDates. simpl.
  set (old := default [] (ProgressTrackingDashboard.recentActivity item)).
  split; [| split].
  - rewrite length_map, length_take. lia.
  - intros Hnodup.
    change (@map ProgressTrackingDashboard.activity string)
      with (@fmap list _ ProgressTrackingDashboard.activity string).
    rewrite fmap_take. eapply sublist_NoDup; [| apply sublist_take].
    change (@fmap list _ ProgressTrackingDashboard.activity string)
      with (@map ProgressTrackingDashboard.activity string).
    rewrite bumpActivity_dates. destruct (decide _) as [Hin | Hnotin]; [exact Hnodup |].
    apply NoDup_cons. split; assumption.
  - intros Hnotin. unfold ProgressTrackingDashboard.bumpActivity.
    destruct (list_find _ old) as [[k a] |] eqn:Hf.
    + exfalso. apply Hnotin. apply list_find_Some in Hf as (Hk & Ha & _).
      apply list_elem_of_fmap. exists a. split; [congruence |].
      eapply list_elem_of_lookup_2, Hk.
    + simpl. eexists. reflexivity.
Qed.

(** A check-in on the monthly-milestone badge of the loaded mock page. *)
Lemma X4_recent_activity_capped_one_entry_per_date_witness :
  ProgressTrackingDashboard.findItem "monthly-milestone"
    (ProgressTrackingDashboard.progressData ProgressTrackingDashboard.loadedMockPage)
    = Some (2%nat, ProgressTrackingDashboard.monthlyMilestone) /\
  exists item',
    ProgressTrackingDashboard.progressData
      (ProgressTrackingDashboard.simulateActivity "2024-01-16" "monthly-milestone" "checkin" 1
         ProgressTrackingDashboard.loadedMockPage) !! 2%nat = Some item' /\
    (length (ProgressTrackingDashboard.activityDates item') <= 7)%nat.
Proof.
  split; [reflexivity |].
  destruct (X4_recent_activity_capped_one_entry_per_date "2024-01-16" "monthly-milestone"
              "checkin" 1 ProgressTrackingDashboard.loadedMockPage 2%nat
              ProgressTrackingDashboard.monthlyMilestone eq_refl)
    as (item' & Hi & Hlen & _).
  exists item'. split; [exact Hi | exact Hlen].
Defined.

Section OverallStats.
Import ProgressTrackingDashboard.

Lemma Math_round_between (x : Q) (lo hi : Z) :
  (inject_Z lo <= x)%Q -> (x <= inject_Z hi)%Q ->
  lo <= JournalSystem.Math_round x <= hi.
Proof.
  intros Hlo Hhi. unfold JournalSystem.Math_round.
  pose proof (Qfloor_le (x + (1 # 2))) as Hfl.
  pose proof (Qlt_floor (x + (1 # 2))) as Hfu.
  rewrite inject_Z_plus in Hfu. change (inject_Z 1) with 1%Q in Hfu.
  split.
  - assert (H : (inject_Z lo < inject_Z (Qfloor (x + (1 # 2)) + 1))%Q)
      by (rewrite inject_Z_plus; change (inject_Z 1) with 1%Q; lra).
    rewrite <- Zlt_Qlt in H. lia.
  - assert (H : (inject_Z (Qfloor (x + (1 # 2))) < inject_Z (hi + 1))%Q)
      by (rewrite inject_Z_plus; change (inject_Z 1) with 1%Q; lra).
    rewrite <- Zlt_Qlt in H. lia.
Qed.

Lemma filter_length_mono {A : Type} (P R : A -> Prop)
    `{forall x, Decision (P x)} `{forall x, Decision (R x)} (l : list A) :
  Forall (fun x => P x -> R x) l ->
  (length (filter P l) <= length (filter R l))%nat.
Proof.
  induction 1 as [| x rest Hx Hrest IH]; [reflexivity |].
  rewrite !filter_cons.
  destruct (decide (P x)) as [HP | HP], (decide (R x)) as [HR | HR]; simpl; try lia.
  exfalso. auto.
Qed.

(** A hundred times a number of badges. *)
Lemma hundreds_succ (k : nat) :
  (inject_Z (100 * Z.of_nat (S k)) == inject_Z (100 * Z.of_nat k) + 100)%Q.
Proof.
  replace (100 * Z.of_nat (S k)) with (100 * Z.of_nat k + 100) by lia.
  rewrite inject_Z_plus. reflexivity.
Qed.

End OverallStats.

Section RoundedStats.
Import ProgressTrackingDashboard.

Variable nearest : Q -> Q.
Variable bound : Z.
Hypothesis nearest_order : keepsOrder nearest.
Hypothesis nearest_exact : exactUpTo nearest bound.
Hypothesis bound_hundred : 100 <= bound.

Lemma nearest_equal (x y : Q) : (x == y)%Q -> (nearest x == nearest y)%Q.
Proof.
  intros Hxy. apply Qle_antisym; apply nearest_order; lra.
Qed.

Lemma nearest_whole (z : Z) (x : Q) :
  0 <= z <= bound -> (x == inject_Z z)%Q -> (nearest x == inject_Z z)%Q.
Proof.
  intros Hz Hx. rewrite <- (nearest_exact z Hz). apply nearest_equal, Hx.
Qed.

Lemma nearest_at_least (z : Z) (x : Q) :
  0 <= z <= bound -> (inject_Z z <= x)%Q -> (inject_Z z <= nearest x)%Q.
Proof.
  intros Hz Hx. rewrite <- (nearest_exact z Hz). apply nearest_order, Hx.
Qed.

Lemma nearest_at_most (z : Z) (x : Q) :
  0 <= z <= bound -> (x <= inject_Z z)%Q -> (nearest x <= inject_Z z)%Q.
Proof.
  intros Hz Hx. rewrite <- (nearest_exact z Hz). apply nearest_order, Hx.
Qed.

(** The percentage before the clamp, for a ratio that is not negative and
    for one that has reached 1. *)
Lemma scaled_nonneg (r : Q) : (0 <= r)%Q -> (0 <= nearest (nearest r * 100))%Q.
Proof.
  intros Hr.
  pose proof (nearest_at_least 0 r ltac:(lia) Hr) as H0.
  change (inject_Z 0) with 0%Q in H0.
  apply (nearest_at_least 0); [lia |]. change (inject_Z 0) with 0%Q. lra.
Qed.

Lemma scaled_full (r : Q) : (1 <= r)%Q -> (100 <= nearest (nearest r * 100))%Q.
Proof.
  intros Hr.
  pose proof (nearest_at_least 1 r ltac:(lia) Hr) as H1.
  change (inject_Z 1) with 1%Q in H1.
  apply (nearest_at_least 100); [lia |]. change (inject_Z 100) with 100%Q. lra.
Qed.

Lemma progressPercentage_valid item :
  0 < target item -> fromZero item ->
  exists (c : Z) (q : Q),
    current item = Int c /\
    progressPercentage nearest item = Finite q /\ (0 <= q)%Q /\ (q <= 100)%Q /\
    (target item <= c -> (q == 100)%Q).
Proof.
  intros Ht Hc. unfold fromZero in Hc. unfold progressPercentage.
  destruct (current item) as [c |]; [| contradiction].
  replace (target item =? 0) with false by (symmetry; apply Z.eqb_neq; lia).
  exists c. eexists. split; [reflexivity |]. split; [reflexivity |]. split; [| split].
  - apply Q.min_glb; [| discriminate].
    apply scaled_nonneg, ratio_nonneg; assumption.
  - apply Q.le_min_r.
  - intros Hfull. apply Q.min_r. apply scaled_full, ratio_ge_1; assumption.
Qed.

Lemma totalProgress_valid l : forall (a : Q) (k : nat),
  100 * Z.of_nat (k + length l) <= bound ->
  (0 <= a)%Q -> (a <= inject_Z (100 * Z.of_nat k))%Q ->
  Forall (fun item => 0 < target item /\ fromZero item) l ->
  exists t : Q,
    fold_left (fun sum item => addNumber nearest sum (progressPercentage nearest item))
              l (Finite a) = Finite t /\
    (0 <= t)%Q /\ (t <= inject_Z (100 * Z.of_nat (k + length l)))%Q /\
    ((a == inject_Z (100 * Z.of_nat k))%Q ->
     Forall (fun item => isEarned item = true) l ->
     (t == inject_Z (100 * Z.of_nat (k + length l)))%Q).
Proof.
  induction l as [| item rest IH]; intros a k Hbound Ha0 Hak Hvalid.
  - exists a. simpl. rewrite Nat.add_0_r. split; [reflexivity |].
    split; [exact Ha0 |]. split; [exact Hak |]. intros Heq _. exact Heq.
  - apply Forall_cons_1 in Hvalid as [[Ht Hc] Hrest].
    destruct (progressPercentage_valid item Ht Hc) as (c & q & Hcur & Hq & Hq0 & Hq100 & Hfull).
    simpl fold_left. rewrite Hq. simpl addNumber.
    simpl length in Hbound |- *.
    replace (k + S (length rest))%nat with (S k + length rest)%nat in * by lia.
    pose proof (hundreds_succ k) as Hsucc.
    assert (Hk : 0 <= 100 * Z.of_nat (S k) <= bound) by lia.
    destruct (IH (nearest (a + q)) (S k) Hbound) as (t & Hfold & Ht0 & Ht100 & Hall).
    + apply (nearest_at_least 0); [lia |]. change (inject_Z 0) with 0%Q. lra.
    + apply nearest_at_most; [exact Hk |]. lra.
    + exact Hrest.
    + exists t. split; [exact Hfold |]. split; [exact Ht0 |]. split; [exact Ht100 |].
      intros Heq Hearned. apply Forall_cons_1 in Hearned as [He Hrest'].
      apply Hall; [| exact Hrest'].
      apply nearest_whole; [exact Hk |].
      unfold isEarned in He. rewrite Hcur in He. simpl in He. apply Z.leb_le in He.
      specialize (Hfull He). lra.
Qed.

Lemma isNearCompletion_active item :
  0 < target item -> isNearCompletion nearest item = true ->
  below (current item) (target item) = true.
Proof.
  intros Ht Hnear. unfold isNearCompletion in Hnear.
  destruct (current item) as [c |]; [| discriminate Hnear].
  replace (target item =? 0) with false in Hnear by (symmetry; apply Z.eqb_neq; lia).
  apply andb_true_iff in Hnear as [_ Hnot]. apply negb_true_iff in Hnot.
  simpl. apply Z.ltb_lt.
  destruct (Z.lt_ge_cases c (target item)) as [Hlt | Hge]; [exact Hlt |].
  exfalso.
  assert (Hle : Qle_bool 100 (nearest (nearest (inject_Z c / inject_Z (target item)) * 100))
                = true).
  { apply Qle_bool_iff. apply scaled_full, ratio_ge_1; [exact Ht | lia]. }
  congruence.
Qed.

End RoundedStats.

(** X5. Let the rounding of doubles keep the order and leave the whole
    numbers up to a hundred times the number of badges as they are (exact
    arithmetic does, and so do doubles for any page that fits in memory).
    On a page whose targets are positive and whose counts are numbers that
    are not negative, the overall completion shown is a whole number between
    0 and 100, it is 100 when every badge of a non-empty page has reached its
    target, and the badges counted as near completion are never more than
    those counted as active goals. *)
Theorem X5_overall_stats_bounds (nearest : Q -> Q) (p : ProgressTrackingDashboard.page) :
  ProgressTrackingDashboard.keepsOrder nearest ->
  ProgressTrackingDashboard.exactUpTo nearest
    (100 * Z.of_nat (length (ProgressTrackingDashboard.progressData p))) ->
  Forall (fun item => 0 < ProgressTrackingDashboard.target item /\
                      ProgressTrackingDashboard.fromZero item)
         (ProgressTrackingDashboard.progressData p) ->
  (exists r : Z,
     ProgressTrackingDashboard.calculateOverallCompletion nearest p
       = ProgressTrackingDashboard.Finite (inject_Z r) /\
     0 <= r <= 100 /\
     (ProgressTrackingDashboard.progressData p <> [] ->
      Forall (fun item => ProgressTrackingDashboard.isEarned item = true)
             (ProgressTrackingDashboard.progressData p) ->
      r = 100)) /\
  (ProgressTrackingDashboard.nearCompletion nearest p
   <= ProgressTrackingDashboard.activeGoals p)%nat /\
  (ProgressTrackingDashboard.activeGoals p
   <= length (ProgressTrackingDashboard.progressData p))%nat.
Proof.
  intros Horder Hexact Hvalid.
  destruct (ProgressTrackingDashboard.progressData p) as [| item rest] eqn:Hdata.
  { split; [| split].
    - exists 0. unfold ProgressTrackingDashboard.calculateOverallCompletion. rewrite Hdata.
      simpl. split; [reflexivity |]. split; [lia | congruence].
    - unfold ProgressTrackingDashboard.nearCompletion, ProgressTrackingDashboard.activeGoals.
      rewrite Hdata. simpl. lia.
    - unfold ProgressTrackingDashboard.activeGoals. rewrite Hdata. simpl. lia. }
  rewrite <- Hdata in *.
  set (n := length (ProgressTrackingDashboard.progressData p)) in *.
  assert (Hn : (1 <= n)%nat) by (unfold n; rewrite Hdata; simpl; lia).
  assert (Hhundred : 100 <= 100 * Z.of_nat n) by lia.
  split; [| split].
  - unfold ProgressTrackingDashboard.calculateOverallCompletion,
      ProgressTrackingDashboard.totalProgress.
    fold n. replace (n =? 0)%nat with false by (symmetry; apply Nat.eqb_neq; lia).
    destruct (totalProgress_valid nearest (100 * Z.of_nat n) Horder Hexact Hhundred
                (ProgressTrackingDashboard.progressData p) 0 0%nat)
      as (t & Ht & Hlo & Hhi & Hall).
    + fold n. simpl. lia.
    + lra.
    + change (inject_Z (100 * Z.of_nat 0)) with 0%Q. lra.
    + exact Hvalid.
    + rewrite Ht. fold n in Hhi, Hall. simpl Nat.add in Hhi, Hall.
      eexists. split; [reflexivity |].
      set (size := inject_Z (Z.of_nat n)) in *.
      assert (Hsize : (1 <= size)%Q).
      { unfold size. change 1%Q with (inject_Z 1). rewrite <- Zle_Qle. lia. }
      assert (Htotal : (inject_Z (100 * Z.of_nat n) == 100 * size)%Q)
        by (unfold size; rewrite inject_Z_mult; reflexivity).
      assert (Hmean0 : (0 <= t / size)%Q)
        by (apply Qle_shift_div_l; lra).
      assert (Hmean100 : (t / size <= 100)%Q)
        by (apply Qle_shift_div_r; lra).
      split.
      * apply Math_round_between.
        -- apply (nearest_at_least nearest (100 * Z.of_nat n) Horder Hexact 0); [lia |].
           exact Hmean0.
        -- apply (nearest_at_most nearest (100 * Z.of_nat n) Horder Hexact 100); [lia |].
           exact Hmean100.
      * intros _ Hearned.
        assert (Hfull : (t == inject_Z (100 * Z.of_nat n))%Q)
          by (apply Hall; [reflexivity | exact Hearned]).
        assert (Hmean : (t / size == inject_Z 100)%Q).
        { change (inject_Z 100) with 100%Q. rewrite Hfull, Htotal. field. lra. }
        pose proof (nearest_whole nearest (100 * Z.of_nat n) Horder Hexact 100 _
                      ltac:(lia) Hmean) as Hrounded.
        apply Z.le_antisymm.
        -- apply Math_round_between with (lo := 0); [change (inject_Z 0) with 0%Q; lra | lra].
        -- apply Math_round_between with (hi := 100); [lra | lra].
  - unfold ProgressTrackingDashboard.nearCompletion, ProgressTrackingDashboard.activeGoals.
    apply filter_length_mono.
    eapply Forall_impl; [exact Hvalid |]. intros x [Ht _] Hnear.
    apply (isNearCompletion_active nearest (100 * Z.of_nat n) Horder Hexact Hhundred);
      assumption.
  - apply length_filter.
Qed.

(** The loaded mock page in exact arithmetic: overall completion between 0
    and 100. *)
Lemma X5_overall_stats_bounds_witness :
  ProgressTrackingDashboard.keepsOrder (fun x => x) /\
  ProgressTrackingDashboard.exactUpTo (fun x => x)
    (100 * Z.of_nat (length (ProgressTrackingDashboard.progressData
                               ProgressTrackingDashboard.loadedMockPage))) /\
  Forall (fun item => 0 < ProgressTrackingDashboard.target item /\
                      ProgressTrackingDashboard.fromZero item)
         (ProgressTrackingDashboard.progressData ProgressTrackingDashboard.loadedMockPage) /\
  (ProgressTrackingDashboard.nearCompletion (fun x => x)
     ProgressTrackingDashboard.loadedMockPage
   <= ProgressTrackingDashboard.activeGoals ProgressTrackingDashboard.loadedMockPage)%nat.
Proof.
  assert (Horder : ProgressTrackingDashboard.keepsOrder (fun x => x))
    by (intros x y Hxy; exact Hxy).
  assert (Hexact : ProgressTrackingDashboard.exactUpTo (fun x => x)
            (100 * Z.of_nat (length (ProgressTrackingDashboard.progressData
                                       ProgressTrackingDashboard.loadedMockPage))))
    by (intros z Hz; reflexivity).
  assert (Hvalid :
    Forall (fun item => 0 < ProgressTrackingDashboard.target item /\
                        ProgressTrackingDashboard.fromZero item)
           (ProgressTrackingDashboard.progressData ProgressTrackingDashboard.loadedMockPage)).
  { unfold ProgressTrackingDashboard.fromZero. simpl. repeat constructor; simpl; lia. }
  split; [exact Horder |]. split; [exact Hexact |]. split; [exact Hvalid |].
  exact (proj1 (proj2 (X5_overall_stats_bounds (fun x => x)
                         ProgressTrackingDashboard.loadedMockPage Horder Hexact Hvalid))).
Defined.

Section Reset.
Import ProgressTrackingDashboard.

Lemma resetItem_idem item : resetItem (resetItem item) = resetItem item.
Proof.
  unfold resetItem. simpl. f_equal.
  rewrite map_map. reflexivity.
Qed.

Lemma findItem_reset wanted l i item' :
  findItem wanted (map resetItem l) = Some (i, item') ->
  exists item, l !! i = Some item /\ item' = resetItem item.
Proof.
  intros H. apply findItem_Some in H as (Hi & _ & _).
  change (map resetItem l) with (resetItem <$> l) in Hi.
  apply list_lookup_fmap_Some in Hi as (item & ? & ?). eauto.
Qed.

End Reset.

(** X6. A reset the user declines changes nothing.  A confirmed reset keeps
    the badges, their order, ids and targets and the notifications already
    shown, leaves no badge with a positive target earned, and doing it again
    at the same instant changes nothing more. *)
Theorem X6_reset_unearns_everything_once (now : Z) (p : ProgressTrackingDashboard.page) :
  ProgressTrackingDashboard.resetProgress now false p = p /\
  ProgressTrackingDashboard.resetProgress now true
    (ProgressTrackingDashboard.resetProgress now true p)
    = ProgressTrackingDashboard.resetProgress now true p /\
  ProgressTrackingDashboard.achievementNotifications
    (ProgressTrackingDashboard.resetProgress now true p)
    = ProgressTrackingDashboard.achievementNotifications p /\
  map (fun item => (ProgressTrackingDashboard.badgeId item, ProgressTrackingDashboard.target item))
      (ProgressTrackingDashboard.progressData (ProgressTrackingDashboard.resetProgress now true p))
    = map (fun item => (ProgressTrackingDashboard.badgeId item,
                        ProgressTrackingDashboard.target item))
          (ProgressTrackingDashboard.progressData p) /\
  (Forall (fun item => 0 < ProgressTrackingDashboard.target item)
          (ProgressTrackingDashboard.progressData p) ->
   forall b,
     ProgressTrackingDashboard.earnedAt b (ProgressTrackingDashboard.resetProgress now true p)
     = false).
Proof.
  split; [reflexivity |]. split; [| split; [reflexivity |]; split].
  - unfold ProgressTrackingDashboard.resetProgress. simpl. f_equal.
    rewrite map_map. apply map_ext. intros item. apply resetItem_idem.
  - simpl. rewrite map_map. reflexivity.
  - intros Hpos b. unfold ProgressTrackingDashboard.earnedAt. simpl.
    destruct (ProgressTrackingDashboard.findItem b _) as [[i item'] |] eqn:Hfind; [| reflexivity].
    apply findItem_reset in Hfind as (item & Hi & ->).
    pose proof (Forall_lookup_1 _ _ _ _ Hpos Hi) as Ht.
    unfold ProgressTrackingDashboard.isEarned. simpl. apply Z.leb_gt. exact Ht.
Qed.

(** Resetting the loaded mock page. *)
Lemma X6_reset_unearns_everything_once_witness :
  Forall (fun item => 0 < ProgressTrackingDashboard.target item)
         (ProgressTrackingDashboard.progressData ProgressTrackingDashboard.loadedMockPage) /\
  ProgressTrackingDashboard.earnedAt "resource-explorer"
    (ProgressTrackingDashboard.resetProgress 0 true ProgressTrackingDashboard.loadedMockPage)
  = false.
Proof.
  assert (Hpos :
    Forall (fun item => 0 < ProgressTrackingDashboard.target item)
           (ProgressTrackingDashboard.progressData ProgressTrackingDashboard.loadedMockPage)).
  { simpl. repeat constructor. }
  split; [exact Hpos |].
  exact (proj2 (proj2 (proj2 (proj2
           (X6_reset_unearns_everything_once 0 ProgressTrackingDashboard.loadedMockPage))))
           Hpos "resource-explorer").
Defined.

(** ** The journal *)

Section WordCount.
Import JournalSystem.
Context {char : Type} (isSpace : char -> bool).

Lemma splitSpaces_count s : forall piece inSeparator,
  (inSeparator = true -> piece = []) ->
  length (filter (fun word : list char => (0 < length word)%nat)
                 (splitSpaces isSpace s piece inSeparator)) =
  (match piece with [] => 0 | _ => 1 end
   + wordStarts isSpace s (match piece with [] => false | _ => true end))%nat.
Proof.
  induction s as [| c rest IH]; intros piece sep Hsep.
  - simpl. destruct piece as [| x piece]; [reflexivity |].
    rewrite filter_cons_True by (simpl; lia). reflexivity.
  - simpl. destruct (isSpace c) eqn:Hc.
    + destruct sep.
      * rewrite (Hsep eq_refl). rewrite (IH [] true) by reflexivity. reflexivity.
      * destruct piece as [| x piece].
        -- rewrite filter_cons_False by (simpl; lia).
           rewrite (IH [] true) by reflexivity. reflexivity.
        -- rewrite filter_cons_True by (simpl; lia). simpl length.
           rewrite (IH [] true) by reflexivity. reflexivity.
    + rewrite (IH (piece ++ [c]) false) by discriminate.
      destruct piece; reflexivity.
Qed.

Lemma wordStarts_trimStart s :
  wordStarts isSpace (trimStart isSpace s) false = wordStarts isSpace s false.
Proof.
  induction s as [| c rest IH]; [reflexivity |].
  simpl. destruct (isSpace c) eqn:Hc; [exact IH |].
  simpl. rewrite Hc. reflexivity.
Qed.

Lemma trimEnd_nil s : forall inWord,
  trimEnd isSpace s = [] -> wordStarts isSpace s inWord = 0%nat.
Proof.
  induction s as [| c rest IH]; intros w H; [reflexivity |].
  simpl in H. fold (trimEnd isSpace rest) in H.
  destruct (trimEnd isSpace rest) eqn:Hrest; [| discriminate H].
  destruct (isSpace c) eqn:Hc; [| discriminate H].
  simpl. rewrite Hc. apply IH. reflexivity.
Qed.

Lemma wordStarts_trimEnd s : forall inWord,
  wordStarts isSpace (trimEnd isSpace s) inWord = wordStarts isSpace s inWord.
Proof.
  induction s as [| c rest IH]; intros w; [reflexivity |].
  change (trimEnd isSpace (c :: rest))
    with (match trimEnd isSpace rest with
          | [] => if isSpace c then [] else [c]
          | _ => c :: trimEnd isSpace rest
          end).
  destruct (trimEnd isSpace rest) as [| x kept] eqn:Hrest.
  - pose proof (fun w' => trimEnd_nil rest w' Hrest) as Hnil.
    destruct (isSpace c) eqn:Hc; simpl; rewrite Hc, ?Hnil; reflexivity.
  - simpl. destruct (isSpace c); rewrite <- IH; reflexivity.
Qed.

Lemma countWords_wordStarts value :
  countWords isSpace value = wordStarts isSpace value false.
Proof.
  unfold countWords. rewrite splitSpaces_count by discriminate. simpl.
  unfold trim. rewrite wordStarts_trimEnd, wordStarts_trimStart. reflexivity.
Qed.

Lemma wordStarts_app a : forall sp b inWord,
  isSpace sp = true ->
  wordStarts isSpace (a ++ sp :: b) inWord
  = (wordStarts isSpace a inWord + wordStarts isSpace b false)%nat.
Proof.
  induction a as [| c rest IH]; intros sp b w Hsp.
  - simpl. rewrite Hsp. reflexivity.
  - simpl. destruct (isSpace c); rewrite IH by exact Hsp; lia.
Qed.

Lemma wordStarts_spaces s : forall inWord,
  Forall (fun c => isSpace c = true) s -> wordStarts isSpace s inWord = 0%nat.
Proof.
  induction s as [| c rest IH]; intros w H; [reflexivity |].
  apply Forall_cons_1 in H as [Hc Hrest]. simpl. rewrite Hc. apply IH, Hrest.
Qed.

Lemma wordStarts_word s :
  Forall (fun c => isSpace c = false) s -> wordStarts isSpace s true = 0%nat.
Proof.
  induction 1 as [| c rest Hc Hrest IH]; [reflexivity |].
  simpl. rewrite Hc. exact IH.
Qed.

End WordCount.

(** X7. The word count shown while writing is 0 for a text made of white
    space only (the empty text included), 1 for a non-empty text without
    white space, and the count of two texts joined by a white-space character
    is the sum of their counts. *)
Theorem X7_word_count_adds_over_white_space
    {char : Type} (isSpace : char -> bool) :
  (forall s, Forall (fun c => isSpace c = true) s ->
             JournalSystem.countWords isSpace s = 0%nat) /\
  (forall c s, Forall (fun c => isSpace c = false) (c :: s) ->
               JournalSystem.countWords isSpace (c :: s) = 1%nat) /\
  (forall a sp b, isSpace sp = true ->
     JournalSystem.countWords isSpace (a ++ sp :: b)
     = (JournalSystem.countWords isSpace a + JournalSystem.countWords isSpace b)%nat).
Proof.
  split; [| split].
  - intros s Hs. rewrite countWords_wordStarts. apply wordStarts_spaces, Hs.
  - intros c s Hs. rewrite countWords_wordStarts.
    apply Forall_cons_1 in Hs as [Hc Hrest]. simpl. rewrite Hc.
    rewrite wordStarts_word by exact Hrest. reflexivity.
  - intros a sp b Hsp. rewrite !countWords_wordStarts. apply wordStarts_app, Hsp.
Qed.

(** The text [a b] has two words. *)
Lemma X7_word_count_adds_over_white_space_witness :
  Sample.asciiSpace " "%char = true /\
  JournalSystem.countWords Sample.asciiSpace ["a"; " "; "b"]%char = 2%nat.
Proof.
  split; [reflexivity |].
  change ["a"; " "; "b"]%char with (["a"] ++ " " :: ["b"])%char.
  rewrite (proj2 (proj2 (X7_word_count_adds_over_white_space Sample.asciiSpace))
             ["a"%char] " "%char ["b"%char] eq_refl).
  reflexivity.
Defined.

Section JournalIds.
Import JournalSystem.

Lemma findEntry_Some wanted es k e :
  findEntry wanted es = Some (k, e) ->
  es !! k = Some e /\ id e = wanted.
Proof.
  unfold findEntry. intros H. apply list_find_Some in H as (Hk & He & _). auto.
Qed.

Lemma ids_insert_same es k e e' :
  es !! k = Some e -> id e' = id e -> map id (<[k := e']> es) = map id es.
Proof.
  intros Hk Hid.
  change (@map journalEntry Z) with (@fmap list _ journalEntry Z).
  rewrite list_fmap_insert. apply list_insert_id.
  rewrite list_lookup_fmap, Hk. simpl. congruence.
Qed.

End JournalIds.

(** X8. Opening a stored entry for editing and saving a non-empty text
    overwrites that entry in place: the journal keeps its length and the ids
    of its entries in order, the entry keeps its id, date and prompt and gets
    the new text, mood and modification time, every other entry is unchanged,
    and the editor is closed afterwards. *)
Theorem X8_edit_then_save_overwrites_in_place
    (isSpace : ascii -> bool) (textarea wordCountEl : bool)
    (now wanted : Z) (text : string) (selectedMood : option Z)
    (j : JournalSystem.journal) (k : nat) (e : JournalSystem.journalEntry) :
  wanted <> 0 ->
  text <> EmptyString ->
  JournalSystem.findEntry wanted (JournalSystem.entries j) = Some (k, e) ->
  let saved := JournalSystem.saveEntry now (Some text) selectedMood
                 (JournalSystem.editEntry isSpace textarea wordCountEl (Some wanted) j) in
  fst saved = Return tt /\
  JournalSystem.currentEntry (snd saved) = None /\
  JournalSystem.isEditing (snd saved) = false /\
  map JournalSystem.id (JournalSystem.entries (snd saved))
    = map JournalSystem.id (JournalSystem.entries j) /\
  (forall i, i <> k ->
     JournalSystem.entries (snd saved) !! i = JournalSystem.entries j !! i) /\
  exists e',
    JournalSystem.entries (snd saved) !! k = Some e' /\
    JournalSystem.id e' = JournalSystem.id e /\
    JournalSystem.date e' = JournalSystem.date e /\
    JournalSystem.prompt e' = JournalSystem.prompt e /\
    JournalSystem.content e' = text /\
    JournalSystem.mood e' = selectedMood /\
    JournalSystem.lastModified e' = Some now.
Proof.
  intros Hwanted Htext Hfind. cbv zeta.
  pose proof (findEntry_Some _ _ _ _ Hfind) as [Hk Hid].
  unfold JournalSystem.editEntry, JournalSystem.resolveId.
  replace (wanted =? 0) with false by (symmetry; apply Z.eqb_neq; exact Hwanted).
  rewrite Hfind. unfold JournalSystem.saveEntry, JournalSystem.updateWordCount.
  destruct text as [| a text]; [congruence |].
  destruct textarea, wordCountEl;
    cbn [JournalSystem.currentEntry JournalSystem.isEditing JournalSystem.entries
         JournalSystem.id JournalSystem.hideEditor fst snd];
    rewrite Hid, Hfind;
    cbn [JournalSystem.currentEntry JournalSystem.isEditing JournalSystem.entries
         JournalSystem.hideEditor fst snd];
    (split; [reflexivity |]); (split; [reflexivity |]); (split; [reflexivity |]);
    (split; [apply (ids_insert_same _ k e); [exact Hk | simpl; congruence] |]);
    (split; [intros i Hi; apply list_lookup_insert_ne; congruence |]);
    (eexists; split; [apply list_lookup_insert_eq; eapply lookup_lt_Some, Hk |]);
    simpl; repeat split; congruence.
Qed.

(** Revising the only entry of a journal. *)
Lemma X8_edit_then_save_overwrites_in_place_witness :
  Sample.noon <> 0 /\
  JournalSystem.findEntry Sample.noon [Sample.pageAt Sample.noon 1]
    = Some (0%nat, Sample.pageAt Sample.noon 1) /\
  length (JournalSystem.entries
            (snd (JournalSystem.saveEntry (Sample.noon + 1000) (Some "revised") None
                    Sample.journalEditing))) = 1%nat.
Proof.
  split; [discriminate |]. split; [reflexivity |].
  pose proof (X8_edit_then_save_overwrites_in_place Sample.asciiSpace true true
                (Sample.noon + 1000) Sample.noon "revised"
                None
                {| JournalSystem.entries := [Sample.pageAt Sample.noon 1];
                   JournalSystem.currentEntry := None; JournalSystem.isEditing := false |}
                0%nat (Sample.pageAt Sample.noon 1)
                ltac:(discriminate) ltac:(discriminate) eq_refl) as H.
  cbv zeta in H. destruct H as (_ & _ & _ & Hids & _).
  apply (f_equal length) in Hids. rewrite !length_map in Hids. exact Hids.
Defined.

(** X9. Entry ids stay unique: if no two stored entries share an id, this is
    still so after saving an entry opened for editing, after a deletion, and
    after saving a new entry whose id (the instant it was started) is not the
    id of a stored entry. *)
Theorem X9_entry_ids_stay_unique (j : JournalSystem.journal) :
  JournalSystem.uniqueIds j ->
  (forall now text selectedMood,
     JournalSystem.isEditing j = true ->
     JournalSystem.uniqueIds (snd (JournalSystem.saveEntry now text selectedMood j))) /\
  (forall entryId confirmed,
     JournalSystem.uniqueIds (JournalSystem.deleteEntry entryId confirmed j)) /\
  (forall started now text selectedMood,
     started ∉ map JournalSystem.id (JournalSystem.entries j) ->
     JournalSystem.uniqueIds
       (snd (JournalSystem.saveEntry now text selectedMood
               (JournalSystem.startNewEntry started j)))).
Proof.
  unfold JournalSystem.uniqueIds. intros Hunique. split; [| split].
  - intros now text selectedMood Hedit. unfold JournalSystem.saveEntry.
    destruct text as [[| a text] |]; try exact Hunique.
    destruct (JournalSystem.currentEntry j) as [cur |]; [| exact Hunique].
    rewrite Hedit. simpl.
    destruct (JournalSystem.findEntry (JournalSystem.id cur) (JournalSystem.entries j))
      as [[k old] |] eqn:Hfind; [| exact Hunique].
    apply findEntry_Some in Hfind as [Hk Hid].
    rewrite (ids_insert_same _ k old); [exact Hunique | exact Hk | simpl; congruence].
  - intros entryId confirmed. unfold JournalSystem.deleteEntry.
    destruct (JournalSystem.resolveId entryId j) as [wanted |]; [| exact Hunique].
    destruct (JournalSystem.findEntry wanted (JournalSystem.entries j)); [| exact Hunique].
    destruct confirmed; [| exact Hunique]. simpl.
    eapply sublist_NoDup; [exact Hunique |].
    change (@map JournalSystem.journalEntry Z)
      with (@fmap list _ JournalSystem.journalEntry Z).
    apply fmap_sublist, sublist_filter.
  - intros started now text selectedMood Hfresh. unfold JournalSystem.saveEntry.
    destruct text as [[| a text] |]; try exact Hunique.
    simpl. apply NoDup_cons. split; assumption.
Qed.

(** Deleting the entry of a one-entry journal. *)
Lemma X9_entry_ids_stay_unique_witness :
  JournalSystem.uniqueIds Sample.journalEditing /\
  JournalSystem.uniqueIds
    (JournalSystem.deleteEntry (Some Sample.noon) true Sample.journalEditing).
Proof.
  assert (H : JournalSystem.uniqueIds Sample.journalEditing).
  { unfold JournalSystem.uniqueIds. simpl. apply NoDup_singleton. }
  split; [exact H |].
  exact (proj1 (proj2 (X9_entry_ids_stay_unique Sample.journalEditing H))
           (Some Sample.noon) true).
Defined.

(** ** Sorting *)

Section SortFacts.
Context {A : Type} (compare : A -> A -> Z).

Lemma insertSorted_Permutation x l : insertSorted compare x l ≡ₚ x :: l.
Proof.
  induction l as [| y rest IH]; [reflexivity |].
  simpl. destruct (compare x y <=? 0); [reflexivity |].
  rewrite IH. apply Permutation_swap.
Qed.

Lemma sort_Permutation l : sort compare l ≡ₚ l.
Proof.
  induction l as [| x rest IH]; [reflexivity |].
  simpl. rewrite insertSorted_Permutation. rewrite IH. reflexivity.
Qed.

Hypothesis compare_total : forall a b, compare a b <= 0 \/ compare b a <= 0.
Hypothesis compare_trans :
  forall a b c, compare a b <= 0 -> compare b c <= 0 -> compare a c <= 0.

Lemma insertSorted_sorted x l :
  StronglySorted (fun a b => compare a b <= 0) l ->
  StronglySorted (fun a b => compare a b <= 0) (insertSorted compare x l).
Proof.
  induction 1 as [| y rest Hrest IH Hy]; simpl.
  - repeat constructor.
  - destruct (Z.leb_spec (compare x y) 0) as [Hle | Hgt].
    + constructor; [constructor; assumption |].
      constructor; [exact Hle |].
      eapply Forall_impl; [exact Hy |]. intros z Hz. simpl in *. eauto.
    + constructor; [exact IH |].
      rewrite insertSorted_Permutation. constructor; [| exact Hy].
      destruct (compare_total x y); lia.
Qed.

Lemma sort_sorted l : StronglySorted (fun a b => compare a b <= 0) (sort compare l).
Proof.
  induction l as [| x rest IH]; [constructor |].
  simpl. apply insertSorted_sorted, IH.
Qed.

End SortFacts.

Lemma StronglySorted_impl {A : Type} (R S : A -> A -> Prop) l :
  (forall a b, R a b -> S a b) -> StronglySorted R l -> StronglySorted S l.
Proof.
  intros HRS. induction 1 as [| x rest Hrest IH Hx]; constructor; [exact IH |].
  eapply Forall_impl; [exact Hx |]. auto.
Qed.

(** X10. The list of all entries shows each stored entry that passes the
    search exactly once (all of them when the search box is empty or
    missing), in the order chosen: newest first by default, oldest first,
    longest first or shortest first. *)
Theorem X10_entry_list_is_the_sorted_selection
    (toLowerCase : string -> string) (includes : string -> string -> bool)
    (searchValue sortBy : option string) (es : list JournalSystem.journalEntry) :
  let shown := JournalSystem.applySortAndFilter toLowerCase includes searchValue sortBy es in
  shown ≡ₚ JournalSystem.searched toLowerCase includes
             (JournalSystem.searchTermOf toLowerCase searchValue) es /\
  StronglySorted (JournalSystem.inOrder (JournalSystem.chosenOrder sortBy)) shown /\
  (forall e, e ∈ shown -> e ∈ es) /\
  (JournalSystem.searchTermOf toLowerCase searchValue = EmptyString -> shown ≡ₚ es).
Proof.
  cbv zeta. unfold JournalSystem.applySortAndFilter.
  set (term := JournalSystem.searchTermOf toLowerCase searchValue).
  set (order := JournalSystem.chosenOrder sortBy).
  assert (Hperm : sort (JournalSystem.compareEntries order)
                    (JournalSystem.searched toLowerCase includes term es)
                  ≡ₚ JournalSystem.searched toLowerCase includes term es)
    by apply sort_Permutation.
  split; [exact Hperm |]. split; [| split].
  - eapply StronglySorted_impl; [| apply sort_sorted].
    + intros a b. unfold JournalSystem.inOrder, JournalSystem.compareEntries.
      destruct order; lia.
    + intros a b. unfold JournalSystem.compareEntries. destruct order; lia.
    + intros a b c. unfold JournalSystem.compareEntries. destruct order; lia.
  - intros e He. rewrite Hperm in He. unfold JournalSystem.searched in He.
    destruct term; [exact He |]. apply list_elem_of_filter in He. tauto.
  - intros Hterm. rewrite Hperm, Hterm. reflexivity.
Qed.

(** ** Moods of the journal *)

Section MoodDistribution.
Import JournalSystem.

Lemma fold_countMood_slot es : forall (d : gmap Z moodCount) (m n : Z),
  m <> 0 ->
  d !! m = Some (Counted n) ->
  fold_left countMood es d !! m
  = Some (Counted (n + Z.of_nat (length (filter (fun e => mood e = Some m) es)))).
Proof.
  induction es as [| e rest IH]; intros d m n Hm Hd.
  - simpl. rewrite Hd. do 2 f_equal. lia.
  - simpl fold_left. unfold countMood at 2.
    destruct (mood e) as [m' |] eqn:Hmood.
    + destruct (Z.eqb_spec m' 0) as [-> | Hm'].
      * rewrite filter_cons_False by congruence. apply IH; assumption.
      * destruct (decide (m' = m)) as [-> | Hne].
        -- rewrite filter_cons_True by exact Hmood.
           rewrite (IH _ m (n + 1)); [| exact Hm |].
           ++ do 2 f_equal. simpl length. lia.
           ++ rewrite lookup_insert_eq, Hd. reflexivity.
        -- rewrite filter_cons_False by congruence.
           apply IH; [exact Hm |]. rewrite lookup_insert_ne by exact Hne. exact Hd.
    + rewrite filter_cons_False by congruence. apply IH; assumption.
Qed.

Lemma fold_countMood_outside es : forall (d : gmap Z moodCount) (m : Z),
  (d !! m = None \/ d !! m = Some NotANumber) ->
  fold_left countMood es d !! m = None \/ fold_left countMood es d !! m = Some NotANumber.
Proof.
  induction es as [| e rest IH]; intros d m Hd; [exact Hd |].
  simpl fold_left. apply IH. unfold countMood.
  destruct (mood e) as [m' |]; [| exact Hd].
  destruct (m' =? 0); [exact Hd |].
  destruct (decide (m' = m)) as [-> | Hne].
  - right. rewrite lookup_insert_eq. destruct Hd as [-> | ->]; reflexivity.
  - rewrite lookup_insert_ne by exact Hne. exact Hd.
Qed.

End MoodDistribution.

(** X11. In the mood distribution of the journal, each of the five slots 1
    to 5 holds exactly the number of entries recorded with that mood, whatever
    other moods the stored entries carry; a slot for any other mood is absent
    or holds NaN. *)
Theorem X11_mood_distribution_counts (j : JournalSystem.journal) (m : Z) :
  (1 <= m <= 5 ->
   JournalSystem.getMoodDistribution j !! m
   = Some (JournalSystem.Counted (Z.of_nat (length (JournalSystem.entriesWithMood m j))))) /\
  (~ 1 <= m <= 5 ->
   JournalSystem.getMoodDistribution j !! m = None \/
   JournalSystem.getMoodDistribution j !! m = Some JournalSystem.NotANumber).
Proof.
  unfold JournalSystem.getMoodDistribution, JournalSystem.entriesWithMood. split.
  - intros Hm.
    rewrite (fold_countMood_slot _ _ m 0); [reflexivity | lia |].
    unfold JournalSystem.emptyDistribution.
    assert (m = 1 \/ m = 2 \/ m = 3 \/ m = 4 \/ m = 5) as [-> | [-> | [-> | [-> | ->]]]]
      by lia; reflexivity.
  - intros Hm. apply fold_countMood_outside. left.
    unfold JournalSystem.emptyDistribution.
    rewrite !lookup_insert_ne by lia. apply lookup_empty.
Qed.

(** The sample journal has one entry without a mood. *)
Lemma X11_mood_distribution_counts_witness :
  1 <= 4 <= 5 /\
  JournalSystem.getMoodDistribution Sample.journalOneTwo !! 4
  = Some (JournalSystem.Counted 0).
Proof.
  split; [lia |].
  exact (proj1 (X11_mood_distribution_counts Sample.journalOneTwo 4) ltac:(lia)).
Defined.

(** Listing the sample journal longest entry first, without a search. *)
Lemma X10_entry_list_is_the_sorted_selection_witness :
  JournalSystem.searchTermOf (fun s => s) None = EmptyString /\
  JournalSystem.applySortAndFilter (fun s => s) (fun _ _ => true) None (Some "longest")
    (JournalSystem.entries Sample.journalTwiceToday)
  ≡ₚ JournalSystem.entries Sample.journalTwiceToday.
Proof.
  split; [reflexivity |].
  exact (proj2 (proj2 (proj2
           (X10_entry_list_is_the_sorted_selection (fun s => s) (fun _ _ => true) None
              (Some "longest") (JournalSystem.entries Sample.journalTwiceToday))))
           eq_refl).
Defined.

(** ** The mood tracker *)

(** X12. Clicking a factor tag keeps the selected factors free of
    duplicates, makes the tag's factor selected exactly when the tag now
    shows as selected, and changes nothing else: the other factors, the
    selected mood and the history stay as they were. *)
Theorem X12_factor_tag_click_keeps_selection_in_step
    (tag : MoodTracker.factorTag) (t : MoodTracker.tracker) :
  let tag' := fst (MoodTracker.clickFactorTag tag t) in
  let t' := snd (MoodTracker.clickFactorTag tag t) in
  MoodTracker.selected tag' = negb (MoodTracker.selected tag) /\
  (MoodTracker.factor tag ∈ MoodTracker.selectedFactors t'
   <-> MoodTracker.selected tag' = true) /\
  (forall f, f <> MoodTracker.factor tag ->
     (f ∈ MoodTracker.selectedFactors t' <-> f ∈ MoodTracker.selectedFactors t)) /\
  (NoDup (MoodTracker.selectedFactors t) -> NoDup (MoodTracker.selectedFactors t')) /\
  MoodTracker.currentMood t' = MoodTracker.currentMood t /\
  MoodTracker.moodHistory t' = MoodTracker.moodHistory t.
Proof.
  cbv zeta. unfold MoodTracker.clickFactorTag. simpl.
  split; [reflexivity |].
  destruct (MoodTracker.selected tag); simpl.
  - split; [| split; [| split]].
    + rewrite list_elem_of_filter. split; [tauto | discriminate].
    + intros f Hf. rewrite list_elem_of_filter. tauto.
    + intros H. apply NoDup_filter, H.
    + auto.
  - destruct (decide (MoodTracker.factor tag ∈ MoodTracker.selectedFactors t)) as [Hin | Hout].
    + split; [tauto |]. split; [tauto |]. auto.
    + split; [| split; [| split]].
      * rewrite elem_of_app, list_elem_of_singleton. tauto.
      * intros f Hf. rewrite elem_of_app, list_elem_of_singleton. tauto.
      * intros H. apply NoDup_app. split; [exact H |]. split.
        -- intros x Hx Hx'. apply list_elem_of_singleton in Hx'. congruence.
        -- apply NoDup_singleton.
      * auto.
Qed.

(** Selecting the sleep tag on a tracker with no factor selected. *)
Lemma X12_factor_tag_click_keeps_selection_in_step_witness :
  NoDup (MoodTracker.selectedFactors Sample.twiceToday) /\
  NoDup (MoodTracker.selectedFactors
           (snd (MoodTracker.clickFactorTag
                   {| MoodTracker.factor := "sleep"; MoodTracker.selected := false |}
                   Sample.twiceToday))).
Proof.
  assert (H : NoDup (MoodTracker.selectedFactors Sample.twiceToday)) by apply NoDup_nil_2.
  split; [exact H |].
  pose proof (X12_factor_tag_click_keeps_selection_in_step
                {| MoodTracker.factor := "sleep"; MoodTracker.selected := false |}
                Sample.twiceToday) as Hclick.
  cbv zeta in Hclick. destruct Hclick as (_ & _ & _ & Hnodup & _).
  exact (Hnodup H).
Defined.

Section Trend.
Import MoodTracker.

Lemma trendInsights_three e1 e2 e3 : trendInsights [e1; e2; e3] = [StablePattern].
Proof.
  unfold trendInsights. simpl length. simpl Nat.leb. cbv iota.
  simpl drop. simpl take. simpl map. simpl length.
  change (0 <? 0)%nat with false. cbv iota.
  set (r := averageOf _).
  destruct (Qlt_le_dec (r + (1 # 2)) r) as [H | _]; [exfalso; lra |].
  destruct (Qlt_le_dec r (r - (1 # 2))) as [H | _]; [exfalso; lra |].
  reflexivity.
Qed.

Lemma trendInsights_cases l :
  trendInsights l = [] \/ trendInsights l = [ImprovingTrend]
  \/ trendInsights l = [DecliningTrend] \/ trendInsights l = [StablePattern].
Proof.
  unfold trendInsights. destruct (3 <=? length l)%nat; [| auto].
  destruct (Qlt_le_dec _ _); [auto |]. destruct (Qlt_le_dec _ _); auto.
Qed.

End Trend.

(** X13. With exactly three moods in the history the pattern analysis has no
    older moods to compare with, so the trend it reports is always "Stable
    Pattern", whatever the three moods are; with fewer than three it reports
    no trend, and it never reports more than one. *)
Theorem X13_trend_of_three_moods_is_stable (now : Z) (t : MoodTracker.tracker) :
  ((length (MoodTracker.moodHistory t) < 3)%nat ->
   MoodTracker.trendInsights (take 7 (MoodTracker.moodHistory t)) = []) /\
  (length (MoodTracker.moodHistory t) = 3%nat ->
   exists rest,
     MoodTracker.analyzePatterns now t = MoodTracker.StablePattern :: rest /\
     (MoodTracker.ImprovingTrend ∉ rest) /\ (MoodTracker.DecliningTrend ∉ rest)) /\
  (length (MoodTracker.trendInsights (take 7 (MoodTracker.moodHistory t))) <= 1)%nat.
Proof.
  split; [| split].
  - intros Hlen. unfold MoodTracker.trendInsights.
    rewrite length_take.
    replace (3 <=? Nat.min 7 (length (MoodTracker.moodHistory t)))%nat with false
      by (symmetry; apply Nat.leb_gt; lia).
    reflexivity.
  - intros Hlen. unfold MoodTracker.analyzePatterns.
    destruct (MoodTracker.moodHistory t) as [| e1 [| e2 [| e3 [| e4 rest]]]] eqn:Hh;
      try discriminate Hlen.
    change (take 7 [e1; e2; e3]) with [e1; e2; e3].
    rewrite trendInsights_three. eexists. split; [reflexivity |].
    unfold MoodTracker.factorInsights, MoodTracker.streakInsights.
    split; intros Hin; apply elem_of_app in Hin as [Hin | Hin].
    + repeat case_match; try (apply list_elem_of_singleton in Hin; discriminate Hin);
        apply elem_of_nil in Hin; exact Hin.
    + repeat case_match; try (apply list_elem_of_singleton in Hin; discriminate Hin);
        apply elem_of_nil in Hin; exact Hin.
    + repeat case_match; try (apply list_elem_of_singleton in Hin; discriminate Hin);
        apply elem_of_nil in Hin; exact Hin.
    + repeat case_match; try (apply list_elem_of_singleton in Hin; discriminate Hin);
        apply elem_of_nil in Hin; exact Hin.
  - destruct (trendInsights_cases (take 7 (MoodTracker.moodHistory t)))
      as [-> | [-> | [-> | ->]]]; simpl; lia.
Qed.

(** The three moods of the sample history. *)
Lemma X13_trend_of_three_moods_is_stable_witness :
  length (MoodTracker.moodHistory Sample.twiceToday) = 3%nat /\
  exists rest,
    MoodTracker.analyzePatterns Sample.noon Sample.twiceToday
    = MoodTracker.StablePattern :: rest.
Proof.
  split; [reflexivity |].
  destruct (proj1 (proj2 (X13_trend_of_three_moods_is_stable Sample.noon Sample.twiceToday))
              eq_refl) as (rest & Hrest & _).
  exists rest. exact Hrest.
Defined.

Section Factors.
Import MoodTracker.

Lemma countOf_countFactor f g c :
  countOf (countFactor f c) g
  = if decide (g = f) then Some (default 0 (countOf c f) + 1) else countOf c g.
Proof.
  induction c as [| [h n] rest IH]; simpl.
  - destruct (decide (f = g)), (decide (g = f)); try reflexivity; congruence.
  - destruct (decide (h = f)) as [-> | Hhf]; simpl.
    + destruct (decide (f = f)) as [_ | Hff]; [| congruence].
      destruct (decide (f = g)), (decide (g = f)); try reflexivity; congruence.
    + rewrite IH. destruct (decide (h = g)) as [-> | Hhg].
      * destruct (decide (g = f)); congruence.
      * reflexivity.
Qed.

Lemma tally_cons g x fs :
  tally g (x :: fs) = (if decide (x = g) then 1 else 0) + tally g fs.
Proof.
  unfold tally. destruct (decide (x = g)) as [Heq | Hne].
  - rewrite filter_cons_True by exact Heq. simpl length. lia.
  - rewrite filter_cons_False by exact Hne. lia.
Qed.

Lemma tally_nonneg g fs : 0 <= tally g fs.
Proof. unfold tally. lia. Qed.

Lemma tally_pos g fs : 0 < tally g fs <-> g ∈ fs.
Proof.
  induction fs as [| x fs IH].
  - unfold tally. simpl. split; [lia | intros H; inversion H].
  - rewrite tally_cons, elem_of_cons. pose proof (tally_nonneg g fs).
    destruct (decide (x = g)) as [-> | Hne].
    + split; [auto | lia].
    + split.
      * intros Hp. right. apply IH. lia.
      * intros [-> | Hin]; [congruence |]. apply IH in Hin. lia.
Qed.

Lemma countOf_fold fs c g :
  countOf (fold_left (fun c f => countFactor f c) fs c) g
  = if tally g fs =? 0 then countOf c g
    else Some (default 0 (countOf c g) + tally g fs).
Proof.
  revert c. induction fs as [| x fs IH]; intros c.
  - reflexivity.
  - simpl fold_left. rewrite IH, tally_cons, countOf_countFactor.
    pose proof (tally_nonneg g fs) as Hnn.
    destruct (decide (x = g)) as [-> | Hne].
    + rewrite decide_True by reflexivity.
      destruct (Z.eqb_spec (tally g fs) 0) as [H0 | H0];
        destruct (Z.eqb_spec (1 + tally g fs) 0) as [H1 | H1]; try lia;
        simpl; f_equal; lia.
    + rewrite decide_False by congruence.
      change (0 + tally g fs) with (tally g fs). reflexivity.
Qed.

Lemma factorCounts_flat history :
  factorCounts history
  = fold_left (fun c f => countFactor f c) (concat (map factors history)) [].
Proof.
  unfold factorCounts. generalize (@nil (string * Z)) as c.
  induction history as [| e rest IH]; intros c; simpl.
  - reflexivity.
  - rewrite fold_left_app. apply IH.
Qed.

Lemma countOf_factorCounts history g :
  countOf (factorCounts history) g
  = if occurrences g history =? 0 then None else Some (occurrences g history).
Proof.
  rewrite factorCounts_flat, countOf_fold. reflexivity.
Qed.

Lemma countOf_keys c g : is_Some (countOf c g) <-> g ∈ map fst c.
Proof.
  induction c as [| [h n] rest IH]; simpl.
  - split; [intros [x Hx]; discriminate | intros H; inversion H].
  - rewrite elem_of_cons. destruct (decide (h = g)) as [-> | Hne].
    + split; [auto | eauto].
    + rewrite IH. split; [auto | intros [-> | H]; [congruence | exact H]].
Qed.

Lemma leads_step counts seen acc b :
  is_Some (countOf counts b) ->
  (forall g, g ∈ seen -> is_Some (countOf counts g)) ->
  leads counts seen acc ->
  leads counts (seen ++ [b]) (if countGreater counts acc b then acc else Some b).
Proof.
  intros [y Hy] Hseen Hacc.
  destruct (countGreater counts acc b) eqn:Hgt.
  - destruct acc as [a |]; simpl in *.
    + destruct Hacc as [Ha Hmax]. split; [apply elem_of_app; auto |].
      intros g Hg. apply elem_of_app in Hg as [Hg | Hg]; [auto |].
      apply list_elem_of_singleton in Hg as ->.
      unfold countGreater in Hgt. simpl in Hgt. rewrite Hy in Hgt.
      destruct (countOf counts a) as [x |]; [| discriminate].
      rewrite Hy. simpl. apply Z.ltb_lt in Hgt. lia.
    + intros g Hg. apply elem_of_app in Hg as [Hg | Hg]; [auto |].
      apply list_elem_of_singleton in Hg as ->. exact Hgt.
  - simpl. split; [apply elem_of_app; right; apply list_elem_of_singleton; reflexivity |].
    intros g Hg. apply elem_of_app in Hg as [Hg | Hg].
    + rewrite Hy. simpl. destruct acc as [a |]; simpl in Hacc.
      * destruct Hacc as [Ha Hmax]. specialize (Hmax g Hg).
        destruct (Hseen a Ha) as [x Hx]. rewrite Hx in Hmax. simpl in Hmax.
        unfold countGreater in Hgt. simpl in Hgt. rewrite Hx, Hy in Hgt.
        apply Z.ltb_ge in Hgt. lia.
      * specialize (Hacc g Hg). unfold countGreater in *. simpl in *.
        rewrite Hy in Hgt.
        destruct (countOf counts "null") as [x |]; [| discriminate].
        destruct (countOf counts g) as [z |]; [| discriminate].
        simpl. apply Z.ltb_lt in Hacc. apply Z.ltb_ge in Hgt. lia.
    + apply list_elem_of_singleton in Hg as ->. lia.
Qed.

Lemma leads_fold counts keys seen acc :
  (forall g, g ∈ seen ++ keys -> is_Some (countOf counts g)) ->
  leads counts seen acc ->
  leads counts (seen ++ keys)
        (fold_left (fun a b => if countGreater counts a b then a else Some b) keys acc).
Proof.
  revert seen acc. induction keys as [| b keys IH]; intros seen acc Hkeys Hacc.
  - rewrite app_nil_r. exact Hacc.
  - simpl fold_left. replace (seen ++ b :: keys) with ((seen ++ [b]) ++ keys)
      by (rewrite <- app_assoc; reflexivity).
    apply IH.
    + intros g Hg. apply Hkeys. rewrite <- app_assoc in Hg. exact Hg.
    + apply leads_step; [| | exact Hacc].
      * apply Hkeys. apply elem_of_app. right. apply elem_of_cons. auto.
      * intros g Hg. apply Hkeys. apply elem_of_app. auto.
Qed.

Lemma topFactor_leads counts : leads counts (map fst counts) (topFactor counts).
Proof.
  unfold topFactor. apply (leads_fold counts (map fst counts) [] None).
  - intros g Hg. apply countOf_keys. exact Hg.
  - intros g Hg. inversion Hg.
Qed.

Lemma topFactor_None counts : topFactor counts = None -> counts = [].
Proof.
  intros Hnone. pose proof (topFactor_leads counts) as Hl. rewrite Hnone in Hl.
  simpl in Hl. destruct counts as [| [h n] rest]; [reflexivity | exfalso].
  assert (Hh : countGreater ((h, n) :: rest) None h = true)
    by (apply Hl; simpl; apply elem_of_cons; auto).
  unfold countGreater in Hh. simpl keyOf in Hh.
  destruct (countOf ((h, n) :: rest) "null") as [x |] eqn:Hx; [| discriminate].
  assert (Hnull : "null" ∈ map fst ((h, n) :: rest))
    by (apply countOf_keys; rewrite Hx; eauto).
  specialize (Hl _ Hnull). unfold countGreater in Hl. simpl keyOf in Hl.
  rewrite Hx in Hl. apply Z.ltb_lt in Hl. lia.
Qed.

Lemma occurrences_nonneg g history : 0 <= occurrences g history.
Proof. unfold occurrences. apply tally_nonneg. Qed.

Lemma count_default history g :
  default 0 (countOf (factorCounts history) g) = occurrences g history.
Proof.
  rewrite countOf_factorCounts.
  destruct (Z.eqb_spec (occurrences g history) 0) as [H0 | H0]; simpl; lia.
Qed.

Lemma topFactor_most history top :
  topFactor (factorCounts history) = Some top ->
  0 < occurrences top history /\
  forall g, occurrences g history <= occurrences top history.
Proof.
  intros Htop. pose proof (topFactor_leads (factorCounts history)) as Hl.
  rewrite Htop in Hl. simpl in Hl. destruct Hl as [Hin Hmax].
  apply countOf_keys in Hin as [n Hn].
  pose proof (occurrences_nonneg top history) as Hnn.
  rewrite countOf_factorCounts in Hn.
  destruct (Z.eqb_spec (occurrences top history) 0) as [H0 | H0]; [discriminate |].
  split; [lia |]. intros g.
  destruct (Z.eqb_spec (occurrences g history) 0) as [G0 | G0]; [lia |].
  rewrite <- !count_default. apply Hmax. apply countOf_keys.
  rewrite countOf_factorCounts.
  destruct (Z.eqb_spec (occurrences g history) 0); [lia | eauto].
Qed.

Lemma factorInsights_spec history f :
  CommonFactor f ∈ factorInsights history <->
  topFactor (factorCounts history) = Some f /\ f <> EmptyString
  /\ 3 <= occurrences f history.
Proof.
  unfold factorInsights.
  destruct (topFactor (factorCounts history)) as [top |] eqn:Htop.
  - destruct top as [| a top'].
    + split; [intros H; inversion H | intros (H & Hne & _); congruence].
    + rewrite countOf_factorCounts.
      destruct (Z.eqb_spec (occurrences (String a top') history) 0) as [H0 | H0].
      * split; [intros H; inversion H |].
        intros (H & _ & H3). injection H as <-. lia.
      * destruct (Z.leb_spec 3 (occurrences (String a top') history)) as [H3 | H3].
        -- rewrite list_elem_of_singleton. split.
           ++ intros H. injection H as ->. repeat split; [discriminate | exact H3].
           ++ intros (H & _). congruence.
        -- split; [intros H; inversion H |].
           intros (H & _ & H3'). injection H as <-. lia.
  - split; [intros H; inversion H | intros (H & _); discriminate].
Qed.

Lemma commonFactor_in_analysis now t f :
  CommonFactor f ∈ analyzePatterns now t <-> CommonFactor f ∈ factorInsights (moodHistory t).
Proof.
  unfold analyzePatterns. rewrite !elem_of_app. split; [| auto].
  intros [H | [H | H]]; [| exact H |].
  - destruct (trendInsights_cases (take 7 (moodHistory t))) as [E | [E | [E | E]]];
      rewrite E in H; [inversion H | | |];
      apply list_elem_of_singleton in H; discriminate H.
  - unfold streakInsights in H. destruct (3 <=? _)%nat; [| inversion H].
    apply list_elem_of_singleton in H. discriminate H.
Qed.

End Factors.

(** X14. A "Common Factor" insight names a factor that was recorded at least
    three times in the history and that no other factor was recorded more
    often than; and whenever some factor was recorded three times and no
    entry carries an empty factor name, the analysis does give such an
    insight. *)
Theorem X14_common_factor_is_a_most_recorded_one (now : Z) (t : MoodTracker.tracker) :
  (forall f,
     MoodTracker.CommonFactor f ∈ MoodTracker.analyzePatterns now t ->
     3 <= MoodTracker.occurrences f (MoodTracker.moodHistory t) /\
     forall g, MoodTracker.occurrences g (MoodTracker.moodHistory t)
               <= MoodTracker.occurrences f (MoodTracker.moodHistory t)) /\
  (MoodTracker.occurrences EmptyString (MoodTracker.moodHistory t) = 0 ->
   (exists g, 3 <= MoodTracker.occurrences g (MoodTracker.moodHistory t)) ->
   exists f, MoodTracker.CommonFactor f ∈ MoodTracker.analyzePatterns now t).
Proof.
  split.
  - intros f Hin. apply commonFactor_in_analysis, factorInsights_spec in Hin.
    destruct Hin as (Htop & _ & H3). split; [exact H3 |].
    apply topFactor_most, Htop.
  - intros Hempty [g Hg].
    destruct (MoodTracker.topFactor (MoodTracker.factorCounts (MoodTracker.moodHistory t)))
      as [top |] eqn:Htop.
    + exists top. apply commonFactor_in_analysis, factorInsights_spec.
      destruct (topFactor_most _ _ Htop) as [Hpos Hmax].
      split; [exact Htop |]. split.
      * intros ->. lia.
      * specialize (Hmax g). lia.
    + apply topFactor_None in Htop.
      pose proof (countOf_factorCounts (MoodTracker.moodHistory t) g) as Hc.
      rewrite Htop in Hc. simpl in Hc.
      destruct (Z.eqb_spec (MoodTracker.occurrences g (MoodTracker.moodHistory t)) 0);
        [lia | discriminate].
Qed.

(** Work was recorded with each of three moods, sleep with one. *)
Lemma X14_common_factor_is_a_most_recorded_one_witness :
  MoodTracker.CommonFactor "work"
    ∈ MoodTracker.analyzePatterns Sample.noon Sample.workWeek /\
  MoodTracker.occurrences "sleep" (MoodTracker.moodHistory Sample.workWeek)
  <= MoodTracker.occurrences "work" (MoodTracker.moodHistory Sample.workWeek).
Proof.
  assert (Hin : MoodTracker.CommonFactor "work"
                  ∈ MoodTracker.analyzePatterns Sample.noon Sample.workWeek).
  { replace (MoodTracker.analyzePatterns Sample.noon Sample.workWeek)
      with [MoodTracker.StablePattern; MoodTracker.CommonFactor "work";
            MoodTracker.GreatStreak 3]
      by (vm_compute; reflexivity).
    apply elem_of_cons. right. apply elem_of_cons. left. reflexivity. }
  split; [exact Hin |].
  exact (proj2 (proj1 (X14_common_factor_is_a_most_recorded_one Sample.noon Sample.workWeek)
                  "work" Hin) "sleep").
Defined.

(** X15. With a mood selected, logging it always ends in a TypeError: the
    success message reads the emoji of the selected mood after the form has
    been reset.  By then the form is cleared, so logging again straight away
    does nothing and returns normally, as does any call with no mood
    selected. *)
Theorem X15_logging_a_selected_mood_ends_in_a_type_error
    (now later : Z) (t : MoodTracker.tracker) :
  (MoodTracker.currentMood t = None -> MoodTracker.logMood now t = (Return tt, t)) /\
  (MoodTracker.currentMood t <> None ->
   let t' := snd (MoodTracker.logMood now t) in
   fst (MoodTracker.logMood now t) = Throw TypeError /\
   MoodTracker.currentMood t' = None /\
   MoodTracker.selectedFactors t' = [] /\
   MoodTracker.logMood later t' = (Return tt, t')).
Proof.
  split.
  - intros Hnone. unfold MoodTracker.logMood. rewrite Hnone. reflexivity.
  - intros Hsome. cbv zeta.
    destruct (MoodTracker.currentMood t) as [m |] eqn:Hm; [| congruence].
    assert (Hlog : exists history,
               MoodTracker.logMood now t
               = (Throw TypeError,
                  {| MoodTracker.currentMood := None; MoodTracker.selectedFactors := [];
                     MoodTracker.moodHistory := history |})).
    { unfold MoodTracker.logMood. rewrite Hm. simpl. eexists. reflexivity. }
    destruct Hlog as [history Hlog]. rewrite Hlog. simpl. repeat split.
Qed.

(** The tracker with the calm mood selected. *)
Lemma X15_logging_a_selected_mood_ends_in_a_type_error_witness :
  MoodTracker.currentMood Sample.trackerReady <> None /\
  fst (MoodTracker.logMood Sample.noon Sample.trackerReady) = Throw TypeError.
Proof.
  assert (H : MoodTracker.currentMood Sample.trackerReady <> None) by discriminate.
  split; [exact H |].
  exact (proj1 (proj2 (X15_logging_a_selected_mood_ends_in_a_type_error
                         Sample.noon Sample.noon Sample.trackerReady) H)).
Defined.

(** ** The resources manager *)

Section Favourites.
Import ResourcesManager.

Lemma indexOf_None wanted l : indexOf wanted l = None -> wanted ∉ l.
Proof.
  unfold indexOf. destruct (list_find _ l) as [[i x] |] eqn:Hfind; [discriminate |].
  intros _ Hin. apply list_find_None in Hfind.
  rewrite Forall_forall in Hfind. exact (Hfind wanted Hin eq_refl).
Qed.

Lemma indexOf_Some wanted l i :
  indexOf wanted l = Some i ->
  l = take i l ++ wanted :: drop (S i) l /\ wanted ∉ take i l.
Proof.
  unfold indexOf. destruct (list_find _ l) as [[k x] |] eqn:Hfind; [| discriminate].
  simpl. intros [= ->]. apply list_find_Some in Hfind as (Hi & -> & Hbefore).
  split.
  - symmetry. apply take_drop_middle. exact Hi.
  - intros Hin. apply list_elem_of_lookup in Hin as [j Hj].
    apply lookup_take_Some in Hj as [Hj Hlt].
    exact (Hbefore j wanted Hj Hlt eq_refl).
Qed.

Lemma indexOf_last wanted l :
  wanted ∉ l -> indexOf wanted (l ++ [wanted]) = Some (length l).
Proof.
  intros Hout. unfold indexOf.
  assert (Hfind : list_find (fun x => x = wanted) (l ++ [wanted]) = Some (length l, wanted)).
  { apply list_find_Some. split; [| split].
    - rewrite lookup_app_r by lia. rewrite Nat.sub_diag. reflexivity.
    - reflexivity.
    - intros j y Hj Hlt ->. rewrite lookup_app_l in Hj by exact Hlt.
      apply Hout. eapply list_elem_of_lookup_2, Hj. }
  rewrite Hfind. reflexivity.
Qed.

Lemma size_list_to_set_length (l : list string) :
  (size (list_to_set l : gset string) <= length l)%nat.
Proof.
  induction l as [| x l IH].
  - rewrite list_to_set_nil, size_empty. simpl. lia.
  - rewrite list_to_set_cons, size_union_alt, size_singleton. simpl length.
    assert (Hsub : list_to_set l ∖ {[x]} ⊆ (list_to_set l : gset string))
      by (intros y Hy; apply elem_of_difference in Hy; tauto).
    apply subseteq_size in Hsub. lia.
Qed.

End Favourites.

(** X16. Toggling a favourite on a list without duplicates flips whether
    that resource is a favourite, leaves every other resource as it was and
    keeps the list free of duplicates; the view history is not touched, and
    toggling a resource that was not a favourite twice gives back the
    original list. *)
Theorem X16_toggle_favourite_flips_membership
    (wanted : string) (m : ResourcesManager.manager) :
  NoDup (ResourcesManager.favoriteResources m) ->
  let m' := ResourcesManager.toggleFavorite wanted m in
  NoDup (ResourcesManager.favoriteResources m') /\
  (wanted ∈ ResourcesManager.favoriteResources m'
   <-> wanted ∉ ResourcesManager.favoriteResources m) /\
  (forall other, other <> wanted ->
     (other ∈ ResourcesManager.favoriteResources m'
      <-> other ∈ ResourcesManager.favoriteResources m)) /\
  ResourcesManager.resourceHistory m' = ResourcesManager.resourceHistory m /\
  (wanted ∉ ResourcesManager.favoriteResources m ->
   ResourcesManager.favoriteResources (ResourcesManager.toggleFavorite wanted m')
   = ResourcesManager.favoriteResources m).
Proof.
  intros Hnodup. cbv zeta. unfold ResourcesManager.toggleFavorite.
  destruct (ResourcesManager.indexOf wanted (ResourcesManager.favoriteResources m))
    as [i |] eqn:Hindex;
    cbn [ResourcesManager.favoriteResources ResourcesManager.resourceHistory].
  - apply indexOf_Some in Hindex as [Hsplit Hbefore].
    rewrite delete_take_drop.
    set (before := take i (ResourcesManager.favoriteResources m)) in *.
    set (after := drop (S i) (ResourcesManager.favoriteResources m)) in *.
    rewrite Hsplit in Hnodup. rewrite Hsplit.
    apply NoDup_app in Hnodup as (Hb & Hdisj & Ha).
    apply NoDup_cons in Ha as [Hafter Ha].
    split; [| split; [| split; [| split]]].
    + apply NoDup_app. split; [exact Hb |]. split; [| exact Ha].
      intros x Hx Hx'. apply (Hdisj x Hx). apply elem_of_cons. auto.
    + rewrite !elem_of_app, elem_of_cons. split.
      * intros [H | H]; contradiction.
      * intros H. exfalso. apply H. auto.
    + intros other Hother. rewrite !elem_of_app, elem_of_cons. tauto.
    + reflexivity.
    + intros Hout. exfalso. apply Hout. rewrite elem_of_app, elem_of_cons. auto.
  - pose proof (indexOf_None _ _ Hindex) as Hout.
    split; [| split; [| split; [| split]]].
    + apply NoDup_app. split; [exact Hnodup |]. split; [| apply NoDup_singleton].
      intros x Hx Hx'. apply list_elem_of_singleton in Hx'. congruence.
    + rewrite elem_of_app, list_elem_of_singleton. tauto.
    + intros other Hother. rewrite elem_of_app, list_elem_of_singleton. tauto.
    + reflexivity.
    + intros _. rewrite (indexOf_last _ _ Hout).
      cbn [ResourcesManager.favoriteResources].
      rewrite delete_take_drop, take_app_length.
      rewrite drop_app_ge by lia.
      replace (S (length (ResourcesManager.favoriteResources m))
               - length (ResourcesManager.favoriteResources m))%nat with 1%nat by lia.
      simpl. apply app_nil_r.
Qed.

(** Marking a first favourite. *)
Lemma X16_toggle_favourite_flips_membership_witness :
  NoDup (ResourcesManager.favoriteResources
           {| ResourcesManager.favoriteResources := ["breathing-guide"];
              ResourcesManager.resourceHistory := [] |}) /\
  NoDup (ResourcesManager.favoriteResources
           (ResourcesManager.toggleFavorite "sleep-tips"
              {| ResourcesManager.favoriteResources := ["breathing-guide"];
                 ResourcesManager.resourceHistory := [] |})).
Proof.
  assert (H : NoDup (ResourcesManager.favoriteResources
                       {| ResourcesManager.favoriteResources := ["breathing-guide"];
                          ResourcesManager.resourceHistory := [] |}))
    by apply NoDup_singleton.
  split; [exact H |].
  exact (proj1 (X16_toggle_favourite_flips_membership "sleep-tips" _ H)).
Defined.

(** X17. Tracking a view appends it to the history and keeps the newest
    hundred: the new view is always the last entry, the history is never
    longer than 100 afterwards (however long it was when loaded), what is
    kept is the end of the old history in its order, and the number of
    distinct resources viewed is between 1 and 100. *)
Theorem X17_view_history_keeps_the_newest_hundred
    (now : Z) (wanted : string) (m : ResourcesManager.manager) :
  let m' := ResourcesManager.trackResourceView now wanted m in
  let viewData := {| ResourcesManager.resourceId := wanted;
                     ResourcesManager.viewedAt := now;
                     ResourcesManager.viewType := "view" |} in
  length (ResourcesManager.resourceHistory m')
    = Nat.min 100 (S (length (ResourcesManager.resourceHistory m))) /\
  last (ResourcesManager.resourceHistory m') = Some viewData /\
  ResourcesManager.resourceHistory m'
    `suffix_of` (ResourcesManager.resourceHistory m ++ [viewData]) /\
  (1 <= ResourcesManager.viewedCount m' <= 100)%nat /\
  ResourcesManager.favoriteResources m' = ResourcesManager.favoriteResources m.
Proof.
  cbv zeta. unfold ResourcesManager.viewedCount, ResourcesManager.trackResourceView. simpl.
  set (viewData := {| ResourcesManager.resourceId := wanted;
                      ResourcesManager.viewedAt := now;
                      ResourcesManager.viewType := "view" |}).
  set (pushed := ResourcesManager.resourceHistory m ++ [viewData]).
  assert (Hlen : length pushed = S (length (ResourcesManager.resourceHistory m)))
    by (unfold pushed; rewrite length_app; simpl; lia).
  set (kept := if (100 <? length pushed)%nat then drop (length pushed - 100) pushed else pushed).
  assert (Hsuffix : kept `suffix_of` pushed).
  { unfold kept. destruct (100 <? length pushed)%nat; [apply suffix_drop | reflexivity]. }
  assert (Hkept : length kept = Nat.min 100 (length pushed)).
  { unfold kept. destruct (Nat.ltb_spec 100 (length pushed)).
    - rewrite length_drop. lia.
    - lia. }
  assert (Hp : last pushed = Some viewData) by (unfold pushed; apply last_snoc).
  clearbody kept pushed.
  assert (Hlast : last kept = Some viewData).
  { destruct Hsuffix as [dropped Hsplit]. rewrite Hsplit in Hp.
    destruct kept as [| x kept']; [cbn [length] in Hkept; lia |].
    rewrite last_app_cons in Hp. exact Hp. }
  split; [rewrite Hkept, Hlen; reflexivity |].
  split; [exact Hlast |]. split; [exact Hsuffix |]. split; [| reflexivity].
  split.
  - assert (Hin : wanted ∈ (list_to_set (map ResourcesManager.resourceId kept) : gset string)).
    { apply elem_of_list_to_set.
      change (@map ResourcesManager.view string) with (@fmap list _ ResourcesManager.view string).
      apply list_elem_of_fmap. exists viewData. split; [reflexivity |].
      apply last_Some_elem_of. exact Hlast. }
    destruct (decide (size (list_to_set (map ResourcesManager.resourceId kept) : gset string)
                      = 0%nat)) as [H0 | H0]; [| lia].
    apply size_empty_inv in H0. rewrite H0 in Hin. exfalso. exact (not_elem_of_empty _ Hin).
  - etransitivity; [apply size_list_to_set_length |]. rewrite length_map, Hkept. lia.
Qed.

Section Priorities.
Import ResourcesManager.
Variable localeCompare : string -> string -> Z.

Lemma compareResources_keep a b :
  compareResources localeCompare a b <= 0 -> highBefore a b.
Proof.
  unfold compareResources, highBefore. intros Hle Hb.
  destruct (isHigh a); [reflexivity |]. rewrite Hb in Hle. simpl in Hle. lia.
Qed.

Lemma compareResources_swap a b :
  0 < compareResources localeCompare a b -> highBefore b a.
Proof.
  unfold compareResources, highBefore. intros Hgt Ha.
  destruct (isHigh b); [reflexivity |]. rewrite Ha in Hgt. simpl in Hgt. lia.
Qed.

Lemma insertSorted_highBefore x l :
  StronglySorted highBefore l ->
  StronglySorted highBefore (insertSorted (compareResources localeCompare) x l).
Proof.
  induction 1 as [| y rest Hrest IH Hy]; simpl.
  - repeat constructor.
  - destruct (Z.leb_spec (compareResources localeCompare x y) 0) as [Hle | Hgt].
    + pose proof (compareResources_keep _ _ Hle) as Hxy.
      constructor; [constructor; assumption |].
      constructor; [exact Hxy |].
      eapply Forall_impl; [exact Hy |]. unfold highBefore in *. auto.
    + constructor; [exact IH |].
      rewrite insertSorted_Permutation. constructor; [| exact Hy].
      apply compareResources_swap, Hgt.
Qed.

Lemma sort_highBefore l :
  StronglySorted highBefore (sort (compareResources localeCompare) l).
Proof.
  induction l as [| x rest IH]; [constructor |].
  simpl. apply insertSorted_highBefore, IH.
Qed.

End Priorities.

(** X25. The resources listed are exactly the stored ones of the chosen
    category that match the search (all of them under the filter [all] with
    no search text), each once, with every resource of high priority before
    every other one, whatever the order of the titles.  The stored list keeps
    the same resources; it is left as it was when a filter or a search made
    a new list, and otherwise it is itself put into the listed order. *)
Theorem X25_listed_resources_high_priority_first
    (toLowerCase trim : string -> string) (includes : string -> string -> bool)
    (localeCompare : string -> string -> Z)
    (currentFilter : string) (searchValue : option string)
    (resources : list ResourcesManager.resource) :
  let result := ResourcesManager.getFilteredResources toLowerCase trim includes localeCompare
                  currentFilter searchValue resources in
  let chosen := ResourcesManager.selection toLowerCase includes currentFilter
                  (ResourcesManager.searchQueryOf toLowerCase trim searchValue) resources in
  fst result ≡ₚ default resources chosen /\
  StronglySorted ResourcesManager.highBefore (fst result) /\
  (forall r, r ∈ fst result -> r ∈ resources) /\
  snd result ≡ₚ resources /\
  (chosen = None -> snd result = fst result) /\
  (chosen <> None -> snd result = resources).
Proof.
  cbv zeta. unfold ResourcesManager.getFilteredResources.
  set (query := ResourcesManager.searchQueryOf toLowerCase trim searchValue).
  assert (Hsub : forall chosen,
             ResourcesManager.selection toLowerCase includes currentFilter query resources
             = Some chosen -> forall r, r ∈ chosen -> r ∈ resources).
  { unfold ResourcesManager.selection. intros chosen Hsel r Hr.
    destruct (decide (currentFilter = "all")); destruct query; simpl in Hsel;
      try discriminate Hsel; injection Hsel as <-;
      repeat (apply list_elem_of_filter in Hr as [_ Hr]); exact Hr. }
  destruct (ResourcesManager.selection toLowerCase includes currentFilter query resources)
    as [chosen |] eqn:Hsel; simpl.
  - split; [apply sort_Permutation |]. split; [apply sort_highBefore |].
    split; [| split; [reflexivity | split; [discriminate | reflexivity]]].
    intros r Hr. rewrite sort_Permutation in Hr. exact (Hsub chosen eq_refl r Hr).
  - split; [apply sort_Permutation |]. split; [apply sort_highBefore |].
    split; [| split; [apply sort_Permutation | split; [reflexivity | congruence]]].
    intros r Hr. rewrite sort_Permutation in Hr. exact Hr.
Qed.

(** Two resources listed under the filter [all] with no search box. *)
Lemma X25_listed_resources_high_priority_first_witness :
  ResourcesManager.selection (fun s => s) (fun _ _ => true) "all"
    (ResourcesManager.searchQueryOf (fun s => s) (fun s => s) None)
    [ {| ResourcesManager.id := "a"; ResourcesManager.title := "Articles";
         ResourcesManager.description := "Reading"; ResourcesManager.tags := None;
         ResourcesManager.resourceCategory := "articles";
         ResourcesManager.priority := "medium" |};
      {| ResourcesManager.id := "c"; ResourcesManager.title := "Crisis lines";
         ResourcesManager.description := "Help now"; ResourcesManager.tags := Some ["help"];
         ResourcesManager.resourceCategory := "crisis";
         ResourcesManager.priority := "high" |} ] = None /\
  snd (ResourcesManager.getFilteredResources (fun s => s) (fun s => s) (fun _ _ => true)
         (fun _ _ => 0) "all" None
         [ {| ResourcesManager.id := "a"; ResourcesManager.title := "Articles";
              ResourcesManager.description := "Reading"; ResourcesManager.tags := None;
              ResourcesManager.resourceCategory := "articles";
              ResourcesManager.priority := "medium" |};
           {| ResourcesManager.id := "c"; ResourcesManager.title := "Crisis lines";
              ResourcesManager.description := "Help now";
              ResourcesManager.tags := Some ["help"];
              ResourcesManager.resourceCategory := "crisis";
              ResourcesManager.priority := "high" |} ])
  = fst (ResourcesManager.getFilteredResources (fun s => s) (fun s => s) (fun _ _ => true)
           (fun _ _ => 0) "all" None
           [ {| ResourcesManager.id := "a"; ResourcesManager.title := "Articles";
                ResourcesManager.description := "Reading"; ResourcesManager.tags := None;
                ResourcesManager.resourceCategory := "articles";
                ResourcesManager.priority := "medium" |};
             {| ResourcesManager.id := "c"; ResourcesManager.title := "Crisis lines";
                ResourcesManager.description := "Help now";
                ResourcesManager.tags := Some ["help"];
                ResourcesManager.resourceCategory := "crisis";
                ResourcesManager.priority := "high" |} ]).
Proof.
  split; [reflexivity |].
  exact (proj1 (proj2 (proj2 (proj2 (proj2
           (X25_listed_resources_high_priority_first (fun s => s) (fun s => s)
              (fun _ _ => true) (fun _ _ => 0) "all" None _)))))
           eq_refl).
Defined.

(** ** The reward preview *)

Section SortedDates.
Import RewardPreview.
Variable dateStringLeb : Z -> Z -> bool.

Lemma insertDate_elem d x sorted :
  x ∈ insertDate dateStringLeb d sorted <-> x = d \/ x ∈ sorted.
Proof.
  induction sorted as [| y rest IH]; simpl.
  - rewrite list_elem_of_singleton. split; [auto | intros [H | H]; [exact H | inversion H]].
  - destruct (dateStringLeb d y).
    + rewrite elem_of_cons. tauto.
    + rewrite !elem_of_cons, IH. tauto.
Qed.

Lemma insertDate_length d sorted :
  length (insertDate dateStringLeb d sorted) = S (length sorted).
Proof.
  induction sorted as [| y rest IH]; simpl; [reflexivity |].
  destruct (dateStringLeb d y); simpl; [reflexivity | rewrite IH; reflexivity].
Qed.

Lemma sortDates_elem x l : x ∈ sortDates dateStringLeb l <-> x ∈ l.
Proof.
  induction l as [| y rest IH]; simpl; [tauto |].
  rewrite insertDate_elem, elem_of_cons, IH. tauto.
Qed.

Lemma sortDates_length l : length (sortDates dateStringLeb l) = length l.
Proof.
  induction l as [| y rest IH]; simpl; [reflexivity |].
  rewrite insertDate_length, IH. reflexivity.
Qed.

End SortedDates.

Section Runs.
Import RewardPreview.

Lemma uniqueFrom_elem seen x l : x ∈ uniqueFrom seen l -> x ∈ l.
Proof.
  revert seen. induction l as [| y rest IH]; intros seen; simpl; [tauto |].
  destruct (decide (y ∈ seen)).
  - intros H. apply elem_of_cons. right. exact (IH _ H).
  - rewrite !elem_of_cons. intros [H | H]; [auto | right; exact (IH _ H)].
Qed.

Lemma uniqueFrom_length seen l : (length (uniqueFrom seen l) <= length l)%nat.
Proof.
  revert seen. induction l as [| y rest IH]; intros seen; simpl; [lia |].
  destruct (decide (y ∈ seen)); simpl.
  - specialize (IH seen). lia.
  - specialize (IH ({[y]} ∪ seen)). lia.
Qed.

Lemma uniqueFrom_nonempty seen x l :
  x ∈ l -> x ∉ seen -> uniqueFrom seen l <> [].
Proof.
  revert seen. induction l as [| y rest IH]; intros seen Hin Hout; [inversion Hin |].
  simpl. destruct (decide (y ∈ seen)) as [Hy | Hy]; [| discriminate].
  apply IH; [| exact Hout].
  apply elem_of_cons in Hin as [-> | Hin]; [contradiction | exact Hin].
Qed.

Lemma runOfDays_one days d : d ∈ days -> runOfDays days d 1.
Proof.
  intros Hd i Hi. replace i with 0%nat by lia. rewrite Z.add_0_r. exact Hd.
Qed.

Lemma runOfDays_extend days start len next :
  runOfDays days start len -> next = start + Z.of_nat len -> next ∈ days ->
  runOfDays days start (S len).
Proof.
  intros Hrun -> Hnext i Hi.
  destruct (decide (i = len)) as [-> | Hne]; [exact Hnext |].
  apply Hrun. lia.
Qed.

(** The loop keeps two runs of days: the current one, which ends in the
    date it looked at last, and the longest so far. *)
Lemma consecutiveLoop_run days prev rest consecutive maxConsecutive :
  (forall x, x ∈ rest -> x ∈ days) ->
  runOfDays days (prev - Z.of_nat consecutive + 1) consecutive ->
  (exists d, runOfDays days d maxConsecutive) ->
  exists d, runOfDays days d (consecutiveLoop prev rest consecutive maxConsecutive).
Proof.
  revert prev consecutive maxConsecutive.
  induction rest as [| curr rest IH]; intros prev consecutive maxConsecutive Hin Hrun Hmax;
    simpl; [exact Hmax |].
  assert (Hcurr : curr ∈ days) by (apply Hin, elem_of_cons; auto).
  assert (Hrest : forall x, x ∈ rest -> x ∈ days)
    by (intros x Hx; apply Hin, elem_of_cons; auto).
  destruct (Z.eqb_spec (curr - prev) 1) as [Hdiff | Hdiff].
  - assert (Hlonger : runOfDays days (curr - Z.of_nat (S consecutive) + 1) (S consecutive)).
    { apply (runOfDays_extend _ _ _ curr); [| lia | exact Hcurr].
      replace (curr - Z.of_nat (S consecutive) + 1)
        with (prev - Z.of_nat consecutive + 1) by lia.
      exact Hrun. }
    apply IH; [exact Hrest | exact Hlonger |].
    destruct (Nat.max_spec maxConsecutive (S consecutive)) as [[_ ->] | [_ ->]];
      [eexists; exact Hlonger | exact Hmax].
  - apply IH; [exact Hrest | | exact Hmax].
    replace (curr - Z.of_nat 1 + 1) with curr by lia.
    apply runOfDays_one, Hcurr.
Qed.

Lemma consecutiveLoop_bounds prev rest consecutive maxConsecutive :
  (consecutive <= maxConsecutive)%nat ->
  (maxConsecutive <= consecutiveLoop prev rest consecutive maxConsecutive
   <= Nat.max maxConsecutive (consecutive + length rest))%nat.
Proof.
  revert prev consecutive maxConsecutive.
  induction rest as [| curr rest IH]; intros prev consecutive maxConsecutive Hle; simpl;
    [lia |].
  destruct (curr - prev =? 1).
  - specialize (IH curr (S consecutive) (Nat.max maxConsecutive (S consecutive))
                  ltac:(lia)). lia.
  - destruct (decide (maxConsecutive = 0%nat)) as [-> | Hpos].
    + assert (consecutive = 0%nat) as -> by lia.
      pose proof (IH curr 1%nat 1%nat ltac:(lia)) as H1.
      clear IH.
      assert (Hmono : forall r p c m1 m2, (m1 <= m2)%nat ->
                 (consecutiveLoop p r c m1 <= consecutiveLoop p r c m2)%nat).
      { clear. induction r as [| x r IHr]; intros p c m1 m2 Hm; simpl; [exact Hm |].
        destruct (x - p =? 1); apply IHr; lia. }
      pose proof (Hmono rest curr 1%nat 0%nat 1%nat ltac:(lia)) as H01.
      lia.
    + specialize (IH curr 1%nat maxConsecutive ltac:(lia)). lia.
Qed.

End Runs.

(** X18. Whatever order the date texts sort in, the consecutive-day count of
    a non-empty list of entries is at least 1 and at most the number of
    entries, and it is the length of a run of calendar days each of which
    has an entry; for no entries it is 0. *)
Theorem X18_consecutive_days_count_is_a_run_of_days
    (dateStringLeb : Z -> Z -> bool) (es : list RewardPreview.datedEntry) :
  RewardPreview.calculateConsecutiveDays dateStringLeb [] = 0%nat /\
  (es <> [] ->
   let n := RewardPreview.calculateConsecutiveDays dateStringLeb es in
   (1 <= n <= length es)%nat /\
   exists first,
     RewardPreview.runOfDays
       (map (fun e => toDateString (RewardPreview.when e)) es) first n).
Proof.
  split; [reflexivity |].
  intros Hne. cbv zeta. unfold RewardPreview.calculateConsecutiveDays.
  destruct es as [| e es']; [congruence |]. clear Hne.
  set (es := e :: es'). change (length es =? 0)%nat with false. cbv iota.
  set (days := map (fun e => toDateString (RewardPreview.when e)) es).
  set (dates := RewardPreview.sortDates dateStringLeb days).
  assert (Hlen : (length (RewardPreview.uniqueFrom ∅ dates) <= length es)%nat).
  { pose proof (uniqueFrom_length ∅ dates) as Hu.
    unfold dates in Hu at 2. rewrite sortDates_length in Hu.
    unfold days in Hu. rewrite length_map in Hu. exact Hu. }
  assert (Hin : forall x, x ∈ RewardPreview.uniqueFrom ∅ dates -> x ∈ days).
  { intros x Hx. apply uniqueFrom_elem in Hx.
    exact (proj1 (sortDates_elem dateStringLeb x days) Hx). }
  assert (Hnonempty : RewardPreview.uniqueFrom ∅ dates <> []).
  { apply (uniqueFrom_nonempty _ (toDateString (RewardPreview.when e))).
    - unfold dates. apply sortDates_elem. unfold days, es. simpl.
      apply elem_of_cons. auto.
    - apply not_elem_of_empty. }
  destruct (RewardPreview.uniqueFrom ∅ dates) as [| first rest]; [congruence |].
  split.
  - pose proof (consecutiveLoop_bounds first rest 1 1 ltac:(lia)) as Hb.
    clearbody es. cbn [length] in Hlen. lia.
  - apply consecutiveLoop_run.
    + intros x Hx. apply Hin, elem_of_cons. auto.
    + replace (first - Z.of_nat 1 + 1) with first by lia.
      apply runOfDays_one, Hin, elem_of_cons. auto.
    + exists first. apply runOfDays_one, Hin, elem_of_cons. auto.
Qed.

(** Two entries of one day, in chronological order of the texts. *)
Lemma X18_consecutive_days_count_is_a_run_of_days_witness :
  [ {| RewardPreview.when := Sample.noon |};
    {| RewardPreview.when := Sample.noon - msPerDay |} ] <> [] /\
  (1 <= RewardPreview.calculateConsecutiveDays Z.leb
          [ {| RewardPreview.when := Sample.noon |};
            {| RewardPreview.when := Sample.noon - msPerDay |} ] <= 2)%nat.
Proof.
  split; [discriminate |].
  exact (proj1 (proj2 (X18_consecutive_days_count_is_a_run_of_days Z.leb
                         [ {| RewardPreview.when := Sample.noon |};
                           {| RewardPreview.when := Sample.noon - msPerDay |} ])
                  ltac:(discriminate))).
Defined.

Section TwoDays.
Import RewardPreview.
Variable dateStringLeb : Z -> Z -> bool.
Variables a b : Z.
Hypothesis a_first : dateStringLeb a b = true.
Hypothesis b_last : dateStringLeb b a = false.

Lemma insertDate_first i j :
  insertDate dateStringLeb a (replicate i a ++ replicate j b)
  = replicate (S i) a ++ replicate j b.
Proof.
  induction i as [| i IH]; simpl.
  - destruct j as [| j]; simpl; [reflexivity |]. rewrite a_first. reflexivity.
  - destruct (dateStringLeb a a); [reflexivity |]. rewrite IH. reflexivity.
Qed.

Lemma insertDate_last i j :
  insertDate dateStringLeb b (replicate i a ++ replicate j b)
  = replicate i a ++ replicate (S j) b.
Proof.
  induction i as [| i IH]; simpl.
  - induction j as [| j IHj]; simpl; [reflexivity |].
    destruct (dateStringLeb b b); [reflexivity |]. rewrite IHj. reflexivity.
  - rewrite b_last, IH. reflexivity.
Qed.

Lemma sortDates_two l :
  (forall x, x ∈ l -> x = a \/ x = b) ->
  exists i j,
    sortDates dateStringLeb l = replicate i a ++ replicate j b /\
    (a ∈ l -> (0 < i)%nat) /\ (b ∈ l -> (0 < j)%nat).
Proof.
  assert (Hab : a <> b) by (intros ->; rewrite a_first in b_last; discriminate).
  induction l as [| x l IH]; intros Hl.
  - exists 0%nat, 0%nat. split; [reflexivity |]. split; intros H; inversion H.
  - destruct IH as (i & j & Hsorted & Hi & Hj).
    { intros y Hy. apply Hl, elem_of_cons. auto. }
    simpl. rewrite Hsorted.
    destruct (Hl x ltac:(apply elem_of_cons; auto)) as [-> | ->].
    + exists (S i), j. split; [apply insertDate_first |]. split; [lia |].
      intros H. apply elem_of_cons in H as [H | H]; [congruence | auto].
    + exists i, (S j). split; [apply insertDate_last |]. split; [| lia].
      intros H. apply elem_of_cons in H as [H | H]; [congruence | auto].
Qed.

End TwoDays.

Section Distinct.
Import RewardPreview.

Lemma uniqueFrom_seen seen x i rest :
  x ∈ seen -> uniqueFrom seen (replicate i x ++ rest) = uniqueFrom seen rest.
Proof.
  intros Hx. induction i as [| i IH]; simpl; [reflexivity |].
  rewrite decide_True by exact Hx. exact IH.
Qed.

Lemma uniqueFrom_two a b i j :
  a <> b -> (0 < i)%nat -> (0 < j)%nat ->
  uniqueFrom ∅ (replicate i a ++ replicate j b) = [a; b].
Proof.
  intros Hab Hi Hj. destruct i as [| i]; [lia |]. destruct j as [| j]; [lia |].
  simpl. rewrite decide_False by apply not_elem_of_empty.
  rewrite uniqueFrom_seen by (apply elem_of_union_l, elem_of_singleton; reflexivity).
  simpl. rewrite decide_False.
  2: { intros H. apply elem_of_union in H as [H | H].
       - apply elem_of_singleton in H. congruence.
       - exact (not_elem_of_empty _ H). }
  replace (replicate j b) with (replicate j b ++ []) by apply app_nil_r.
  rewrite uniqueFrom_seen by (apply elem_of_union_l, elem_of_singleton; reflexivity).
  reflexivity.
Qed.

Lemma weekday_next d : weekday (d + 1) = (weekday d + 1) mod 7.
Proof.
  unfold weekday. rewrite Z.add_mod_idemp_l by lia. f_equal. lia.
Qed.

Lemma weekday_range d : 0 <= weekday d < 7.
Proof. unfold weekday. apply Z.mod_pos_bound. lia. Qed.

End Distinct.

(** X19. The dates are sorted as texts, and a date text starts with the
    name of its week day.  For entries on two neighbouring days the
    consecutive-day count is therefore 2 only if the first day is a Monday,
    Tuesday, Friday or Saturday; it is 1 if the first day is a Sunday,
    Wednesday or Thursday, whose name sorts after that of the next day. *)
Theorem X19_neighbouring_days_counted_by_day_name
    (dateStringLeb : Z -> Z -> bool) (es : list RewardPreview.datedEntry) (d : Z) :
  RewardPreview.comparesDayNamesFirst dateStringLeb ->
  (forall e, e ∈ es ->
     toDateString (RewardPreview.when e) = d \/ toDateString (RewardPreview.when e) = d + 1) ->
  d ∈ map (fun e => toDateString (RewardPreview.when e)) es ->
  d + 1 ∈ map (fun e => toDateString (RewardPreview.when e)) es ->
  (RewardPreview.weekday d ∈ [1; 2; 5; 6] ->
   RewardPreview.calculateConsecutiveDays dateStringLeb es = 2%nat) /\
  (RewardPreview.weekday d ∈ [0; 3; 4] ->
   RewardPreview.calculateConsecutiveDays dateStringLeb es = 1%nat).
Proof.
  intros Hleb Hdays Hd Hd1.
  set (days := map (fun e => toDateString (RewardPreview.when e)) es) in *.
  assert (Hall : forall x, x ∈ days -> x = d \/ x = d + 1).
  { intros x Hx. unfold days in Hx.
    change (@map RewardPreview.datedEntry Z) with (@fmap list _ RewardPreview.datedEntry Z) in Hx.
    apply list_elem_of_fmap in Hx as (e & -> & He). exact (Hdays e He). }
  assert (Hcount : forall a b, a ∈ days -> b ∈ days ->
            (forall x, x ∈ days -> x = a \/ x = b) ->
            dateStringLeb a b = true -> dateStringLeb b a = false ->
            RewardPreview.calculateConsecutiveDays dateStringLeb es
            = if b - a =? 1 then 2%nat else 1%nat).
  { intros a b Ha Hb Hab Hfirst Hlast.
    unfold RewardPreview.calculateConsecutiveDays. fold days.
    destruct es as [| e es']; [inversion Ha |].
    change (length (e :: es') =? 0)%nat with false. cbv iota.
    destruct (sortDates_two dateStringLeb a b Hfirst Hlast days Hab)
      as (i & j & -> & Hi & Hj).
    rewrite uniqueFrom_two; [| | exact (Hi Ha) | exact (Hj Hb)].
    - simpl. destruct (b - a =? 1); reflexivity.
    - intros ->. rewrite Hfirst in Hlast. discriminate. }
  pose proof (weekday_next d) as Hnext. pose proof (weekday_range d) as Hrange.
  assert (Hname : forall k k', RewardPreview.weekday d = k ->
            RewardPreview.weekday (d + 1) = k' ->
            RewardPreview.weekdayName d
            = nth (Z.to_nat k) RewardPreview.dayNames EmptyString /\
            RewardPreview.weekdayName (d + 1)
            = nth (Z.to_nat k') RewardPreview.dayNames EmptyString)
    by (intros k k' <- <-; split; reflexivity).
  assert (Hforward : String.leb (RewardPreview.weekdayName d)
                       (RewardPreview.weekdayName (d + 1)) = true ->
                     RewardPreview.weekdayName d <> RewardPreview.weekdayName (d + 1) ->
                     RewardPreview.calculateConsecutiveDays dateStringLeb es = 2%nat).
  { intros Hle Hne. rewrite (Hcount d (d + 1) Hd Hd1 Hall).
    - replace (d + 1 - d) with 1 by lia. reflexivity.
    - rewrite Hleb by exact Hne. exact Hle.
    - rewrite Hleb by congruence.
      destruct (String.leb (RewardPreview.weekdayName (d + 1))
                  (RewardPreview.weekdayName d)) eqn:Hback; [| reflexivity].
      exfalso. apply Hne. apply String.leb_antisym; assumption. }
  assert (Hbackward : String.leb (RewardPreview.weekdayName d)
                        (RewardPreview.weekdayName (d + 1)) = false ->
                      RewardPreview.calculateConsecutiveDays dateStringLeb es = 1%nat).
  { intros Hle.
    assert (Hne : RewardPreview.weekdayName (d + 1) <> RewardPreview.weekdayName d).
    { intros Heq. rewrite Heq in Hle.
      destruct (String.leb_total (RewardPreview.weekdayName d) (RewardPreview.weekdayName d));
        congruence. }
    rewrite (Hcount (d + 1) d Hd1 Hd).
    - replace (d - (d + 1)) with (-1) by lia. reflexivity.
    - intros x Hx. destruct (Hall x Hx); auto.
    - rewrite Hleb by exact Hne.
      destruct (String.leb_total (RewardPreview.weekdayName d)
                  (RewardPreview.weekdayName (d + 1))) as [H | H]; [congruence | exact H].
    - rewrite Hleb by congruence. exact Hle. }
  split; intros Hday.
  - repeat (apply elem_of_cons in Hday as [Hday | Hday]); try (inversion Hday; fail);
      rewrite Hday in Hnext;
      destruct (Hname _ _ Hday Hnext) as [Hn Hn1];
      apply Hforward; rewrite Hn, Hn1; vm_compute; congruence.
  - repeat (apply elem_of_cons in Hday as [Hday | Hday]); try (inversion Hday; fail);
      rewrite Hday in Hnext;
      destruct (Hname _ _ Hday Hnext) as [Hn Hn1];
      apply Hbackward; rewrite Hn, Hn1; vm_compute; reflexivity.
Qed.

(** Entries of a Thursday and the Friday after it count as one day. *)
Lemma X19_neighbouring_days_counted_by_day_name_witness :
  RewardPreview.comparesDayNamesFirst Sample.byDayName /\
  RewardPreview.weekday 0 ∈ [0; 3; 4] /\
  RewardPreview.calculateConsecutiveDays Sample.byDayName Sample.thursdayFriday = 1%nat.
Proof.
  assert (Horder : RewardPreview.comparesDayNamesFirst Sample.byDayName).
  { intros d1 d2 Hne. unfold Sample.byDayName. rewrite decide_False by exact Hne.
    reflexivity. }
  assert (Hday : RewardPreview.weekday 0 ∈ [0; 3; 4]).
  { change (RewardPreview.weekday 0) with 4.
    apply elem_of_cons. right. apply elem_of_cons. right. apply elem_of_cons. left.
    reflexivity. }
  split; [exact Horder |]. split; [exact Hday |].
  apply (proj2 (X19_neighbouring_days_counted_by_day_name Sample.byDayName
                  Sample.thursdayFriday 0 Horder
                  ltac:(intros e He; unfold Sample.thursdayFriday in He;
                        repeat (apply elem_of_cons in He as [-> | He]);
                        [right; reflexivity | left; reflexivity | left; reflexivity
                        | inversion He])
                  ltac:(apply elem_of_cons; right; apply elem_of_cons; left; reflexivity)
                  ltac:(apply elem_of_cons; left; reflexivity))).
  exact Hday.
Defined.

Section Badges.
Import RewardPreview.

Lemma updateProgress_unmapped feature badgeId current total page :
  mapped badgeId badgeMapping = None ->
  updateProgress feature badgeId current total page = page.
Proof.
  intros Hnone. unfold updateProgress, shouldUpdateBadge. rewrite Hnone.
  induction page as [| item page IH]; simpl; [reflexivity |].
  rewrite andb_false_r. f_equal. exact IH.
Qed.

End Badges.

(** X20. An update of the preview changes only badges of the named feature
    whose name is the one the badge id is mapped to; every other badge, and
    the number and order of the badges, stay as they were.  A badge id the
    mapping does not have changes nothing at all: this is so for the id
    [mindful_writer] that saving a journal entry passes and for the id
    [wellness_warrior] that completing an exercise passes. *)
Theorem X20_preview_update_touches_only_the_mapped_badge
    (feature badgeId : string) (current total : Z) (page : list RewardPreview.badgeItem) :
  length (RewardPreview.updateProgress feature badgeId current total page) = length page /\
  (forall i item,
     page !! i = Some item ->
     RewardPreview.panel item <> feature
     \/ RewardPreview.mapped badgeId RewardPreview.badgeMapping
        <> Some (RewardPreview.name item) ->
     RewardPreview.updateProgress feature badgeId current total page !! i = Some item) /\
  (forall i item,
     RewardPreview.updateProgress feature badgeId current total page !! i = Some item ->
     exists old, page !! i = Some old /\
       RewardPreview.panel item = RewardPreview.panel old /\
       RewardPreview.name item = RewardPreview.name old) /\
  (RewardPreview.mapped badgeId RewardPreview.badgeMapping = None ->
   RewardPreview.updateProgress feature badgeId current total page = page) /\
  RewardPreview.updateProgress "journal" "mindful_writer" current total page = page /\
  RewardPreview.updateProgress "exercise" "wellness_warrior" current total page = page.
Proof.
  split; [apply length_map |].
  split; [| split; [| split; [| split]]].
  - intros i item Hi Hother. unfold RewardPreview.updateProgress.
    change (@map RewardPreview.badgeItem RewardPreview.badgeItem)
      with (@fmap list _ RewardPreview.badgeItem RewardPreview.badgeItem).
    rewrite list_lookup_fmap, Hi. simpl. f_equal.
    destruct Hother as [Hpanel | Hname].
    + rewrite bool_decide_eq_false_2 by exact Hpanel. reflexivity.
    + unfold RewardPreview.shouldUpdateBadge.
      destruct (RewardPreview.mapped badgeId RewardPreview.badgeMapping) as [badge |];
        [| rewrite andb_false_r; reflexivity].
      rewrite (bool_decide_eq_false_2 (badge = RewardPreview.name item)) by congruence.
      rewrite andb_false_r. reflexivity.
  - intros i item Hi. unfold RewardPreview.updateProgress in Hi.
    change (@map RewardPreview.badgeItem RewardPreview.badgeItem)
      with (@fmap list _ RewardPreview.badgeItem RewardPreview.badgeItem) in Hi.
    rewrite list_lookup_fmap in Hi.
    destruct (page !! i) as [old |]; [| discriminate]. simpl in Hi.
    exists old. split; [reflexivity |]. injection Hi as <-.
    destruct (_ && _); split; reflexivity.
  - apply updateProgress_unmapped.
  - apply updateProgress_unmapped. reflexivity.
  - apply updateProgress_unmapped. reflexivity.
Qed.

(** A badge of the journal panel, updated under an id the mapping does not
    have. *)
Lemma X20_preview_update_touches_only_the_mapped_badge_witness :
  RewardPreview.mapped "nothing" RewardPreview.badgeMapping = None /\
  RewardPreview.updateProgress "journal" "nothing" 3 10
    [ {| RewardPreview.panel := "journal"; RewardPreview.name := "First Steps";
         RewardPreview.progress := RewardPreview.Initial "0/1";
         RewardPreview.highlighted := false; RewardPreview.pulsing := false;
         RewardPreview.completedStyle := false |} ]
  = [ {| RewardPreview.panel := "journal"; RewardPreview.name := "First Steps";
         RewardPreview.progress := RewardPreview.Initial "0/1";
         RewardPreview.highlighted := false; RewardPreview.pulsing := false;
         RewardPreview.completedStyle := false |} ].
Proof.
  split; [reflexivity |].
  exact (proj1 (proj2 (proj2 (proj2 (X20_preview_update_touches_only_the_mapped_badge
                                       "journal" "nothing" 3 10 _))))
           eq_refl).
Defined.

(** ** The chat client: replies of the backend *)

(** X21. For a response in 200-299 the status plays no part: a body that
    cannot be decoded gives the connection message, a decoded body with a
    non-empty message gives that message unchanged, and otherwise the crisis
    message when a crisis was detected and the rephrase message when not.
    Whatever the network does, the reply is never the empty text. *)
Theorem X21_successful_replies_and_no_empty_reply (network : nat -> Chat.fetchResult) :
  exists reply : string,
    fst (Chat.getChillBuddyResponse network) = Return reply /\
    reply <> EmptyString /\
    forall r, network 0%nat = Chat.Resolved r -> Chat.ok r = true ->
      match Chat.json r with
      | Throw _ => reply = Chat.connectionMessage
      | Return None => reply = Chat.rephraseMessage
      | Return (Some d) =>
          match Chat.message d with
          | Some (String a m) => reply = String a m
          | _ => reply = if Chat.crisis_detected d then Chat.crisisMessage
                         else Chat.rephraseMessage
          end
      end.
Proof.
  unfold Chat.getChillBuddyResponse. simpl.
  destruct (network 0%nat) as [| r]; simpl.
  - eexists. split; [reflexivity |]. split; [discriminate |]. intros r Hr. discriminate Hr.
  - destruct (Chat.ok r) eqn:Hok; simpl.
    + destruct (Chat.json r) as [[d |] | e] eqn:Hjson; simpl.
      * destruct (Chat.message d) as [[| a m] |] eqn:Hm; simpl.
        -- destruct (Chat.crisis_detected d) eqn:Hc; eexists;
             (split; [reflexivity |]); (split; [discriminate |]);
             intros r' [= <-] _; rewrite Hjson, Hm, Hc; reflexivity.
        -- eexists. split; [reflexivity |]. split; [discriminate |].
           intros r' [= <-] _. rewrite Hjson, Hm. reflexivity.
        -- destruct (Chat.crisis_detected d) eqn:Hc; eexists;
             (split; [reflexivity |]); (split; [discriminate |]);
             intros r' [= <-] _; rewrite Hjson, Hm, Hc; reflexivity.
      * eexists. split; [reflexivity |]. split; [discriminate |].
        intros r' [= <-] _. rewrite Hjson. reflexivity.
      * eexists. split; [reflexivity |]. split; [discriminate |].
        intros r' [= <-] _. rewrite Hjson. reflexivity.
    + destruct (Chat.text r) as [body | e]; simpl.
      * destruct (Chat.status r =? 401); [| destruct (Chat.status r =? 429);
          [| destruct (500 <=? Chat.status r)]];
          eexists; (split; [reflexivity |]); (split; [discriminate |]);
          intros r' [= <-] Hok'; congruence.
      * eexists. split; [reflexivity |]. split; [discriminate |].
        intros r' [= <-] Hok'. congruence.
Qed.

(** A 200 reply whose body carries a message. *)
Lemma X21_successful_replies_and_no_empty_reply_witness :
  Chat.ok {| Chat.status := 200; Chat.text := Return "";
             Chat.json := Return (Some {| Chat.message := Some "Take a slow breath.";
                                          Chat.crisis_detected := false |}) |} = true /\
  fst (Chat.getChillBuddyResponse
         (fun _ => Chat.Resolved
            {| Chat.status := 200; Chat.text := Return "";
               Chat.json := Return (Some {| Chat.message := Some "Take a slow breath.";
                                            Chat.crisis_detected := false |}) |}))
  = Return "Take a slow breath.".
Proof.
  split; [reflexivity |].
  destruct (X21_successful_replies_and_no_empty_reply
              (fun _ => Chat.Resolved
                 {| Chat.status := 200; Chat.text := Return "";
                    Chat.json := Return (Some {| Chat.message := Some "Take a slow breath.";
                                                 Chat.crisis_detected := false |}) |}))
    as (reply & Hreply & _ & Hok).
  rewrite Hreply. f_equal. exact (Hok _ eq_refl eq_refl).
Defined.

(** ** The exercises *)

Section Durations.
Import ExercisesSystem.

Lemma rem_mod_nonneg seconds : 0 <= seconds -> Z.rem seconds 60 = seconds mod 60.
Proof. intros H. apply Z.rem_mod_nonneg; lia. Qed.

End Durations.

(** X22. For a duration of zero or more seconds the text of
    [formatDuration] reads as exactly that many seconds; it shows only
    seconds below one minute, only minutes for whole minutes, and otherwise
    at least one minute with 1 to 59 seconds. *)
Theorem X22_duration_text_reads_back (seconds : Z) :
  0 <= seconds ->
  ExercisesSystem.secondsShown (ExercisesSystem.formatDuration seconds) = seconds /\
  match ExercisesSystem.formatDuration seconds with
  | ExercisesSystem.SecondsOnly s => s = seconds /\ 0 <= s < 60
  | ExercisesSystem.MinutesOnly m => 1 <= m /\ seconds = m * 60
  | ExercisesSystem.MinutesSeconds m s => 1 <= m /\ 1 <= s <= 59
  end.
Proof.
  intros Hnn. unfold ExercisesSystem.formatDuration. cbv zeta.
  rewrite rem_mod_nonneg by exact Hnn.
  pose proof (Z.div_mod seconds 60 ltac:(lia)) as Hdm.
  pose proof (Z.mod_pos_bound seconds 60 ltac:(lia)) as Hmod.
  assert (Hdiv : 0 <= seconds / 60) by (apply Z.div_pos; lia).
  destruct (Z.eqb_spec (seconds / 60) 0) as [H0 | H0]; simpl.
  - split; [lia |]. split; lia.
  - destruct (Z.eqb_spec (seconds mod 60) 0) as [Hr | Hr]; simpl.
    + split; [lia |]. split; lia.
    + split; [lia |]. split; lia.
Qed.

(** Ninety seconds show as one minute and thirty seconds. *)
Lemma X22_duration_text_reads_back_witness :
  0 <= 90 /\
  ExercisesSystem.secondsShown (ExercisesSystem.formatDuration 90) = 90.
Proof.
  split; [lia |]. exact (proj1 (X22_duration_text_reads_back 90 ltac:(lia))).
Defined.

Section Completions.
Import ExercisesSystem.

Lemma completeExercise_history now s ex :
  currentExercise s = Some ex ->
  exerciseHistory (completeExercise now s)
  = {| id := now; doneExercise := ex; category := currentCategory s;
       duration := totalDuration s - timeRemaining s; completedAt := now |}
    :: take 49 (exerciseHistory s).
Proof.
  intros Hex. unfold completeExercise. rewrite Hex. simpl.
  destruct (Nat.ltb_spec 50 (S (length (exerciseHistory s)))) as [Hlong | Hshort].
  - reflexivity.
  - rewrite take_ge by lia. reflexivity.
Qed.

Lemma completeExercise_category now s :
  currentCategory (completeExercise now s) = currentCategory s.
Proof. unfold completeExercise. destruct (currentExercise s); reflexivity. Qed.

End Completions.

(** X23. After an exercise is completed, the first-exercise achievement is
    announced exactly when the history was empty before, and the category
    achievement exactly when four of the 49 most recent earlier completions
    are of the current category; the counts by category of the statistics
    never add up to more than the total, and the total is at most 50. *)
Theorem X23_exercise_achievements_after_completion
    (now : Z) (s : ExercisesSystem.system) (ex : ExercisesSystem.exercise) :
  ExercisesSystem.currentExercise s = Some ex ->
  let s' := ExercisesSystem.completeExercise now s in
  let earlier :=
    length (filter (fun h => ExercisesSystem.category h = ExercisesSystem.currentCategory s)
              (take 49 (ExercisesSystem.exerciseHistory s))) in
  (ExercisesSystem.FirstExercise ∈ ExercisesSystem.checkAchievements s'
   <-> ExercisesSystem.exerciseHistory s = []) /\
  (ExercisesSystem.CategoryMaster (ExercisesSystem.currentCategory s)
     ∈ ExercisesSystem.checkAchievements s'
   <-> earlier = 4%nat) /\
  (ExercisesSystem.breathing (ExercisesSystem.getCompletionStats s')
   + ExercisesSystem.mindfulness (ExercisesSystem.getCompletionStats s')
   <= ExercisesSystem.total (ExercisesSystem.getCompletionStats s') <= 50)%nat.
Proof.
  intros Hex. cbv zeta.
  unfold ExercisesSystem.checkAchievements, ExercisesSystem.categoryCount,
    ExercisesSystem.getCompletionStats.
  rewrite completeExercise_category, (completeExercise_history now s ex Hex).
  cbn [ExercisesSystem.total ExercisesSystem.breathing ExercisesSystem.mindfulness].
  set (done := {| ExercisesSystem.id := now; ExercisesSystem.doneExercise := ex;
                  ExercisesSystem.category := ExercisesSystem.currentCategory s;
                  ExercisesSystem.duration :=
                    ExercisesSystem.totalDuration s - ExercisesSystem.timeRemaining s;
                  ExercisesSystem.completedAt := now |}).
  rewrite (filter_cons_True (fun h => ExercisesSystem.category h
                                      = ExercisesSystem.currentCategory s))
    by reflexivity.
  cbn [length].
  set (recent := take 49 (ExercisesSystem.exerciseHistory s)).
  set (earlier := length (filter _ recent)).
  assert (Hrecent : (length recent <= 49)%nat)
    by (unfold recent; rewrite length_take; lia).
  split; [| split].
  - destruct (Nat.eqb_spec (S (length recent)) 1) as [H1 | H1].
    + split.
      * intros _. destruct (ExercisesSystem.exerciseHistory s) as [| h rest] eqn:Hh;
          [reflexivity |]. unfold recent in H1. simpl in H1. lia.
      * intros _. apply elem_of_app. left. apply list_elem_of_singleton. reflexivity.
    + split.
      * intros Hin. apply elem_of_app in Hin as [Hin | Hin]; [inversion Hin |].
        destruct (S earlier =? 5)%nat; [| inversion Hin].
        apply list_elem_of_singleton in Hin. discriminate Hin.
      * intros Hnil. exfalso. apply H1. unfold recent. rewrite Hnil. reflexivity.
  - destruct (Nat.eqb_spec (S earlier) 5) as [H5 | H5].
    + split; [lia |]. intros _. apply elem_of_app. right.
      apply list_elem_of_singleton. reflexivity.
    + split; [| lia]. intros Hin. rewrite app_nil_r in Hin.
      destruct (S (length recent) =? 1)%nat; [| inversion Hin].
      apply list_elem_of_singleton in Hin. discriminate Hin.
  - split; [| lia].
    assert (Hsplit : forall l : list ExercisesSystem.completion,
               (length (filter (fun h => ExercisesSystem.category h = "breathing") l)
                + length (filter (fun h => ExercisesSystem.category h = "mindfulness") l)
                <= length l)%nat).
    { induction l as [| h l IH]; [simpl; lia |].
      destruct (decide (ExercisesSystem.category h = "breathing")) as [Hb | Hb].
      - rewrite (filter_cons_True (fun h => ExercisesSystem.category h = "breathing"))
          by exact Hb.
        rewrite (filter_cons_False (fun h => ExercisesSystem.category h = "mindfulness"))
          by (rewrite Hb; discriminate).
        simpl. lia.
      - rewrite (filter_cons_False (fun h => ExercisesSystem.category h = "breathing"))
          by exact Hb.
        destruct (decide (ExercisesSystem.category h = "mindfulness")) as [Hm | Hm].
        + rewrite (filter_cons_True (fun h => ExercisesSystem.category h = "mindfulness"))
            by exact Hm. simpl. lia.
        + rewrite (filter_cons_False (fun h => ExercisesSystem.category h = "mindfulness"))
            by exact Hm. simpl. lia. }
    exact (Hsplit (done :: recent)).
Qed.

(** The running breathing session, completed. *)
Lemma X23_exercise_achievements_after_completion_witness :
  ExercisesSystem.currentExercise Sample.sessionRunning = Some Sample.boxBreathing /\
  (ExercisesSystem.total
     (ExercisesSystem.getCompletionStats
        (ExercisesSystem.completeExercise Sample.noon Sample.sessionRunning)) <= 50)%nat.
Proof.
  split; [reflexivity |].
  exact (proj2 (proj2 (proj2 (X23_exercise_achievements_after_completion
                                Sample.noon Sample.sessionRunning Sample.boxBreathing
                                eq_refl)))).
Defined.

(** ** The journal: achievements *)

Section JournalAchievements.
Import JournalSystem.

Lemma getStreakLoop_dates es1 es2 today streak :
  map date es1 = map date es2 ->
  getStreakLoop es1 today streak = getStreakLoop es2 today streak.
Proof.
  revert es2 streak. induction es1 as [| e1 es1 IH]; intros [| e2 es2] streak Hdates;
    try discriminate Hdates; [reflexivity |].
  simpl in Hdates. injection Hdates as Hd Hrest. simpl. rewrite Hd.
  destruct (_ =? _); [apply IH; exact Hrest | reflexivity].
Qed.

Lemma checkAchievements_dates now j1 j2 :
  map date (entries j1) = map date (entries j2) ->
  checkAchievements now j1 = checkAchievements now j2.
Proof.
  intros Hdates.
  assert (Hlen : length (entries j1) = length (entries j2))
    by (rewrite <- (length_map date (entries j1)), Hdates; apply length_map).
  unfold checkAchievements, getStreak. rewrite Hlen.
  rewrite (getStreakLoop_dates _ _ _ _ Hdates). reflexivity.
Qed.

Lemma dates_insert_same es k e e' :
  es !! k = Some e -> date e' = date e -> map date (<[k := e']> es) = map date es.
Proof.
  intros Hk Hdate.
  change (@map journalEntry Z) with (@fmap list _ journalEntry Z).
  rewrite list_fmap_insert. apply list_insert_id.
  rewrite list_lookup_fmap, Hk. simpl. congruence.
Qed.

Lemma FirstJournal_announced now j :
  FirstJournal ∈ checkAchievements now j <-> length (entries j) = 1%nat.
Proof.
  unfold checkAchievements. rewrite !elem_of_app.
  destruct (Nat.eqb_spec (length (entries j)) 1) as [H1 | H1].
  - split; [auto |]. intros _. left. apply list_elem_of_singleton. reflexivity.
  - split; [| congruence]. intros [H | [H | H]]; [inversion H | |].
    + destruct (bool_decide _); [| inversion H].
      apply list_elem_of_singleton in H. discriminate H.
    + cbv zeta in H. destruct (bool_decide _); [| inversion H].
      apply list_elem_of_singleton in H. discriminate H.
Qed.

Lemma JournalMaster_announced now j count :
  JournalMaster count ∈ checkAchievements now j -> count = length (entries j).
Proof.
  unfold checkAchievements. rewrite !elem_of_app. intros [H | [H | H]].
  - destruct (_ =? _)%nat; [| inversion H].
    apply list_elem_of_singleton in H. discriminate H.
  - destruct (bool_decide _); [| inversion H].
    apply list_elem_of_singleton in H. congruence.
  - cbv zeta in H. destruct (bool_decide _); [| inversion H].
    apply list_elem_of_singleton in H. discriminate H.
Qed.

Lemma saveEntry_new_length now started a text selectedMood j :
  length (entries (snd (saveEntry now (Some (String a text)) selectedMood
                          (startNewEntry started j))))
  = S (length (entries j)).
Proof. reflexivity. Qed.

End JournalAchievements.

(** X24. The achievements depend only on the number of entries and their
    dates.  Saving an entry opened for editing therefore announces once more
    exactly what the journal gave before the edit, and saving a new entry
    announces the first-entry achievement exactly when the journal was
    empty, and a milestone only for the new number of entries. *)
Theorem X24_saving_an_edit_announces_the_same_achievements
    (isSpace : ascii -> bool) (textarea wordCountEl : bool)
    (now later wanted : Z) (text : string) (selectedMood : option Z)
    (j : JournalSystem.journal) (k : nat) (e : JournalSystem.journalEntry) :
  text <> EmptyString ->
  (wanted <> 0 ->
   JournalSystem.findEntry wanted (JournalSystem.entries j) = Some (k, e) ->
   JournalSystem.checkAchievements later
     (snd (JournalSystem.saveEntry now (Some text) selectedMood
             (JournalSystem.editEntry isSpace textarea wordCountEl (Some wanted) j)))
   = JournalSystem.checkAchievements later j) /\
  (forall started,
     let saved := snd (JournalSystem.saveEntry now (Some text) selectedMood
                         (JournalSystem.startNewEntry started j)) in
     (JournalSystem.FirstJournal ∈ JournalSystem.checkAchievements later saved
      <-> JournalSystem.entries j = []) /\
     forall count,
       JournalSystem.JournalMaster count ∈ JournalSystem.checkAchievements later saved ->
       count = S (length (JournalSystem.entries j)) /\
       JournalSystem.points (JournalSystem.JournalMaster count) = 2 * Z.of_nat count).
Proof.
  intros Htext. split.
  - intros Hwanted Hfind. apply checkAchievements_dates.
    pose proof (findEntry_Some _ _ _ _ Hfind) as [Hk Hid].
    unfold JournalSystem.editEntry, JournalSystem.resolveId.
    replace (wanted =? 0) with false by (symmetry; apply Z.eqb_neq; exact Hwanted).
    rewrite Hfind. unfold JournalSystem.saveEntry, JournalSystem.updateWordCount.
    destruct text as [| a text]; [congruence |].
    destruct textarea, wordCountEl;
      cbn [JournalSystem.currentEntry JournalSystem.isEditing JournalSystem.entries
           JournalSystem.id JournalSystem.hideEditor fst snd];
      rewrite Hid, Hfind;
      cbn [JournalSystem.currentEntry JournalSystem.isEditing JournalSystem.entries
           JournalSystem.hideEditor fst snd];
      apply (dates_insert_same _ k e); [exact Hk | reflexivity | exact Hk | reflexivity
                                       | exact Hk | reflexivity | exact Hk | reflexivity].
  - intros started. cbv zeta. destruct text as [| a text]; [congruence |]. split.
    + rewrite FirstJournal_announced, saveEntry_new_length. split.
      * intros H. destruct (JournalSystem.entries j); [reflexivity | simpl in H; lia].
      * intros ->. reflexivity.
    + intros count Hin. apply JournalMaster_announced in Hin.
      rewrite saveEntry_new_length in Hin. split; [exact Hin |].
      unfold JournalSystem.points. lia.
Qed.

(** Revising the only entry of a journal announces the first entry again. *)
Lemma X24_saving_an_edit_announces_the_same_achievements_witness :
  JournalSystem.findEntry Sample.noon [Sample.pageAt Sample.noon 1]
    = Some (0%nat, Sample.pageAt Sample.noon 1) /\
  JournalSystem.FirstJournal
    ∈ JournalSystem.checkAchievements (Sample.noon + 2000)
        (snd (JournalSystem.saveEntry (Sample.noon + 1000) (Some "revised") None
                (JournalSystem.editEntry Sample.asciiSpace true true (Some Sample.noon)
                   {| JournalSystem.entries := [Sample.pageAt Sample.noon 1];
                      JournalSystem.currentEntry := None;
                      JournalSystem.isEditing := false |}))).
Proof.
  split; [reflexivity |].
  rewrite (proj1 (X24_saving_an_edit_announces_the_same_achievements
                    Sample.asciiSpace true true
                    (Sample.noon + 1000) (Sample.noon + 2000) Sample.noon "revised" None
                    {| JournalSystem.entries := [Sample.pageAt Sample.noon 1];
                       JournalSystem.currentEntry := None;
                       JournalSystem.isEditing := false |}
                    0%nat (Sample.pageAt Sample.noon 1) ltac:(discriminate))
            ltac:(discriminate) eq_refl).
  apply elem_of_cons. left. reflexivity.
Defined.

(** X26. For an achievement earned not later than now, the heading of its
    timeline group tells the elapsed time in whole days of 24 hours: "Today"
    under one such day, "Yesterday" under two, then 2 to 6 days, then 1 to 4
    weeks (with the plural from 2 weeks on), and the date itself from 30
    days on. *)
Theorem X26_timeline_heading_tells_the_elapsed_days (now date : Z) :
  date <= now ->
  match AchievementTimeline.formatDateKey now date with
  | AchievementTimeline.Today => now - date < msPerDay
  | AchievementTimeline.Yesterday => msPerDay <= now - date < 2 * msPerDay
  | AchievementTimeline.DaysAgo n =>
      2 <= n <= 6 /\ n * msPerDay <= now - date < (n + 1) * msPerDay
  | AchievementTimeline.WeeksAgo weeks plural =>
      1 <= weeks <= 4 /\
      7 * weeks * msPerDay <= now - date < 7 * (weeks + 1) * msPerDay /\
      (plural = true <-> 2 <= weeks)
  | AchievementTimeline.LongDate day => 30 * msPerDay <= now - date /\ day = toDateString date
  end.
Proof.
  intros Hpast. unfold AchievementTimeline.formatDateKey. cbv zeta.
  assert (Hms : msPerDay = 86400000) by reflexivity.
  pose proof (Z.div_mod (now - date) msPerDay ltac:(rewrite Hms; lia)) as Hdm.
  pose proof (Z.mod_pos_bound (now - date) msPerDay ltac:(rewrite Hms; lia)) as Hmod.
  set (diffDays := (now - date) / msPerDay) in *.
  set (rest := (now - date) mod msPerDay) in *.
  assert (Hnn : 0 <= diffDays) by (apply Z.div_pos; rewrite ?Hms; lia).
  clearbody diffDays rest. rewrite Hms in *.
  destruct (Z.eqb_spec diffDays 0) as [H0 | H0]; [lia |].
  destruct (Z.eqb_spec diffDays 1) as [H1 | H1]; [lia |].
  destruct (Z.ltb_spec diffDays 7) as [H7 | H7]; [lia |].
  destruct (Z.ltb_spec diffDays 30) as [H30 | H30]; [| split; [lia | reflexivity]].
  pose proof (Z.div_mod diffDays 7 ltac:(lia)) as Hw.
  pose proof (Z.mod_pos_bound diffDays 7 ltac:(lia)) as Hwm.
  set (weeks := diffDays / 7) in *. clearbody weeks.
  split; [lia |]. split; [lia |].
  destruct (Z.ltb_spec 1 weeks); split; intros; try lia; try reflexivity; discriminate.
Qed.

(** An achievement earned ten days ago is headed as one week old. *)
Lemma X26_timeline_heading_tells_the_elapsed_days_witness :
  Sample.noon - 10 * msPerDay <= Sample.noon /\
  7 * 1 * msPerDay <= Sample.noon - (Sample.noon - 10 * msPerDay).
Proof.
  assert (H : Sample.noon - 10 * msPerDay <= Sample.noon) by (vm_compute; discriminate).
  split; [exact H |].
  pose proof (X26_timeline_heading_tells_the_elapsed_days Sample.noon
                (Sample.noon - 10 * msPerDay) H) as Hheading.
  change (AchievementTimeline.formatDateKey Sample.noon (Sample.noon - 10 * msPerDay))
    with (AchievementTimeline.WeeksAgo 1 false) in Hheading.
  destruct Hheading as (_ & [Hlow _] & _). exact Hlow.
Defined.

(** ** The fractions [loadUserProgress] reports *)

Lemma ratio_is_1 (c t : Z) : 0 < t -> (inject_Z c / inject_Z t == 1)%Q <-> c = t.
Proof.
  intros Ht. destruct t as [| p | p]; try lia.
  unfold Qeq, Qdiv, Qmult, Qinv, inject_Z. simpl. lia.
Qed.

Section LoadedFractions.
Import RewardPreview.

Lemma withinTotal_intro (u : badgeUpdate) :
  0 < total u -> 0 <= current u <= total u -> withinTotal u.
Proof.
  intros Ht Hc. unfold withinTotal, progressRatio.
  split; [exact Ht |]. split; [exact Hc |].
  split; [apply ratio_nonneg; lia |].
  split; [apply ratio_le_1; lia |].
  apply ratio_is_1, Ht.
Qed.

Lemma journalUpdates_withinTotal dateStringLeb journalEntries :
  Forall withinTotal (journalUpdates dateStringLeb journalEntries).
Proof.
  unfold journalUpdates. destruct (0 <? length journalEntries)%nat; [| constructor].
  repeat constructor; apply withinTotal_intro; simpl; lia.
Qed.

Lemma moodUpdates_withinTotal dateStringLeb moodEntries :
  Forall withinTotal (moodUpdates dateStringLeb moodEntries).
Proof.
  unfold moodUpdates. destruct (0 <? length moodEntries)%nat; [| constructor].
  repeat constructor; apply withinTotal_intro; simpl; lia.
Qed.

Lemma exerciseUpdates_withinTotal progress :
  Forall withinTotal (exerciseUpdates progress).
Proof.
  unfold exerciseUpdates.
  destruct (0 <? length (default [] (completed progress)))%nat; [| constructor].
  repeat constructor; apply withinTotal_intro; simpl; lia.
Qed.

Lemma nonempty_length {A : Type} (l : list A) : l <> [] -> (0 <? length l)%nat = true.
Proof. destruct l; [congruence | reflexivity]. Qed.

End LoadedFractions.



(** ** The journal with its entry objects *)

Section EntryObjects.
Import JournalObjects.

Lemma list_find_agree {A : Type} (P Q : A -> Prop)
    `{forall x, Decision (P x)} `{forall x, Decision (Q x)} (l : list A) :
  Forall (fun x => P x <-> Q x) l -> list_find P l = list_find Q l.
Proof.
  induction 1 as [| x l Hx _ IH]; [reflexivity |].
  cbn [list_find]. rewrite IH.
  destruct (decide (P x)) as [HP | HP], (decide (Q x)) as [HQ | HQ];
    try reflexivity; tauto.
Qed.

Lemma filter_fmap_list {A B : Type} (f : A -> B) (P : B -> Prop)
    (l : list A) `{forall y, Decision (P y)} `{forall x, Decision (P (f x))} :
  filter P (f <$> l) = f <$> filter (fun x => P (f x)) l.
Proof.
  induction l as [| x l IH]; [reflexivity |].
  cbn [fmap list_fmap]. destruct (decide (P (f x))) as [HP | HP].
  - rewrite !filter_cons_True by exact HP. cbn [fmap list_fmap]. f_equal. exact IH.
  - rewrite !filter_cons_False by exact HP. exact IH.
Qed.

(** Writing an object that is not stored leaves the stored entries as they
    read. *)
Lemma stored_insert_other (objects : nat -> JournalSystem.journalEntry) (r : nat)
    (o : JournalSystem.journalEntry) (refs : list nat) :
  r ∉ refs -> <[r := o]> objects <$> refs = objects <$> refs.
Proof.
  intros Hr. apply Forall_fmap_ext_1, Forall_forall. intros e He.
  apply fn_lookup_insert_ne. intros ->. exact (Hr He).
Qed.

Lemma not_yet_allocated (j : journal) :
  wellFormed j -> allocated j ∉ entries j.
Proof.
  intros [Hrefs _] Hin.
  pose proof (proj1 (Forall_forall _ _) Hrefs _ Hin) as Hlt. simpl in Hlt. lia.
Qed.

Lemma findEntry_values (wanted : Z) (j : journal) :
  JournalSystem.findEntry wanted (stored j)
  = prod_map id (objects j) <$> findEntry wanted j.
Proof. unfold JournalSystem.findEntry, findEntry, stored. apply list_find_fmap. Qed.

Lemma resolveId_values (entryId : option Z) (j : journal) :
  JournalSystem.resolveId entryId (values j) = resolveId entryId j.
Proof. reflexivity. Qed.

Lemma findEntry_ref (wanted : Z) (j : journal) (k r : nat) :
  findEntry wanted j = Some (k, r) ->
  entries j !! k = Some r /\ JournalSystem.id (objects j r) = wanted.
Proof.
  unfold findEntry. intros Hfind.
  apply list_find_Some in Hfind as (Hk & Hid & _). split; assumption.
Qed.

Lemma startNewEntry_values (now : Z) (j : journal) :
  wellFormed j ->
  wellFormed (startNewEntry now j) /\ ownObject (startNewEntry now j) /\
  values (startNewEntry now j) = JournalSystem.startNewEntry now (values j).
Proof.
  intros Hwf. pose proof (not_yet_allocated j Hwf) as Hfresh.
  destruct Hwf as [Hrefs Hcur]. split; [| split].
  - split.
    + cbn [startNewEntry entries allocated].
      eapply Forall_impl; [exact Hrefs |]. intros r Hr. simpl in *. lia.
    + cbn [startNewEntry currentEntry allocated]. intros r [= <-]. lia.
  - intros r. cbn [startNewEntry currentEntry entries]. intros [= <-]. exact Hfresh.
  - unfold values, stored, inEditor, JournalSystem.startNewEntry.
    cbn [startNewEntry objects entries currentEntry isEditing
         JournalSystem.entries fmap option_fmap option_map].
    rewrite stored_insert_other by exact Hfresh.
    rewrite fn_lookup_insert. reflexivity.
Qed.

Lemma updateWordCount_values (isSpace : ascii -> bool) (value : option (list ascii))
    (j : journal) :
  wellFormed j -> ownObject j ->
  wellFormed (updateWordCount isSpace value j) /\
  ownObject (updateWordCount isSpace value j) /\
  values (updateWordCount isSpace value j)
  = JournalSystem.updateWordCount isSpace value (values j).
Proof.
  intros Hwf Hown. unfold updateWordCount, JournalSystem.updateWordCount.
  destruct value as [v |]; [| repeat split; assumption || apply Hwf].
  destruct (currentEntry j) as [r |] eqn:Hcur.
  - split; [| split].
    + destruct Hwf as [Hrefs Hcurrent]. split; [exact Hrefs |].
      cbn [currentEntry allocated]. intros r' [= <-]. apply Hcurrent, Hcur.
    + intros r'. cbn [currentEntry entries]. intros [= <-]. apply Hown, Hcur.
    + unfold values, stored, inEditor.
      cbn [objects entries currentEntry isEditing JournalSystem.currentEntry
           JournalSystem.entries JournalSystem.isEditing].
      rewrite Hcur. cbn [fmap option_fmap option_map].
      rewrite stored_insert_other by (apply Hown, Hcur).
      rewrite fn_lookup_insert. reflexivity.
  - split; [exact Hwf |]. split; [exact Hown |].
    unfold values at 2, inEditor. rewrite Hcur. reflexivity.
Qed.

Lemma editEntry_values (isSpace : ascii -> bool) (textarea wordCountEl : bool)
    (entryId : option Z) (j : journal) :
  wellFormed j -> ownObject j ->
  wellFormed (editEntry isSpace textarea wordCountEl entryId j) /\
  ownObject (editEntry isSpace textarea wordCountEl entryId j) /\
  values (editEntry isSpace textarea wordCountEl entryId j)
  = JournalSystem.editEntry isSpace textarea wordCountEl entryId (values j).
Proof.
  intros Hwf Hown. unfold editEntry, JournalSystem.editEntry.
  rewrite resolveId_values.
  destruct (resolveId entryId j) as [wanted |]; [| repeat split; assumption || apply Hwf].
  change (JournalSystem.entries (values j)) with (stored j).
  rewrite findEntry_values.
  destruct (findEntry wanted j) as [[k r] |] eqn:Hfind;
    [| repeat split; assumption || apply Hwf].
  cbn [fmap option_fmap option_map prod_map fst snd id].
  pose proof (not_yet_allocated j Hwf) as Hfresh.
  set (opened := {| objects := <[allocated j := objects j r]> (objects j);
                    allocated := S (allocated j);
                    entries := entries j;
                    currentEntry := Some (allocated j);
                    isEditing := true |}).
  assert (Hopened : wellFormed opened /\ ownObject opened /\
                    values opened
                    = {| JournalSystem.entries := stored j;
                         JournalSystem.currentEntry := Some (objects j r);
                         JournalSystem.isEditing := true |}).
  { split; [| split].
    - destruct Hwf as [Hrefs _]. split.
      + eapply Forall_impl; [exact Hrefs |]. intros e He. simpl in *. lia.
      + intros e [= <-]. simpl. lia.
    - intros e [= <-]. exact Hfresh.
    - unfold values, stored, inEditor, opened.
      cbn [objects entries currentEntry isEditing fmap option_fmap option_map].
      rewrite stored_insert_other by exact Hfresh.
      rewrite fn_lookup_insert. reflexivity. }
  destruct Hopened as (Hwf' & Hown' & Hvalues).
  destruct textarea.
  - rewrite <- Hvalues. apply updateWordCount_values; assumption.
  - rewrite <- Hvalues. repeat split; assumption || apply Hwf'.
Qed.

Lemma deleteEntry_values (entryId : option Z) (confirmed : bool) (j : journal) :
  wellFormed j -> ownObject j ->
  wellFormed (deleteEntry entryId confirmed j) /\
  ownObject (deleteEntry entryId confirmed j) /\
  values (deleteEntry entryId confirmed j)
  = JournalSystem.deleteEntry entryId confirmed (values j).
Proof.
  intros Hwf Hown. unfold deleteEntry, JournalSystem.deleteEntry.
  rewrite resolveId_values.
  destruct (resolveId entryId j) as [wanted |]; [| repeat split; assumption || apply Hwf].
  change (JournalSystem.entries (values j)) with (stored j).
  rewrite findEntry_values.
  destruct (findEntry wanted j) as [[k r] |] eqn:Hfind;
    [| repeat split; assumption || apply Hwf].
  cbn [fmap option_fmap option_map].
  destruct confirmed; [| repeat split; assumption || apply Hwf].
  split; [| split].
  - destruct Hwf as [Hrefs Hcurrent]. split; [| exact Hcurrent].
    cbn [entries allocated]. apply Forall_forall. intros e He.
    apply list_elem_of_filter in He as [_ He].
    exact (proj1 (Forall_forall _ _) Hrefs _ He).
  - intros e He Hin. cbn [entries currentEntry] in He, Hin.
    apply list_elem_of_filter in Hin as [_ Hin]. exact (Hown e He Hin).
  - unfold values, stored, inEditor.
    cbn [objects entries currentEntry isEditing JournalSystem.entries
         JournalSystem.currentEntry JournalSystem.isEditing].
    f_equal. symmetry.
    apply (filter_fmap_list (objects j) (fun e => JournalSystem.id e <> wanted) (entries j)).
Qed.

Lemma saveEntry_values (now : Z) (text : option string) (selectedMood : option Z)
    (j : journal) :
  wellFormed j -> ownObject j ->
  wellFormed (snd (saveEntry now text selectedMood j)) /\
  ownObject (snd (saveEntry now text selectedMood j)) /\
  fst (saveEntry now text selectedMood j)
  = fst (JournalSystem.saveEntry now text selectedMood (values j)) /\
  values (snd (saveEntry now text selectedMood j))
  = snd (JournalSystem.saveEntry now text selectedMood (values j)).
Proof.
  intros Hwf Hown. unfold saveEntry, JournalSystem.saveEntry.
  destruct text as [[| a txt] |]; try (repeat split; assumption || apply Hwf).
  change (JournalSystem.currentEntry (values j)) with (inEditor j).
  unfold inEditor at 1 2.
  destruct (currentEntry j) as [r |] eqn:Hcur;
    cbn [fmap option_fmap option_map]; [| repeat split; assumption || apply Hwf].
  pose proof (Hown r Hcur) as Hr.
  pose proof (not_yet_allocated j Hwf) as Hfresh.
  destruct Hwf as [Hrefs Hcurrent].
  change (JournalSystem.isEditing (values j)) with (isEditing j).
  change (JournalSystem.entries (values j)) with (stored j).
  set (cur' := {| JournalSystem.id := JournalSystem.id (objects j r);
                  JournalSystem.date := JournalSystem.date (objects j r);
                  JournalSystem.content := String a txt;
                  JournalSystem.mood := selectedMood;
                  JournalSystem.prompt := JournalSystem.prompt (objects j r);
                  JournalSystem.wordCount := JournalSystem.wordCount (objects j r);
                  JournalSystem.lastModified := Some now |}).
  destruct (isEditing j) eqn:Hediting.
  - assert (Hsame : list_find (fun e => JournalSystem.id (<[r := cur']> (objects j) e)
                                        = JournalSystem.id cur') (entries j)
                    = findEntry (JournalSystem.id cur') j).
    { unfold findEntry. apply list_find_agree, Forall_forall. intros e He.
      rewrite fn_lookup_insert_ne; [reflexivity |]. intros ->. exact (Hr He). }
    rewrite Hsame, findEntry_values.
    destruct (findEntry (JournalSystem.id cur') j) as [[index e] |] eqn:Hfind;
      cbn [fmap option_fmap option_map prod_map fst snd].
    + split; [| split; [| split]].
      * split; [| intros e' He'; discriminate He'].
        cbn [hideEditor entries allocated].
        apply Forall_insert; [| lia].
        eapply Forall_impl; [exact Hrefs |]. intros e' He'. simpl in *. lia.
      * intros e' He'. discriminate He'.
      * reflexivity.
      * unfold values, stored, inEditor, JournalSystem.hideEditor.
        cbn [hideEditor objects entries currentEntry isEditing fmap option_fmap option_map
             JournalSystem.entries].
        f_equal. rewrite list_fmap_insert, fn_lookup_insert. f_equal.
        rewrite stored_insert_other by exact Hfresh.
        apply stored_insert_other, Hr.
    + split; [| split; [| split]].
      * split; [exact Hrefs | intros e' He'; discriminate He'].
      * intros e' He'. discriminate He'.
      * reflexivity.
      * unfold values, stored, inEditor, JournalSystem.hideEditor.
        cbn [hideEditor objects entries currentEntry isEditing fmap option_fmap option_map
             JournalSystem.entries].
        f_equal. apply stored_insert_other, Hr.
  - split; [| split; [| split]].
    + split; [| intros e' He'; discriminate He'].
      cbn [hideEditor entries allocated]. constructor; [apply Hcurrent, Hcur | exact Hrefs].
    + intros e' He'. discriminate He'.
    + reflexivity.
    + unfold values, stored, inEditor, JournalSystem.hideEditor.
      cbn [fst snd hideEditor objects entries currentEntry isEditing JournalSystem.entries].
      rewrite fmap_cons, fn_lookup_insert, (stored_insert_other _ _ _ _ Hr). reflexivity.
Qed.

(** [viewEntry] puts a stored object into the editor and changes nothing
    that can be read. *)
Lemma viewEntry_aliases (entryId : Z) (j : journal) (k r : nat) :
  findEntry entryId j = Some (k, r) ->
  currentEntry (viewEntry entryId j) = Some r /\
  entries (viewEntry entryId j) = entries j /\
  objects (viewEntry entryId j) = objects j /\
  isEditing (viewEntry entryId j) = isEditing j.
Proof. intros Hfind. unfold viewEntry. rewrite Hfind. repeat split. Qed.

End EntryObjects.

(** X28. Viewing a stored entry puts that very object into the editor.  If
    the journal is not in edit mode and a non-empty text is then saved, the
    text, the mood and the time are written into the stored object and the
    same object is put in front of the entries once more: the journal reads
    one entry longer, with the rewritten entry both in front and at the place
    it was stored at, and the entries that are other objects as they were.
    The journal of values keeps the old entry at that place. *)
Theorem X28_saving_a_viewed_entry_rewrites_it_in_place
    (now entryId : Z) (text : string) (selectedMood : option Z)
    (j : JournalObjects.journal) (k r : nat) :
  JournalObjects.findEntry entryId j = Some (k, r) ->
  JournalObjects.isEditing j = false ->
  text <> EmptyString ->
  let old := JournalObjects.objects j r in
  let rewritten :=
    {| JournalSystem.id := JournalSystem.id old; JournalSystem.date := JournalSystem.date old;
       JournalSystem.content := text; JournalSystem.mood := selectedMood;
       JournalSystem.prompt := JournalSystem.prompt old;
       JournalSystem.wordCount := JournalSystem.wordCount old;
       JournalSystem.lastModified := Some now |} in
  let j' := snd (JournalObjects.saveEntry now (Some text) selectedMood
                   (JournalObjects.viewEntry entryId j)) in
  JournalObjects.stored j !! k = Some old /\
  JournalObjects.stored (JournalObjects.viewEntry entryId j) = JournalObjects.stored j /\
  length (JournalObjects.stored j') = S (length (JournalObjects.stored j)) /\
  JournalObjects.stored j' !! 0%nat = Some rewritten /\
  JournalObjects.stored j' !! S k = Some rewritten /\
  (forall i e,
     JournalObjects.entries j !! i = Some e -> e <> r ->
     JournalObjects.stored j' !! S i = JournalObjects.stored j !! i) /\
  JournalSystem.entries
    (snd (JournalSystem.saveEntry now (Some text) selectedMood
            (JournalObjects.values (JournalObjects.viewEntry entryId j)))) !! S k
  = Some old.
Proof.
  intros Hfind Hediting Htext. cbv zeta.
  pose proof (findEntry_ref _ _ _ _ Hfind) as [Hk _].
  unfold JournalObjects.viewEntry. rewrite Hfind.
  unfold JournalObjects.saveEntry, JournalSystem.saveEntry, JournalObjects.values,
    JournalObjects.inEditor.
  destruct text as [| a text]; [congruence |].
  cbn [JournalSystem.currentEntry JournalSystem.isEditing JournalSystem.entries
       JournalObjects.currentEntry JournalObjects.isEditing fmap option_fmap option_map].
  cbn [JournalObjects.currentEntry JournalObjects.isEditing JournalObjects.objects
       JournalObjects.entries].
  rewrite Hediting.
  unfold JournalObjects.stored.
  cbn [fst snd JournalObjects.hideEditor JournalObjects.objects JournalObjects.entries].
  split; [rewrite list_lookup_fmap, Hk; reflexivity |].
  split; [reflexivity |].
  split; [rewrite fmap_cons; cbn [length]; rewrite !length_fmap; reflexivity |].
  rewrite fmap_cons, fn_lookup_insert.
  split; [reflexivity |].
  split.
  { rewrite lookup_cons, list_lookup_fmap, Hk. cbn [fmap option_fmap option_map].
    rewrite fn_lookup_insert. reflexivity. }
  split.
  - intros i e Hi He.
    rewrite lookup_cons, !list_lookup_fmap, Hi. cbn [fmap option_fmap option_map].
    rewrite fn_lookup_insert_ne by congruence. reflexivity.
  - cbn [JournalSystem.hideEditor JournalSystem.entries JournalObjects.objects
         JournalObjects.entries].
    rewrite lookup_cons, list_lookup_fmap, Hk. reflexivity.
Qed.

(** New Entry, then a click on the entry of yesterday, then Save: the
    journal of two entries reads as three, the first and the last being the
    rewritten entry of yesterday. *)
Lemma X28_saving_a_viewed_entry_rewrites_it_in_place_witness :
  JournalObjects.findEntry (Sample.noon - msPerDay)
    (JournalObjects.startNewEntry (Sample.noon + 1000) Sample.twoObjects)
    = Some (1%nat, 1%nat) /\
  JournalObjects.isEditing (JournalObjects.startNewEntry (Sample.noon + 1000) Sample.twoObjects)
    = false /\
  "revised" <> EmptyString /\
  map JournalSystem.content (JournalObjects.stored Sample.twoObjects) = ["text"; "text"] /\
  map JournalSystem.content
    (JournalObjects.stored
       (snd (JournalObjects.saveEntry (Sample.noon + 2000) (Some "revised") None
               (JournalObjects.viewEntry (Sample.noon - msPerDay)
                  (JournalObjects.startNewEntry (Sample.noon + 1000) Sample.twoObjects)))))
    = ["revised"; "text"; "revised"] /\
  JournalObjects.stored
    (snd (JournalObjects.saveEntry (Sample.noon + 2000) (Some "revised") None
            (JournalObjects.viewEntry (Sample.noon - msPerDay)
               (JournalObjects.startNewEntry (Sample.noon + 1000) Sample.twoObjects))))
    !! 2%nat
  = Some {| JournalSystem.id := Sample.noon - msPerDay;
            JournalSystem.date := Sample.noon - msPerDay;
            JournalSystem.content := "revised"; JournalSystem.mood := None;
            JournalSystem.prompt := None; JournalSystem.wordCount := Some 2;
            JournalSystem.lastModified := Some (Sample.noon + 2000) |}.
Proof.
  split; [reflexivity |]. split; [reflexivity |]. split; [discriminate |].
  split; [reflexivity |]. split; [reflexivity |].
  exact (proj1 (proj2 (proj2 (proj2 (proj2
           (X28_saving_a_viewed_entry_rewrites_it_in_place
              (Sample.noon + 2000) (Sample.noon - msPerDay) "revised" None
              (JournalObjects.startNewEntry (Sample.noon + 1000) Sample.twoObjects)
              1%nat 1%nat eq_refl eq_refl ltac:(discriminate))))))).
Defined.

(** X29. As long as every reference held is one of an object created and the
    object in the editor is none of the stored ones, the journal of objects
    reads as the journal of values does: starting a new entry, opening an
    entry for editing, counting the words, saving and deleting keep that
    state and give the journal, and the completion, that [JournalSystem]
    gives on the values.  Only [viewEntry] leaves that state. *)
Theorem X29_entry_values_agree_with_entry_objects (j : JournalObjects.journal) :
  JournalObjects.wellFormed j ->
  JournalObjects.ownObject j ->
  (forall now,
     let j' := JournalObjects.startNewEntry now j in
     JournalObjects.wellFormed j' /\ JournalObjects.ownObject j' /\
     JournalObjects.values j' = JournalSystem.startNewEntry now (JournalObjects.values j)) /\
  (forall isSpace textarea wordCountEl entryId,
     let j' := JournalObjects.editEntry isSpace textarea wordCountEl entryId j in
     JournalObjects.wellFormed j' /\ JournalObjects.ownObject j' /\
     JournalObjects.values j'
     = JournalSystem.editEntry isSpace textarea wordCountEl entryId (JournalObjects.values j)) /\
  (forall isSpace value,
     let j' := JournalObjects.updateWordCount isSpace value j in
     JournalObjects.wellFormed j' /\ JournalObjects.ownObject j' /\
     JournalObjects.values j'
     = JournalSystem.updateWordCount isSpace value (JournalObjects.values j)) /\
  (forall now text selectedMood,
     let saved := JournalObjects.saveEntry now text selectedMood j in
     JournalObjects.wellFormed (snd saved) /\ JournalObjects.ownObject (snd saved) /\
     fst saved
     = fst (JournalSystem.saveEntry now text selectedMood (JournalObjects.values j)) /\
     JournalObjects.values (snd saved)
     = snd (JournalSystem.saveEntry now text selectedMood (JournalObjects.values j))) /\
  (forall entryId confirmed,
     let j' := JournalObjects.deleteEntry entryId confirmed j in
     JournalObjects.wellFormed j' /\ JournalObjects.ownObject j' /\
     JournalObjects.values j'
     = JournalSystem.deleteEntry entryId confirmed (JournalObjects.values j)) /\
  (forall entryId k r,
     JournalObjects.findEntry entryId j = Some (k, r) ->
     ~ JournalObjects.ownObject (JournalObjects.viewEntry entryId j)).
Proof.
  intros Hwf Hown. split; [| split; [| split; [| split; [| split]]]].
  - intros now. cbv zeta. apply startNewEntry_values, Hwf.
  - intros isSpace textarea wordCountEl entryId. cbv zeta.
    apply editEntry_values; assumption.
  - intros isSpace value. cbv zeta. apply updateWordCount_values; assumption.
  - intros now text selectedMood. cbv zeta. apply saveEntry_values; assumption.
  - intros entryId confirmed. cbv zeta. apply deleteEntry_values; assumption.
  - intros entryId k r Hfind Hview.
    pose proof (findEntry_ref _ _ _ _ Hfind) as [Hk _].
    pose proof (viewEntry_aliases _ _ _ _ Hfind) as (Hcur & Hentries & _).
    apply (Hview r Hcur). rewrite Hentries.
    apply list_elem_of_lookup. exists k. exact Hk.
Qed.

(** The journal of two stored entries: a new entry is started and saved,
    and the journal of objects reads as the journal of values does, with
    three entries. *)
Lemma X29_entry_values_agree_with_entry_objects_witness :
  JournalObjects.wellFormed Sample.twoObjects /\
  JournalObjects.ownObject Sample.twoObjects /\
  JournalObjects.values
    (snd (JournalObjects.saveEntry (Sample.noon + 2000) (Some "a quiet day") None
            (JournalObjects.startNewEntry (Sample.noon + 1000) Sample.twoObjects)))
  = snd (JournalSystem.saveEntry (Sample.noon + 2000) (Some "a quiet day") None
           (JournalSystem.startNewEntry (Sample.noon + 1000)
              (JournalObjects.values Sample.twoObjects))) /\
  map JournalSystem.content
    (JournalObjects.stored
       (snd (JournalObjects.saveEntry (Sample.noon + 2000) (Some "a quiet day") None
               (JournalObjects.startNewEntry (Sample.noon + 1000) Sample.twoObjects))))
  = ["a quiet day"; "text"; "text"].
Proof.
  assert (Hwf : JournalObjects.wellFormed Sample.twoObjects).
  { split; [| intros r Hr; discriminate Hr].
    repeat constructor. }
  assert (Hown : JournalObjects.ownObject Sample.twoObjects)
    by (intros r Hr; discriminate Hr).
  split; [exact Hwf |]. split; [exact Hown |].
  destruct (X29_entry_values_agree_with_entry_objects Sample.twoObjects Hwf Hown)
    as (Hstart & _).
  destruct (Hstart (Sample.noon + 1000)) as (Hwf' & Hown' & Hvalues).
  destruct (X29_entry_values_agree_with_entry_objects _ Hwf' Hown')
    as (_ & _ & _ & Hsave & _).
  destruct (Hsave (Sample.noon + 2000) (Some "a quiet day") None) as (_ & _ & _ & Hsaved).
  split; [rewrite <- Hvalues; exact Hsaved | reflexivity].
Defined.
